(** * Migration tooling of luxfi/cli: a shallow embedding

    Three scripts are embedded: [fix_genesis_coinbase.py] (the coinbase
    normalizer and the in-place file fixer), [export-blockchain-rpc.py]
    (the RPC block exporter) and [read-migrated-state.py] (the export
    analyzer).

    Conventions of the embedding.
    - A Python JSON value is a [json] tree.  Objects are association lists
      in insertion order (the order [dict.items()] and [json.dumps] use);
      a Python dict never holds a key twice, which is the predicate [wf].
      Numbers are integers: none of the scripts computes with a
      non-integer JSON number, and float literals are outside the model.
      Characters are one-byte code points.
    - A Python function that prints and may raise is a computation in
      [M W A]: the list of effects performed so far, in program order,
      and either a value or the exception that escaped.
    - [json.loads] and [json.dumps] belong to Python's library; the
      general statements take them as parameters, and module [JsonText]
      gives a concrete codec for running the scripts on concrete text. *)

From Stdlib Require Import ZArith String Ascii List Bool Lia.
From Stdlib Require Import DecimalString HexadecimalString.
From stdpp Require Import base option list gmap strings.
Import ListNotations.
Local Open Scope string_scope.
Local Open Scope list_scope.

(** ** Python values and builtins *)

Module Py.

#[warnings="-register-all"]
Inductive json : Type :=
| JNull
| JBool (b : bool)
| JNum (z : Z)
| JStr (s : string)
| JList (items : list json)
| JDict (items : list (string * json)).

(** Exceptions the three scripts can meet. *)
Inductive exn : Type :=
| AttributeError
| TypeError
| ValueError
| KeyError
| JSONDecodeError
| RecursionError
| FileNotFoundError.

Inductive result (A : Type) : Type :=
| Ok (a : A)
| Raise (e : exn).
Arguments Ok {A} a.
Arguments Raise {A} e.

(** Effects in program order, then the outcome. *)
Definition M (W A : Type) : Type := (list W * result A)%type.

Definition ret {W A} (a : A) : M W A := ([], Ok a).
Definition raise {W A} (e : exn) : M W A := ([], Raise e).
Definition tell {W} (w : W) : M W unit := ([w], Ok tt).

Definition bind {W A B} (m : M W A) (k : A -> M W B) : M W B :=
  match m with
  | (l, Ok a) => let '(l', r) := k a in (l ++ l', r)
  | (l, Raise e) => (l, Raise e)
  end.

(** [try: body except (e1, e2, ...): handler]: what the body printed
    before raising stays printed. *)
Definition catch {W A} (caught : exn -> bool) (body : M W A)
    (handler : exn -> M W A) : M W A :=
  match body with
  | (l, Raise e) =>
      if caught e then let '(l', r) := handler e in (l ++ l', r)
      else (l, Raise e)
  | (l, Ok a) => (l, Ok a)
  end.

Definition effects {W A} (m : M W A) : list W := fst m.
Definition outcome {W A} (m : M W A) : result A := snd m.

(** A computation run with another effect alphabet. *)
Definition lift {W W' A} (f : W -> W') (m : M W A) : M W' A :=
  (map f (fst m), snd m).

End Py.

Export Py.

Declare Scope py_scope.
Delimit Scope py_scope with py.
Notation "x <- m ;; k" := (bind m (fun x => k))
  (at level 100, m at next level, right associativity) : py_scope.
Notation "m ;;; k" := (bind m (fun _ => k))
  (at level 100, right associativity) : py_scope.
Local Open Scope py_scope.

Module PyStr.

(** [s[:n]] *)
Fixpoint take (n : nat) (s : string) : string :=
  match n, s with
  | S n', String c s' => String c (take n' s')
  | _, _ => EmptyString
  end.

(** [s[n:]] *)
Fixpoint drop (n : nat) (s : string) : string :=
  match n, s with
  | S n', String _ s' => drop n' s'
  | _, _ => s
  end.

(** [s.startswith(p)] *)
Fixpoint startswith (p s : string) : bool :=
  match p with
  | EmptyString => true
  | String a p' =>
      match s with
      | String b s' => Ascii.eqb a b && startswith p' s'
      | EmptyString => false
      end
  end.

(** [len(s)] *)
Definition len (s : string) : nat := String.length s.

End PyStr.

Module PyDict.

(** [data.get(key)] as an option: [None] when the key is absent. *)
Fixpoint lookup (key : string) (items : list (string * json)) : option json :=
  match items with
  | [] => None
  | (k, v) :: rest => if String.eqb k key then Some v else lookup key rest
  end.

(** [key in data] *)
Definition mem (key : string) (items : list (string * json)) : bool :=
  match lookup key items with Some _ => true | None => false end.

(** [data[key] = v]: an existing key keeps its place, a new one goes last. *)
Fixpoint set (key : string) (v : json) (items : list (string * json))
  : list (string * json) :=
  match items with
  | [] => [(key, v)]
  | (k, old) :: rest =>
      if String.eqb k key then (k, v) :: rest else (k, old) :: set key v rest
  end.

(** [data.get(key, default)] *)
Definition get (key : string) (default : json) (items : list (string * json)) : json :=
  match lookup key items with Some v => v | None => default end.

Definition keys (items : list (string * json)) : list string := map fst items.

End PyDict.

(** ** fix_genesis_coinbase.py *)

Module FixGenesisCoinbase.

(** The two lines [fix_coinbase_in_json] prints. *)
Inductive event : Type :=
| FixedCoinbase (before after : string)
| UnexpectedLength (n : nat) (coinbase : string).

Section Normalizer.

(** [json.loads(text)], [None] standing for [json.JSONDecodeError], and
    [json.dumps(doc, separators=(',', ':'))]. *)
Variable loads : string -> option json.
Variable dumps : json -> string.

Definition json_loads (text : string) : M event json :=
  match loads text with
  | Some doc => ret doc
  | None => raise JSONDecodeError
  end.

(** The [if 'coinbase' in data:] block.  [coinbase.startswith] exists on
    strings only. *)
Definition fix_coinbase_field (data : list (string * json))
  : M event (list (string * json)) :=
  match PyDict.lookup "coinbase" data with
  | None => ret data
  | Some (JStr coinbase) =>
      if PyStr.startswith "0x" coinbase then
        let hex_part := PyStr.drop 2 coinbase in
        if Nat.eqb (PyStr.len hex_part) 64 then
          let fixed := "0x" +:+ PyStr.take 40 hex_part in
          tell (FixedCoinbase coinbase fixed) ;;;
          ret (PyDict.set "coinbase" (JStr fixed) data)
        else if negb (Nat.eqb (PyStr.len hex_part) 40) then
          tell (UnexpectedLength (PyStr.len hex_part) coinbase) ;;;
          ret data
        else ret data
      else ret data
  | Some _ => raise AttributeError
  end.

Definition caught_in_embedded (e : exn) : bool :=
  match e with
  | JSONDecodeError | TypeError => true
  | _ => false
  end.

(** One turn of [for key, value in data.items()]; the result is the value
    found under [key] afterwards.  [self] is the recursive call. *)
Definition fix_item (self : json -> M event json) (key : string) (value : json)
  : M event json :=
  match value with
  | JDict _ | JList _ => self value
  | JStr text =>
      if String.eqb key "cChainGenesis" then
        catch caught_in_embedded
          (embedded <- json_loads text ;;
           embedded <- self embedded ;;
           ret (JStr (dumps embedded)))
          (fun _ => ret value)
      else ret value
  | _ => ret value
  end.

Fixpoint fix_items (self : json -> M event json) (items : list (string * json))
  : M event (list (string * json)) :=
  match items with
  | [] => ret []
  | (key, value) :: rest =>
      value <- fix_item self key value ;;
      rest <- fix_items self rest ;;
      ret ((key, value) :: rest)
  end.

(** [for item in data: fix_coinbase_in_json(item)] *)
Fixpoint fix_list (self : json -> M event json) (items : list json)
  : M event (list json) :=
  match items with
  | [] => ret []
  | item :: rest =>
      item <- self item ;;
      rest <- fix_list self rest ;;
      ret (item :: rest)
  end.

Definition fix_body (self : json -> M event json) (data : json) : M event json :=
  match data with
  | JDict items =>
      items <- fix_coinbase_field items ;;
      items <- fix_items self items ;;
      ret (JDict items)
  | JList items =>
      items <- fix_list self items ;;
      ret (JList items)
  | _ => ret data
  end.

(** [fix_coinbase_in_json(data)] with [depth] nested calls available
    (the interpreter raises [RecursionError] beyond its limit); the value
    returned is [data] as the call leaves it. *)
Fixpoint fix_coinbase_in_json (depth : nat) (data : json) : M event json :=
  match depth with
  | O => raise RecursionError
  | S depth => fix_body (fix_coinbase_in_json depth) data
  end.

(** The file fixer.  [json.load(f)] is [json.loads(f.read())];
    [dumps_indent] is [json.dumps(doc, indent=2)]. *)
Variable dumps_indent : json -> string.
Variable recursion_limit : nat.

Inductive message : Type :=
| Processing (path : string)
| CreatedBackup (path : string)
| Normalizer (e : event)
| Saved (path : string)
| ErrorProcessing (path : string) (e : exn).

Inductive effect : Type :=
| Print (m : message)
| Write (path content : string).

Definition files : Type := gmap string string.

Definition open_read (fs : files) (path : string) : M effect string :=
  match fs !! path with
  | Some text => ret text
  | None => raise FileNotFoundError
  end.

(** The body of the [try]. *)
Definition fix_genesis_try (fs : files) (filepath : string) : M effect unit :=
  text <- open_read fs filepath ;;
  data <- lift (fun e => Print (Normalizer e)) (json_loads text) ;;
  let backup_path := filepath +:+ ".backup" in
  (if bool_decide (is_Some (fs !! backup_path)) then ret tt
   else (tell (Write backup_path (dumps_indent data)) ;;;
         tell (Print (CreatedBackup backup_path)))) ;;;
  data <- lift (fun e => Print (Normalizer e))
               (fix_coinbase_in_json recursion_limit data) ;;
  tell (Write filepath (dumps_indent data)) ;;;
  tell (Print (Saved filepath)).

(** [fix_genesis_file(filepath)]: its effects, in order.  [except Exception]
    catches every exception of the model. *)
Definition fix_genesis_file (fs : files) (filepath : string) : list effect :=
  effects
    (tell (Print (Processing filepath)) ;;;
     catch (fun _ => true)
       (fix_genesis_try fs filepath)
       (fun e => tell (Print (ErrorProcessing filepath e)))).

End Normalizer.

(** What a run leaves on disk. *)
Definition apply_effect (fs : files) (e : effect) : files :=
  match e with
  | Print _ => fs
  | Write path content => <[path := content]> fs
  end.

Definition files_after (fs : files) (run : list effect) : files :=
  fold_left apply_effect run fs.

(** Every [Write] to [path] in [run], started on [fs], finds [guard] on
    disk. *)
Fixpoint written_under (guard path : string) (fs : files) (run : list effect)
  : Prop :=
  match run with
  | [] => True
  | e :: rest =>
      match e with
      | Write p _ => p = path -> is_Some (fs !! guard)
      | Print _ => True
      end
      /\ written_under guard path (apply_effect fs e) rest
  end.

(** The contents written to [path] during [run], in order. *)
Definition written_to (path : string) (run : list effect) : list string :=
  omap (fun e => match e with
                 | Write p content => if String.eqb p path then Some content else None
                 | Print _ => None
                 end) run.

End FixGenesisCoinbase.

(** ** A concrete JSON codec

    [JsonText.dumps] writes what [json.dumps(doc, separators=(',', ':'))]
    writes, and [JsonText.loads] reads JSON text the way [json.loads]
    does, on the integer fragment: a number with a fraction or an
    exponent, [NaN], [Infinity] and an escape [\uXXXX] beyond one byte
    are outside the model and are refused. *)

Module JsonText.

Definition quote : ascii := "034"%char.
Definition backslash : ascii := "092"%char.

Definition is_ws (c : ascii) : bool :=
  match c with
  | "032"%char | "009"%char | "010"%char | "013"%char => true
  | _ => false
  end.

Fixpoint skip_ws (s : string) : string :=
  match s with
  | String c rest => if is_ws c then skip_ws rest else s
  | EmptyString => s
  end.

(** *** Writing *)

Definition hex_char (n : nat) : ascii :=
  match n with
  | 0 => "0" | 1 => "1" | 2 => "2" | 3 => "3" | 4 => "4" | 5 => "5"
  | 6 => "6" | 7 => "7" | 8 => "8" | 9 => "9" | 10 => "a" | 11 => "b"
  | 12 => "c" | 13 => "d" | 14 => "e" | _ => "f"
  end%char.

(** [ensure_ascii] escaping of one character. *)
Definition escape_char (c : ascii) : string :=
  let n := nat_of_ascii c in
  if Ascii.eqb c quote then String backslash (String quote "")
  else if Ascii.eqb c backslash then String backslash (String backslash "")
  else if Nat.eqb n 10 then String backslash "n"
  else if Nat.eqb n 13 then String backslash "r"
  else if Nat.eqb n 9 then String backslash "t"
  else if Nat.eqb n 8 then String backslash "b"
  else if Nat.eqb n 12 then String backslash "f"
  else if (32 <=? n)%nat && (n <=? 126)%nat then String c ""
  else String backslash
         (String "u" (String "0" (String "0"
            (String (hex_char (n / 16)) (String (hex_char (n mod 16)) ""))))).

Fixpoint escape (s : string) : string :=
  match s with
  | EmptyString => ""
  | String c rest => escape_char c +:+ escape rest
  end.

Definition dump_string (s : string) : string :=
  String quote (escape s +:+ String quote "").

Definition dump_int (z : Z) : string :=
  match z with
  | Z0 => "0"
  | Zpos p => DecimalString.NilEmpty.string_of_uint (Pos.to_uint p)
  | Zneg p => String "-" (DecimalString.NilEmpty.string_of_uint (Pos.to_uint p))
  end.

Section Containers.
Variable dump : json -> string.

(** The elements of an array, joined by [,]. *)
Fixpoint dump_elements (items : list json) : string :=
  match items with
  | [] => ""
  | item :: rest =>
      match rest with
      | [] => dump item
      | _ => dump item +:+ String "," (dump_elements rest)
      end
  end.

(** The members of an object, [key:value] joined by [,]. *)
Fixpoint dump_members (items : list (string * json)) : string :=
  match items with
  | [] => ""
  | (key, value) :: rest =>
      match rest with
      | [] => dump_string key +:+ String ":" (dump value)
      | _ => dump_string key +:+ String ":" (dump value)
               +:+ String "," (dump_members rest)
      end
  end.

End Containers.

Fixpoint dumps (doc : json) : string :=
  match doc with
  | JNull => "null"
  | JBool true => "true"
  | JBool false => "false"
  | JNum z => dump_int z
  | JStr s => dump_string s
  | JList items => String "[" (dump_elements dumps items +:+ "]")
  | JDict items => String "{" (dump_members dumps items +:+ "}")
  end.

(** [json.dumps(doc, indent=2)]: one element or member per line, two
    blanks per level, [": "] after a key. *)
Fixpoint blanks (n : nat) : string :=
  match n with
  | O => ""
  | S n => String " " (blanks n)
  end.

Definition newline_indent (level : nat) : string :=
  String "010" (blanks (2 * level)).

Section Indented.
Variable dump : json -> string.
Variable separator : string.

Fixpoint join_elements (items : list json) : string :=
  match items with
  | [] => ""
  | item :: rest =>
      match rest with
      | [] => dump item
      | _ => dump item +:+ separator +:+ join_elements rest
      end
  end.

Fixpoint join_members (items : list (string * json)) : string :=
  match items with
  | [] => ""
  | (key, value) :: rest =>
      match rest with
      | [] => dump_string key +:+ ": " +:+ dump value
      | _ => dump_string key +:+ ": " +:+ dump value +:+ separator
               +:+ join_members rest
      end
  end.

End Indented.

Fixpoint dumps_indent (level : nat) (doc : json) : string :=
  match doc with
  | JList [] => "[]"
  | JDict [] => "{}"
  | JList items =>
      "[" +:+ newline_indent (S level)
      +:+ join_elements (dumps_indent (S level))
            (String "," (newline_indent (S level))) items
      +:+ newline_indent level +:+ "]"
  | JDict items =>
      "{" +:+ newline_indent (S level)
      +:+ join_members (dumps_indent (S level))
            (String "," (newline_indent (S level))) items
      +:+ newline_indent level +:+ "}"
  | _ => dumps doc
  end.

(** *** Reading *)

Definition hex_val (c : ascii) : option nat :=
  let n := nat_of_ascii c in
  if (48 <=? n)%nat && (n <=? 57)%nat then Some (n - 48)
  else if (97 <=? n)%nat && (n <=? 102)%nat then Some (n - 87)
  else if (65 <=? n)%nat && (n <=? 70)%nat then Some (n - 55)
  else None.

Definition simple_escape (c : ascii) : option ascii :=
  match c with
  | "034"%char => Some "034"%char
  | "092"%char => Some "092"%char
  | "/"%char => Some "/"%char
  | "b"%char => Some "008"%char
  | "f"%char => Some "012"%char
  | "n"%char => Some "010"%char
  | "r"%char => Some "013"%char
  | "t"%char => Some "009"%char
  | _ => None
  end.

Definition cons_char (c : ascii) (r : option (string * string))
  : option (string * string) :=
  match r with
  | Some (s, rest) => Some (String c s, rest)
  | None => None
  end.

(** The characters of a string literal after its opening quote, and the
    text after its closing quote.  A raw control character is refused
    ([strict=True]). *)
Fixpoint parse_chars (s : string) : option (string * string) :=
  match s with
  | EmptyString => None
  | String c rest =>
      if Ascii.eqb c quote then Some ("", rest)
      else if Ascii.eqb c backslash then
        match rest with
        | String e rest1 =>
            match simple_escape e with
            | Some ch => cons_char ch (parse_chars rest1)
            | None =>
                if Ascii.eqb e "u" then
                  match rest1 with
                  | String h1 (String h2 (String h3 (String h4 rest2))) =>
                      match hex_val h1, hex_val h2, hex_val h3, hex_val h4 with
                      | Some 0, Some 0, Some a, Some b =>
                          cons_char (ascii_of_nat (16 * a + b)) (parse_chars rest2)
                      | _, _, _, _ => None
                      end
                  | _ => None
                  end
                else None
            end
        | EmptyString => None
        end
      else if (nat_of_ascii c <? 32)%nat then None
      else cons_char c (parse_chars rest)
  end.

Definition digit_of (c : ascii) : option (Decimal.uint -> Decimal.uint) :=
  match c with
  | "0"%char => Some Decimal.D0 | "1"%char => Some Decimal.D1
  | "2"%char => Some Decimal.D2 | "3"%char => Some Decimal.D3
  | "4"%char => Some Decimal.D4 | "5"%char => Some Decimal.D5
  | "6"%char => Some Decimal.D6 | "7"%char => Some Decimal.D7
  | "8"%char => Some Decimal.D8 | "9"%char => Some Decimal.D9
  | _ => None
  end.

(** The longest run of decimal digits at the head of [s]. *)
Fixpoint scan_uint (s : string) : Decimal.uint * string :=
  match s with
  | EmptyString => (Decimal.Nil, s)
  | String c rest =>
      match digit_of c with
      | Some d => let '(ds, rest') := scan_uint rest in (d ds, rest')
      | None => (Decimal.Nil, s)
      end
  end.

Definition starts_float_tail (s : string) : bool :=
  match s with
  | String "."%char _ | String "e"%char _ | String "E"%char _ => true
  | _ => false
  end.

(** An unsigned integer literal [0|[1-9][0-9]*].  After a leading [0],
    or before a fraction or an exponent, no JSON text continues validly
    within the integer fragment. *)
Definition parse_uint (s : string) : option (Z * string) :=
  match scan_uint s with
  | (Decimal.Nil, _) => None
  | (Decimal.D0 Decimal.Nil, rest) =>
      if starts_float_tail rest then None else Some (0%Z, rest)
  | (Decimal.D0 _, _) => None
  | (ds, rest) =>
      if starts_float_tail rest then None else Some (Z.of_uint ds, rest)
  end.

Definition expect (word : string) (value : json) (s : string)
  : option (json * string) :=
  if PyStr.startswith word s then Some (value, PyStr.drop (String.length word) s)
  else None.

(** Python builds the dict by assigning the pairs in order. *)
Definition dict_of_pairs (pairs : list (string * json)) : list (string * json) :=
  fold_left (fun d kv => PyDict.set (fst kv) (snd kv) d) pairs [].

(** [s] after its first character when that is [c]. *)
Definition after (c : ascii) (s : string) : option string :=
  match s with
  | String c' rest => if Ascii.eqb c' c then Some rest else None
  | EmptyString => None
  end.

Fixpoint parse_value (fuel : nat) (s : string) {struct fuel}
  : option (json * string) :=
  match fuel with
  | O => None
  | S fuel =>
      match s with
      | EmptyString => None
      | String c rest =>
          if Ascii.eqb c quote then
            match parse_chars rest with
            | Some (str, rest) => Some (JStr str, rest)
            | None => None
            end
          else if Ascii.eqb c "[" then
            match after "]" (skip_ws rest) with
            | Some rest => Some (JList [], rest)
            | None =>
                match parse_elements fuel (skip_ws rest) with
                | Some (items, rest) => Some (JList items, rest)
                | None => None
                end
            end
          else if Ascii.eqb c "{" then
            match after "}" (skip_ws rest) with
            | Some rest => Some (JDict [], rest)
            | None =>
                match parse_members fuel (skip_ws rest) with
                | Some (pairs, rest) => Some (JDict (dict_of_pairs pairs), rest)
                | None => None
                end
            end
          else if Ascii.eqb c "n" then expect "ull" JNull rest
          else if Ascii.eqb c "t" then expect "rue" (JBool true) rest
          else if Ascii.eqb c "f" then expect "alse" (JBool false) rest
          else if Ascii.eqb c "-" then
            match parse_uint rest with
            | Some (z, rest) => Some (JNum (- z), rest)
            | None => None
            end
          else
            match parse_uint s with
            | Some (z, rest) => Some (JNum z, rest)
            | None => None
            end
      end
  end
(** [s] starts at an element; the result ends after the closing bracket. *)
with parse_elements (fuel : nat) (s : string) {struct fuel}
  : option (list json * string) :=
  match fuel with
  | O => None
  | S fuel =>
      match parse_value fuel s with
      | Some (item, rest) =>
          match after "," (skip_ws rest) with
          | Some rest =>
              match parse_elements fuel (skip_ws rest) with
              | Some (items, rest) => Some (item :: items, rest)
              | None => None
              end
          | None =>
              match after "]" (skip_ws rest) with
              | Some rest => Some ([item], rest)
              | None => None
              end
          end
      | None => None
      end
  end
(** [s] starts at a key; the result ends after the closing brace. *)
with parse_members (fuel : nat) (s : string) {struct fuel}
  : option (list (string * json) * string) :=
  match fuel with
  | O => None
  | S fuel =>
      match after quote s with
      | Some rest =>
          match parse_chars rest with
          | Some (key, rest) =>
              match after ":" (skip_ws rest) with
              | Some rest =>
                  match parse_value fuel (skip_ws rest) with
                  | Some (value, rest) =>
                      match after "," (skip_ws rest) with
                      | Some rest =>
                          match parse_members fuel (skip_ws rest) with
                          | Some (pairs, rest) => Some ((key, value) :: pairs, rest)
                          | None => None
                          end
                      | None =>
                          match after "}" (skip_ws rest) with
                          | Some rest => Some ([(key, value)], rest)
                          | None => None
                          end
                      end
                  | None => None
                  end
              | None => None
              end
          | None => None
          end
      | None => None
      end
  end.

(** [json.loads(text)]: one value between optional blanks. *)
Definition loads (text : string) : option json :=
  match parse_value (S (String.length text)) (skip_ws text) with
  | Some (doc, rest) =>
      match skip_ws rest with
      | EmptyString => Some doc
      | _ => None
      end
  | None => None
  end.

(** JSON text written with an apostrophe for each double quote. *)
Fixpoint text (s : string) : string :=
  match s with
  | EmptyString => ""
  | String c rest => String (if Ascii.eqb c "'" then quote else c) (text rest)
  end.

End JsonText.

(** ** More builtins, used by the exporter and the analyzer *)

Module PyBuiltin.

(** [bool(v)] *)
Definition truthy (v : json) : bool :=
  match v with
  | JNull => false
  | JBool b => b
  | JNum z => negb (Z.eqb z 0)
  | JStr s => negb (String.eqb s "")
  | JList items => match items with [] => false | _ => true end
  | JDict items => match items with [] => false | _ => true end
  end.

(** [v == 'text'] for a string literal on the right. *)
Definition eq_str (v : json) (lit : string) : bool :=
  match v with
  | JStr s => String.eqb s lit
  | _ => false
  end.

(** [v != 0]: [False] is the number 0, a non-number never equals 0. *)
Definition ne_zero (v : json) : bool :=
  match v with
  | JNum z => negb (Z.eqb z 0)
  | JBool b => b
  | _ => true
  end.

(** [hex(n)] for [n >= 0] *)
Definition hex (n : nat) : string :=
  "0x" +:+ HexadecimalString.NilZero.string_of_uint (N.to_hex_uint (N.of_nat n)).

Definition is_space (c : ascii) : bool :=
  match c with
  | "032"%char | "009"%char | "010"%char | "011"%char | "012"%char
  | "013"%char => true
  | _ => false
  end.

Fixpoint lstrip (s : string) : string :=
  match s with
  | String c rest => if is_space c then lstrip rest else s
  | EmptyString => s
  end.

Fixpoint rstrip (s : string) : string :=
  match s with
  | String c rest =>
      match rstrip rest with
      | EmptyString => if is_space c then "" else String c ""
      | rest' => String c rest'
      end
  | EmptyString => s
  end.

(** Hex digits after a first one; a single underscore may separate two
    digits. *)
Fixpoint hex_run (acc : Z) (s : string) : option Z :=
  match s with
  | EmptyString => Some acc
  | String c rest =>
      match JsonText.hex_val c with
      | Some v => hex_run (16 * acc + Z.of_nat v) rest
      | None =>
          if Ascii.eqb c "_" then
            match rest with
            | String d rest' =>
                match JsonText.hex_val d with
                | Some v => hex_run (16 * acc + Z.of_nat v) rest'
                | None => None
                end
            | EmptyString => None
            end
          else None
      end
  end.

Definition hex_literal (s : string) : option Z :=
  match s with
  | String c rest =>
      match JsonText.hex_val c with
      | Some v => hex_run (Z.of_nat v) rest
      | None => None
      end
  | EmptyString => None
  end.

Definition hex_unsigned (s : string) : option Z :=
  match s with
  | String "0"%char (String x rest) =>
      if Ascii.eqb x "x" || Ascii.eqb x "X" then
        match rest with
        | String "_"%char rest' => hex_literal rest'
        | _ => hex_literal rest
        end
      else hex_literal s
  | _ => hex_literal s
  end.

(** [int(s, 16)] on a string: blanks around, a sign, an optional [0x],
    hex digits. *)
Definition int16_str (s : string) : option Z :=
  match rstrip (lstrip s) with
  | String "-"%char rest => option_map Z.opp (hex_unsigned rest)
  | String "+"%char rest => hex_unsigned rest
  | body => hex_unsigned body
  end.

(** [int(v, 16)]: with an explicit base only a string converts. *)
Definition int16 {W} (v : json) : M W Z :=
  match v with
  | JStr s =>
      match int16_str s with
      | Some z => ret z
      | None => raise ValueError
      end
  | _ => raise TypeError
  end.

Fixpoint is_substring (needle hay : string) : bool :=
  PyStr.startswith needle hay
  || match hay with
     | String _ rest => is_substring needle rest
     | EmptyString => false
     end.

(** ['text' in v] *)
Definition contains {W} (lit : string) (v : json) : M W bool :=
  match v with
  | JDict items => ret (PyDict.mem lit items)
  | JList items => ret (existsb (fun item => eq_str item lit) items)
  | JStr s => ret (is_substring lit s)
  | _ => raise TypeError
  end.

(** [v.get(key, default)]: dicts only have [get]. *)
Definition get {W} (v : json) (key : string) (default : json) : M W json :=
  match v with
  | JDict items => ret (PyDict.get key default items)
  | _ => raise AttributeError
  end.

(** [v['key']] *)
Definition subscript {W} (v : json) (key : string) : M W json :=
  match v with
  | JDict items =>
      match PyDict.lookup key items with
      | Some x => ret x
      | None => raise KeyError
      end
  | _ => raise TypeError
  end.

End PyBuiltin.

(** ** export-blockchain-rpc.py *)

Module ExportBlockchainRpc.

Definition OUTPUT_FILE : string := "/tmp/lux-migration/blockchain-export-rpc.jsonl".

(** What [requests.post(...)] followed by [response.json()] can give:
    a [RequestException] (refused, timed out, ...), a body that is not
    JSON, or the decoded body. *)
Inductive response : Type :=
| RequestFailed
| NotJson
| Body (doc : json).

(** What the script prints.  [Banner] stands for the four opening lines
    and [HeightZeroWarning] for the two lines of the warning; which of
    [ConnectionError] and [JsonDecodeError] a body that is not JSON
    prints depends on the version of [requests]. *)
Inductive message : Type :=
| Banner
| RpcError (payload : json)
| ConnectionError
| JsonDecodeError
| CurrentHeight (height : Z)
| HeightZeroWarning
| Exporting (height : Z)
| ProcessingBlock (block_num : nat)
| FailedBlock (block_num : nat)
| ExportComplete.

(** [OpenWrite] is [open(path, 'w')]: the file exists and is empty
    afterwards; [WriteLine doc] is [json.dump(doc, f); f.write('\n')]. *)
Inductive effect : Type :=
| Print (m : message)
| OpenWrite (path : string)
| WriteLine (doc : json).

Section Exporter.

(** The node, as seen through [requests.post(RPC_URL, json=payload)]:
    method and params in, response out. *)
Variable post : string -> list json -> response.

Definition make_rpc_call (method : string) (params : list json) : M effect json :=
  match post method params with
  | RequestFailed => tell (Print ConnectionError) ;;; ret JNull
  | NotJson => tell (Print JsonDecodeError) ;;; ret JNull
  | Body result =>
      has_error <- PyBuiltin.contains "error" result ;;
      if has_error then
        payload <- PyBuiltin.subscript result "error" ;;
        tell (Print (RpcError payload)) ;;;
        ret JNull
      else PyBuiltin.get result "result" JNull
  end.

Definition get_block_by_number (block_num : nat) : M effect json :=
  let block_hex := PyBuiltin.hex block_num in
  make_rpc_call "eth_getBlockByNumber" [JStr block_hex; JBool true].

Definition get_current_height : M effect Z :=
  result <- make_rpc_call "eth_blockNumber" [] ;;
  if PyBuiltin.truthy result then PyBuiltin.int16 result
  else ret 0%Z.

Definition metadata (current_height : Z) : json :=
  JDict [("version", JStr "1.0.0"); ("type", JStr "blockchain-export");
         ("source", JStr "rpc"); ("height", JNum current_height)].

(** The dict display [block_entry = {...}], its values evaluated in
    order. *)
Definition block_entry (block : json) : M effect json :=
  number <- (v <- PyBuiltin.get block "number" (JStr "0x0") ;; PyBuiltin.int16 v) ;;
  hash <- PyBuiltin.get block "hash" JNull ;;
  parentHash <- PyBuiltin.get block "parentHash" JNull ;;
  timestamp <- (v <- PyBuiltin.get block "timestamp" (JStr "0x0") ;; PyBuiltin.int16 v) ;;
  gasUsed <- (v <- PyBuiltin.get block "gasUsed" (JStr "0x0") ;; PyBuiltin.int16 v) ;;
  gasLimit <- (v <- PyBuiltin.get block "gasLimit" (JStr "0x0") ;; PyBuiltin.int16 v) ;;
  difficulty <- (v <- PyBuiltin.get block "difficulty" (JStr "0x0") ;; PyBuiltin.int16 v) ;;
  miner <- PyBuiltin.get block "miner" JNull ;;
  transactions <- PyBuiltin.get block "transactions" (JList []) ;;
  uncles <- PyBuiltin.get block "uncles" (JList []) ;;
  ret (JDict [("type", JStr "block"); ("number", JNum number); ("hash", hash);
              ("parentHash", parentHash); ("timestamp", JNum timestamp);
              ("gasUsed", JNum gasUsed); ("gasLimit", JNum gasLimit);
              ("difficulty", JNum difficulty); ("miner", miner);
              ("transactions", transactions); ("uncles", uncles)]).

(** [range(0, min(current_height + 1, 10))] *)
Definition block_range (current_height : Z) : list nat :=
  seq 0 (Z.to_nat (Z.min (current_height + 1) 10)).

(** One turn of the [for block_num in range(...)] loop. *)
Definition export_block (block_num : nat) : M effect unit :=
  (if Nat.eqb (block_num mod 1000) 0 then tell (Print (ProcessingBlock block_num))
   else ret tt) ;;;
  block <- get_block_by_number block_num ;;
  if PyBuiltin.truthy block then
    entry <- block_entry block ;;
    tell (WriteLine entry)
  else tell (Print (FailedBlock block_num)).

Fixpoint export_blocks (block_nums : list nat) : M effect unit :=
  match block_nums with
  | [] => ret tt
  | block_num :: rest => export_block block_num ;;; export_blocks rest
  end.

Definition export_blockchain : M effect unit :=
  tell (Print Banner) ;;;
  current_height <- get_current_height ;;
  tell (Print (CurrentHeight current_height)) ;;;
  if Z.eqb current_height 0 then
    tell (Print HeightZeroWarning)
  else
    tell (OpenWrite OUTPUT_FILE) ;;;
    tell (WriteLine (metadata current_height)) ;;;
    tell (Print (Exporting current_height)) ;;;
    export_blocks (block_range current_height) ;;;
    tell (Print ExportComplete).

End Exporter.

(** Files of JSON lines, and what the effects of a run leave in them.
    Only [OUTPUT_FILE] is ever opened, so a [WriteLine] goes there. *)
Definition files : Type := gmap string (list json).

Definition apply_effect (fs : files) (e : effect) : files :=
  match e with
  | Print _ => fs
  | OpenWrite path => <[path := []]> fs
  | WriteLine doc =>
      match fs !! OUTPUT_FILE with
      | Some lines => <[OUTPUT_FILE := lines ++ [doc]]> fs
      | None => fs
      end
  end.

Definition files_after (fs : files) (run : list effect) : files :=
  fold_left apply_effect run fs.

(** The block lines of a file: the documents whose ["type"] is ["block"],
    with their ["number"]. *)
Definition is_block_line (doc : json) : bool :=
  match doc with
  | JDict items => PyBuiltin.eq_str (PyDict.get "type" JNull items) "block"
  | _ => false
  end.

Definition is_metadata_line (doc : json) : bool :=
  match doc with
  | JDict items =>
      PyBuiltin.eq_str (PyDict.get "type" JNull items) "blockchain-export"
  | _ => false
  end.

Definition line_number (doc : json) : option Z :=
  match doc with
  | JDict items =>
      match PyDict.lookup "number" items with
      | Some (JNum z) => Some z
      | _ => None
      end
  | _ => None
  end.

End ExportBlockchainRpc.

(** ** read-migrated-state.py

    The part of [analyze_export] that reads the export: from
    [block_count = 0] to the summary.  The genesis preamble before it
    reads another file and touches none of the counters. *)

Module ReadMigratedState.

(** What a Python set tells apart among the hashable JSON values:
    [True] is the number 1 and [False] the number 0. *)
Inductive pykey : Type :=
| KNone
| KInt (z : Z)
| KStr (s : string).

#[global] Instance pykey_eq_dec : EqDecision pykey.
Proof. solve_decision. Defined.

#[global] Instance pykey_countable : Countable pykey.
Proof.
  refine (inj_countable'
    (fun k => match k with
              | KNone => inl (inl tt)
              | KInt z => inl (inr z)
              | KStr s => inr s
              end)
    (fun x => match x with
              | inl (inl _) => KNone
              | inl (inr z) => KInt z
              | inr s => KStr s
              end) _).
  intros []; reflexivity.
Defined.

(** [hash(v)] raises [TypeError] on a list or a dict. *)
Definition hashable {W} (v : json) : M W pykey :=
  match v with
  | JNull => ret KNone
  | JBool b => ret (KInt (if b then 1 else 0))
  | JNum z => ret (KInt z)
  | JStr s => ret (KStr s)
  | JList _ | JDict _ => raise TypeError
  end.

Record counters : Type := Counters {
  block_count : N;
  state_count : N;
  unique_keys : gset pykey
}.

Definition initial : counters :=
  {| block_count := 0; state_count := 0; unique_keys := ∅ |}.

Inductive message : Type :=
| Metadata (entry : json)
| BlockEntry (block_count : N) (key_id rlp_length : json)
| StateEntry (bucket key_id : json)
| Processed (line_num : N)
| Summary (blocks states : N) (keys : nat).

Definition sample_points : list N :=
  [1; 100; 1000; 10000; 100000; 850000; 850870]%N.

Section Analyzer.

(** [json.loads(line)], [None] standing for [json.JSONDecodeError]. *)
Variable loads : string -> option json.

Definition json_loads (line : string) : M message json :=
  match loads line with
  | Some doc => ret doc
  | None => raise JSONDecodeError
  end.

Definition is_decode_error (e : exn) : bool :=
  match e with
  | JSONDecodeError => true
  | _ => false
  end.

(** The body of the [try] for one line.  The boolean tells whether
    control reaches the code after the [try] ([false] after
    [continue]). *)
Definition analyze_entry (st : counters) (line : string)
  : M message (counters * bool) :=
  entry <- json_loads line ;;
  type <- PyBuiltin.get entry "type" JNull ;;
  if PyBuiltin.eq_str type "metadata" then
    tell (Metadata entry) ;;;
    ret (st, false)
  else if PyBuiltin.eq_str type "block" then
    let block_count := (block_count st + 1)%N in
    key_id <- PyBuiltin.get entry "key_id" (JStr "") ;;
    key <- hashable key_id ;;
    let st := {| block_count := block_count;
                 state_count := state_count st;
                 unique_keys := {[ key ]} ∪ unique_keys st |} in
    (if existsb (N.eqb block_count) sample_points then
       rlp_length <- PyBuiltin.get entry "rlp_length" JNull ;;
       tell (BlockEntry block_count key_id rlp_length)
     else ret tt) ;;;
    ret (st, true)
  else
    bucket <- PyBuiltin.get entry "bucket" JNull ;;
    if PyBuiltin.truthy bucket && PyBuiltin.ne_zero bucket then
      let state_count := (state_count st + 1)%N in
      let st := {| block_count := block_count st;
                   state_count := state_count;
                   unique_keys := unique_keys st |} in
      (if (state_count <=? 3)%N then
         key_id <- PyBuiltin.get entry "key_id" JNull ;;
         tell (StateEntry bucket key_id)
       else ret tt) ;;;
      ret (st, true)
    else ret (st, true).

(** One turn of [for line_num, line in enumerate(f, 1)]. *)
Definition analyze_line (st : counters) (line_num : N) (line : string)
  : M message counters :=
  r <- catch is_decode_error (analyze_entry st line) (fun _ => ret (st, false)) ;;
  let '(st, after_try) := r in
  (if after_try && N.eqb (line_num mod 100000) 0
   then tell (Processed line_num) else ret tt) ;;;
  ret st.

Fixpoint analyze_lines (st : counters) (line_num : N) (lines : list string)
  : M message counters :=
  match lines with
  | [] => ret st
  | line :: rest =>
      st <- analyze_line st line_num line ;;
      analyze_lines st (line_num + 1)%N rest
  end.

Definition analyze_export (lines : list string) : M message counters :=
  st <- analyze_lines initial 1 lines ;;
  tell (Summary (block_count st) (state_count st) (size (unique_keys st))) ;;;
  ret st.

(** The figures of the summary, when the run reaches it. *)
Definition report (lines : list string) : option (N * N * nat) :=
  match outcome (analyze_export lines) with
  | Ok st => Some (block_count st, state_count st, size (unique_keys st))
  | Raise _ => None
  end.

End Analyzer.

End ReadMigratedState.

(** * Specifications

    The notions the statements below are written with. *)

Module JsonSpec.

(** A value Python can hold: no dict has a key twice. *)
#[warnings="-register-all"]
Inductive wf : json -> Prop :=
| wf_null : wf JNull
| wf_bool b : wf (JBool b)
| wf_num z : wf (JNum z)
| wf_str s : wf (JStr s)
| wf_list items : Forall wf items -> wf (JList items)
| wf_dict items :
    NoDup (PyDict.keys items) -> Forall (fun kv => wf (snd kv)) items ->
    wf (JDict items).

Definition same_kind (a b : json) : Prop :=
  match a, b with
  | JNull, JNull | JBool _, JBool _ | JNum _, JNum _ | JStr _, JStr _
  | JList _, JList _ | JDict _, JDict _ => True
  | _, _ => False
  end.

(** Induction on a document with the hypotheses for its children. *)
Definition json_induction (P : json -> Prop)
    (Hnull : P JNull) (Hbool : forall b, P (JBool b)) (Hnum : forall z, P (JNum z))
    (Hstr : forall s, P (JStr s))
    (Hlist : forall items, Forall P items -> P (JList items))
    (Hdict : forall items, Forall (fun kv => P (snd kv)) items -> P (JDict items))
  : forall doc, P doc :=
  fix go (doc : json) : P doc :=
    match doc with
    | JNull => Hnull
    | JBool b => Hbool b
    | JNum z => Hnum z
    | JStr s => Hstr s
    | JList items =>
        Hlist items
          ((fix all (l : list json) : Forall P l :=
              match l with
              | [] => List.Forall_nil _
              | x :: r => List.Forall_cons _ _ _ (go x) (all r)
              end) items)
    | JDict items =>
        Hdict items
          ((fix all (l : list (string * json)) : Forall (fun kv => P (snd kv)) l :=
              match l with
              | [] => List.Forall_nil _
              | kv :: r => List.Forall_cons _ _ _ (go (snd kv)) (all r)
              end) items)
    end.

(** What follows a value in the text [JsonText.dumps] writes. *)
Definition delimited (rest : string) : Prop :=
  match rest with
  | EmptyString => True
  | String c _ => c = ","%char \/ c = "]"%char \/ c = "}"%char
  end.

(** The characters a JSON value can start with. *)
Definition value_head (c : ascii) : bool :=
  match JsonText.digit_of c with
  | Some _ => true
  | None =>
      Ascii.eqb c JsonText.quote || Ascii.eqb c "[" || Ascii.eqb c "{"
      || Ascii.eqb c "n" || Ascii.eqb c "t" || Ascii.eqb c "f" || Ascii.eqb c "-"
  end.

(** Nested calls that suffice for [JsonText.parse_value] to read
    [JsonText.dumps doc] back. *)
Fixpoint cost (doc : json) : nat :=
  match doc with
  | JList items => S (list_sum (map (fun x => S (cost x)) items))
  | JDict items => S (list_sum (map (fun kv => S (cost (snd kv))) items))
  | _ => 1
  end.

Definition reads_back (doc : json) : Prop :=
  wf doc -> forall fuel rest,
    cost doc <= fuel -> delimited rest ->
    JsonText.parse_value fuel (JsonText.dumps doc +:+ rest) = Some (doc, rest).

End JsonSpec.

Module NormalizerSpec.
Import FixGenesisCoinbase.

(** The only change the normalizer makes to a value under a key: a
    string under ['coinbase'] or ['cChainGenesis'] becomes a string. *)
Definition rewritable (key : string) (old new : json) : Prop :=
  (key = "coinbase" \/ key = "cChainGenesis") /\
  exists s s', old = JStr s /\ new = JStr s'.

(** [preserved doc doc']: [doc'] is [doc] up to such changes; sequences
    keep their length and order, mappings their keys, in order. *)
#[warnings="-register-all"]
Inductive preserved : json -> json -> Prop :=
| preserved_same doc : preserved doc doc
| preserved_list items items' :
    Forall2 preserved items items' -> preserved (JList items) (JList items')
| preserved_dict items items' :
    Forall2 (fun kv kv' => fst kv = fst kv' /\
               (preserved (snd kv) (snd kv') \/ rewritable (fst kv) (snd kv) (snd kv')))
            items items' ->
    preserved (JDict items) (JDict items').

Definition preserved_entry (kv kv' : string * json) : Prop :=
  fst kv = fst kv' /\
  (preserved (snd kv) (snd kv') \/ rewritable (fst kv) (snd kv) (snd kv')).

(** The coinbase of a dict needs no fixing. *)
Definition settled_field (data : list (string * json)) : Prop :=
  match PyDict.lookup "coinbase" data with
  | None => True
  | Some (JStr c) =>
      PyStr.startswith "0x" c = true -> PyStr.len (PyStr.drop 2 c) <> 64
  | Some _ => False
  end.

(** What a call is assumed to do, to conclude on its caller: a second
    call on its result returns that result; values Python can hold stay
    so; the kind of value stays. *)
Definition settles (self : json -> M event json) : Prop :=
  forall v l v', self v = (l, Ok v') ->
    (exists l', self v' = (l', Ok v'))
    /\ (JsonSpec.wf v -> JsonSpec.wf v') /\ JsonSpec.same_kind v v'.

Definition narrate (l : list event) : list effect :=
  map (fun e => Print (Normalizer e)) l.

(** The effects of [fix_genesis_file], case by case. *)
Definition expected_run (loads : string -> option json) (dumps dumps_indent : json -> string)
    (recursion_limit : nat) (fs : files) (filepath : string) : list effect :=
  let backup_path := filepath +:+ ".backup" in
  Print (Processing filepath) ::
  match fs !! filepath with
  | None => [Print (ErrorProcessing filepath FileNotFoundError)]
  | Some text =>
      match loads text with
      | None => [Print (ErrorProcessing filepath JSONDecodeError)]
      | Some data =>
          (if bool_decide (is_Some (fs !! backup_path)) then []
           else [Write backup_path (dumps_indent data);
                 Print (CreatedBackup backup_path)])
          ++ narrate (effects (fix_coinbase_in_json loads dumps recursion_limit data))
          ++ match outcome (fix_coinbase_in_json loads dumps recursion_limit data) with
             | Ok fixed => [Write filepath (dumps_indent fixed); Print (Saved filepath)]
             | Raise e => [Print (ErrorProcessing filepath e)]
             end
      end
  end.

(** A genesis with a corrupted coinbase, at the top and in the embedded
    C-chain genesis. *)
Definition sample_coinbase : string :=
  "0x0100000000000000000000000000000000000000000000000000000000000000".

Definition sample_genesis_text : string :=
  JsonText.text
    "{'config':{'chainId':96369},'gasLimit':'0xb71b00','coinbase':'0x0100000000000000000000000000000000000000000000000000000000000000','alloc':{'0x9011e888251ab053b7bd1cdb598db4f9ded94714':{'balance':'1000000000000000000000'}},'cChainGenesis':'{ \'coinbase\' : \'0x0100000000000000000000000000000000000000000000000000000000000000\', \'nonce\' : \'0x0\' }'}".

Definition sample_genesis_items : list (string * json) :=
  [("config", JDict [("chainId", JNum 96369)]);
   ("gasLimit", JStr "0xb71b00");
   ("coinbase", JStr sample_coinbase);
   ("alloc",
    JDict [("0x9011e888251ab053b7bd1cdb598db4f9ded94714",
            JDict [("balance", JStr "1000000000000000000000")])]);
   ("cChainGenesis",
    JStr (JsonText.text
      "{ 'coinbase' : '0x0100000000000000000000000000000000000000000000000000000000000000', 'nonce' : '0x0' }"))].

Definition sample_genesis : json := JDict sample_genesis_items.

Definition sample_genesis_fixed : json :=
  JDict [("config", JDict [("chainId", JNum 96369)]);
         ("gasLimit", JStr "0xb71b00");
         ("coinbase", JStr "0x0100000000000000000000000000000000000000");
         ("alloc",
          JDict [("0x9011e888251ab053b7bd1cdb598db4f9ded94714",
                  JDict [("balance", JStr "1000000000000000000000")])]);
         ("cChainGenesis",
          JStr (JsonText.text
            "{'coinbase':'0x0100000000000000000000000000000000000000','nonce':'0x0'}"))].

(** What the normalizer prints on the sample. *)
Definition sample_log : list event :=
  [FixedCoinbase sample_coinbase "0x0100000000000000000000000000000000000000";
   FixedCoinbase sample_coinbase "0x0100000000000000000000000000000000000000"].

(** The genesis of the collapse scenario: the treasury under its address
    and under the corrupted spelling of it. *)
Definition treasury_key : string := "0x9011e888251ab053b7bd1cdb598db4f9ded94714".
Definition corrupted_key : string :=
  "0x000000000000000000009011e888251ab053b7bd1cdb598db4f9ded94714".

Definition collapse_genesis_text : string :=
  JsonText.text
    "{'alloc': {'0x9011e888251ab053b7bd1cdb598db4f9ded94714': {'balance': '1000000000000000000000'}, '0x000000000000000000009011e888251ab053b7bd1cdb598db4f9ded94714': {'balance': '1000000000000000000000'}}}".

Definition collapse_alloc : list (string * json) :=
  [(treasury_key, JDict [("balance", JStr "1000000000000000000000")]);
   (corrupted_key, JDict [("balance", JStr "1000000000000000000000")])].

Definition collapse_genesis : json := JDict [("alloc", JDict collapse_alloc)].

(** The same with a key of 64 hex characters: the address after 24
    zeros. *)
Definition padded_key : string :=
  "0x0000000000000000000000009011e888251ab053b7bd1cdb598db4f9ded94714".

Definition padded_alloc : list (string * json) :=
  [(treasury_key, JDict [("balance", JStr "1000000000000000000000")]);
   (padded_key, JDict [("balance", JStr "1000000000000000000000")])].

Definition padded_genesis : json := JDict [("alloc", JDict padded_alloc)].

(** A disk with the sample genesis and no backup. *)
Definition sample_disk : files :=
  {[ "genesis_local.json" := sample_genesis_text ]}.

End NormalizerSpec.

Module ExporterSpec.
Import ExportBlockchainRpc.

Definition is_print (e : effect) : Prop :=
  match e with Print _ => True | _ => False end.

(** The documents a run writes, in order. *)
Definition lines_written (run : list effect) : list json :=
  omap (fun e => match e with WriteLine doc => Some doc | _ => None end) run.

Definition never_opens (run : list effect) : Prop :=
  Forall (fun e => match e with OpenWrite _ => False | _ => True end) run.

(** A quantity of a block: absent, or a hex string [int(_, 16)] reads. *)
Definition decodable (field : string) (items : list (string * json)) : Prop :=
  PyDict.lookup field items = None
  \/ exists s z, PyDict.lookup field items = Some (JStr s)
                 /\ PyBuiltin.int16_str s = Some z.

(** Block [block_num] as a node returns it when the fetch succeeds: an
    object with its number and decodable quantities. *)
Definition resolves (block_num : nat) (block : json) : Prop :=
  exists items,
    block = JDict items
    /\ PyDict.lookup "number" items = Some (JStr (PyBuiltin.hex block_num))
    /\ decodable "timestamp" items /\ decodable "gasUsed" items
    /\ decodable "gasLimit" items /\ decodable "difficulty" items.

(** The three ways the height query fails. *)
Definition height_query_fails (post : string -> list json -> response) : Prop :=
  post "eth_blockNumber" [] = RequestFailed
  \/ post "eth_blockNumber" [] = NotJson
  \/ exists items, post "eth_blockNumber" [] = Body (JDict items)
                   /\ PyDict.mem "error" items = true.

Definition rpc_result (result : json) : response :=
  Body (JDict [("jsonrpc", JStr "2.0"); ("id", JNum 1); ("result", result)]).

Definition sample_block (number : string) : json :=
  JDict [("number", JStr number); ("hash", JStr "0xaa"); ("parentHash", JStr "0x99");
         ("timestamp", JStr "0x5f5e100"); ("gasUsed", JStr "0x5208");
         ("gasLimit", JStr "0xb71b00"); ("miner", JStr "0x0100000000000000000000000000000000000000");
         ("transactions", JList [])].

(** A node at height 3 that serves every block asked for. *)
Definition node_at_height_3 (method : string) (params : list json) : response :=
  if String.eqb method "eth_blockNumber" then rpc_result (JStr "0x3")
  else
    match params with
    | JStr number :: _ => rpc_result (sample_block number)
    | _ => NotJson
    end.

(** A node whose chain is empty, and nodes whose height query fails. *)
Definition empty_node (method : string) (params : list json) : response :=
  rpc_result (JStr "0x0").

Definition refusing_node (method : string) (params : list json) : response :=
  RequestFailed.

Definition failing_node (method : string) (params : list json) : response :=
  Body (JDict [("jsonrpc", JStr "2.0"); ("id", JNum 1);
               ("error", JDict [("code", JNum (-32601));
                                ("message", JStr "method not found")])]).

End ExporterSpec.

Module AnalyzerSpec.
Import ReadMigratedState.

Definition parses (loads : string -> option json) (line : string) : bool :=
  match loads line with Some _ => true | None => false end.

(** The number of lines [json.loads] refuses. *)
Definition malformed (loads : string -> option json) (lines : list string) : nat :=
  length (filter (fun line => parses loads line = false) lines).

(** The height the leading metadata record declares. *)
Definition declared_height (loads : string -> option json) (lines : list string)
  : option Z :=
  match lines with
  | line :: _ =>
      match loads line with
      | Some (JDict items) =>
          match PyDict.lookup "height" items with
          | Some (JNum h) => Some h
          | _ => None
          end
      | _ => None
      end
  | [] => None
  end.

(** Fewer distinct block records than the declared height plus one. *)
Definition truncated (loads : string -> option json) (lines : list string) : bool :=
  match declared_height loads lines, report loads lines with
  | Some h, Some (_, _, keys) => (Z.of_nat keys <? h + 1)%Z
  | _, _ => false
  end.

Definition metadata_line (height : string) : string :=
  JsonText.text "{'version':'1.0.0','type':'metadata','source':'rpc','height':"
  +:+ height +:+ "}".

Definition metadata_items (height : Z) : list (string * json) :=
  [("version", JStr "1.0.0"); ("type", JStr "metadata"); ("source", JStr "rpc");
   ("height", JNum height)].

Definition block_line : string :=
  JsonText.text "{'type':'block','key_id':'b0','rlp_length':540}".

(** One block record under a declared height of 3, and of 0. *)
Definition truncated_export : list string := [metadata_line "3"; block_line].
Definition complete_export : list string := [metadata_line "0"; block_line].

(** The complete export with a record cut short in the middle. *)
Definition export_with_garbage : list string :=
  [metadata_line "0"; JsonText.text "{'type':'block','key_id':"; block_line].

End AnalyzerSpec.

(** * The rest of the scripts *)

(** ** fix_genesis_coinbase.py: [main] *)

Module FixGenesisMain.
Import FixGenesisCoinbase.

Definition genesis_dir : string := "/home/z/work/lux/node/genesis".

Definition files_to_fix : list string :=
  ["genesis_mainnet.json"; "genesis_testnet.json"; "genesis_local.json";
   "genesis_test.json"; "genesis_96369_migrated.json";
   "cchain_genesis_mainnet.json"; "cchain_genesis_final.json"].

(** [genesis_dir / filename] *)
Definition join (dir filename : string) : string := dir +:+ "/" +:+ filename.

(** What [main] does: the effects of the calls of [fix_genesis_file], and
    its own two messages. *)
Inductive main_effect : Type :=
| Fix (e : effect)
| FileNotFound (path : string)
| GenesisFilesFixed.

Definition apply_main_effect (fs : files) (e : main_effect) : files :=
  match e with
  | Fix e => apply_effect fs e
  | FileNotFound _ | GenesisFilesFixed => fs
  end.

Definition main_files_after (fs : files) (run : list main_effect) : files :=
  fold_left apply_main_effect run fs.

Section Main.
Variable loads : string -> option json.
Variable dumps : json -> string.
Variable dumps_indent : json -> string.
Variable recursion_limit : nat.

(** One turn of [for filename in files_to_fix]. *)
Definition fix_one (dir : string) (fs : files) (filename : string)
  : list main_effect :=
  let filepath := join dir filename in
  if bool_decide (is_Some (fs !! filepath)) then
    map Fix (fix_genesis_file loads dumps dumps_indent recursion_limit fs filepath)
  else [FileNotFound filepath].

(** The loop: each turn works on the disk the turns before it left. *)
Fixpoint fix_all (dir : string) (fs : files) (filenames : list string)
  : list main_effect :=
  match filenames with
  | [] => []
  | filename :: rest =>
      let run := fix_one dir fs filename in
      run ++ fix_all dir (main_files_after fs run) rest
  end.

Definition main (fs : files) : list main_effect :=
  fix_all genesis_dir fs files_to_fix ++ [GenesisFilesFixed].

End Main.

(** The paths a run over [filenames] can write: each file and its
    backup. *)
Definition touched (dir : string) (filenames : list string) : list string :=
  flat_map (fun filename => [join dir filename; join dir filename +:+ ".backup"])
           filenames.

End FixGenesisMain.

(** ** export-blockchain-rpc.py: [check_lux_apis] and the script *)

Module LuxApis.
Import ExportBlockchainRpc.

Inductive api_message : Type :=
| CheckingApis
| ReplayStatus (result : json)
| ReplayStatusUnavailable
| BlockchainVerification (result : json)
| VerifyBlockchainUnavailable.

Inductive script_effect : Type :=
| Export (e : effect)
| Api (m : api_message).

Section Apis.
Variable post : string -> list json -> response.

Definition check_lux_apis : M script_effect unit :=
  tell (Api CheckingApis) ;;;
  result <- lift Export (make_rpc_call post "lux_replayStatus" []) ;;
  (if PyBuiltin.truthy result then tell (Api (ReplayStatus result))
   else tell (Api ReplayStatusUnavailable)) ;;;
  result <- lift Export (make_rpc_call post "lux_verifyBlockchain" []) ;;
  if PyBuiltin.truthy result then tell (Api (BlockchainVerification result))
  else tell (Api VerifyBlockchainUnavailable).

(** [if __name__ == "__main__": export_blockchain(); check_lux_apis()] *)
Definition script : M script_effect unit :=
  lift Export (export_blockchain post) ;;;
  check_lux_apis.

End Apis.

(** What the script does to the export, the messages of the API check
    left out. *)
Definition export_part (run : list script_effect) : list effect :=
  omap (fun e => match e with Export e => Some e | Api _ => None end) run.

Definition api_messages (run : list script_effect) : list api_message :=
  omap (fun e => match e with Api m => Some m | Export _ => None end) run.

End LuxApis.

(** ** check-balance.py: [get_block_height] *)

Module CheckBalance.
Import ExportBlockchainRpc.

(** What [except Exception as e] catches: the request failed, the body
    is not JSON, or the body of the [try] raised. *)
Inductive failure : Type :=
| RequestError
| BodyNotJson
| Raised (e : exn).

Inductive message : Type :=
| CurrentBlockHeight (height : Z)
| ErrorResult (result : json)
| ConnectionFailed (e : failure).

Section Checker.

Variable post : string -> list json -> response.

(** Whether [str(n)] stays within the interpreter's limit on the digits
    of an integer ([sys.get_int_max_str_digits()]); beyond it the
    f-string raises [ValueError].  Always true where there is no limit. *)
Variable printable : Z -> bool.

(** The body of the [try] once the response is decoded. *)
Definition read_height (result : json) : M message (option Z) :=
  has_result <- PyBuiltin.contains "result" result ;;
  if has_result then
    value <- PyBuiltin.subscript result "result" ;;
    height <- PyBuiltin.int16 value ;;
    (if printable height then tell (CurrentBlockHeight height)
     else raise ValueError) ;;;
    ret (Some height)
  else
    tell (ErrorResult result) ;;;
    ret None.

(** [get_block_height()] *)
Definition get_block_height : M message (option Z) :=
  match post "eth_blockNumber" [] with
  | RequestFailed => tell (ConnectionFailed RequestError) ;;; ret None
  | NotJson => tell (ConnectionFailed BodyNotJson) ;;; ret None
  | Body result =>
      catch (fun _ => true) (read_height result)
        (fun e => tell (ConnectionFailed (Raised e)) ;;; ret None)
  end.

End Checker.

End CheckBalance.

(** * More specifications *)

Module AnalyzerExtraSpec.
Import ReadMigratedState.

(** The record a line holds, when it is a JSON object. *)
Definition record (loads : string -> option json) (line : string)
  : option (list (string * json)) :=
  match loads line with
  | Some (JDict items) => Some items
  | _ => None
  end.

Definition has_type (name : string) (items : list (string * json)) : bool :=
  PyBuiltin.eq_str (PyDict.get "type" JNull items) name.

(** A block record: an object whose ['type'] is ['block']. *)
Definition is_block (loads : string -> option json) (line : string) : bool :=
  match record loads line with
  | Some items => has_type "block" items
  | None => false
  end.

(** A state record: an object that is neither metadata nor a block and
    has a ['bucket'] that is true. *)
Definition is_state (loads : string -> option json) (line : string) : bool :=
  match record loads line with
  | Some items =>
      negb (has_type "metadata" items) && negb (has_type "block" items)
      && PyBuiltin.truthy (PyDict.get "bucket" JNull items)
  | None => false
  end.

(** The key a block record adds to the set: its ['key_id'], the empty
    string when it has none. *)
Definition block_key (loads : string -> option json) (line : string)
  : option json :=
  match record loads line with
  | Some items =>
      if has_type "block" items then Some (PyDict.get "key_id" (JStr "") items)
      else None
  | None => None
  end.

Definition unhashable (v : json) : bool :=
  match v with
  | JList _ | JDict _ => true
  | _ => false
  end.

(** The lines the analysis does not survive: JSON that is not an object,
    and a block record whose ['key_id'] is a list or an object. *)
Definition fatal (loads : string -> option json) (line : string) : bool :=
  match loads line with
  | None => false
  | Some (JDict _) =>
      match block_key loads line with
      | Some key_id => unhashable key_id
      | None => false
      end
  | Some _ => true
  end.

(** What a set keeps of a key. *)
Definition key_of (v : json) : option pykey :=
  match v with
  | JNull => Some KNone
  | JBool b => Some (KInt (if b then 1 else 0))
  | JNum z => Some (KInt z)
  | JStr s => Some (KStr s)
  | JList _ | JDict _ => None
  end.

(** The keys of the block records of an export. *)
Definition block_keys (loads : string -> option json) (lines : list string)
  : gset pykey :=
  list_to_set (omap (fun line => block_key loads line ≫= key_of) lines).

End AnalyzerExtraSpec.

Module CheckerSpec.
Import ExportBlockchainRpc.

(** The hex string under ['result'] in the body of a response. *)
Definition result_string (answer : response) : option string :=
  match answer with
  | Body (JDict items) =>
      match PyDict.lookup "result" items with
      | Some (JStr s) => Some s
      | _ => None
      end
  | _ => None
  end.

End CheckerSpec.

Module ExporterExtraSpec.
Import ExportBlockchainRpc.




End ExporterExtraSpec.

Module ExtraSpec.
Import FixGenesisCoinbase.

(** What an event says of the value it is about: a correction replaces a
    [0x] value of 66 characters by its first 42; a warning gives the
    length of a [0x] value after the prefix, which is neither 64 nor
    40. *)
Definition sound_event (e : event) : Prop :=
  match e with
  | FixedCoinbase before after =>
      PyStr.startswith "0x" before = true
      /\ PyStr.len before = 66 /\ after = PyStr.take 42 before
  | UnexpectedLength n coinbase =>
      PyStr.startswith "0x" coinbase = true
      /\ PyStr.len coinbase = 2 + n /\ n <> 64 /\ n <> 40
  end.

Definition is_warning (e : event) : Prop :=
  match e with
  | UnexpectedLength _ _ => True
  | FixedCoinbase _ _ => False
  end.

(** A call whose second pass on its own result only repeats warnings. *)
Definition quiet (self : json -> M event json) : Prop :=
  forall v l v', self v = (l, Ok v') -> Forall is_warning (effects (self v')).

(** A coinbase the normalizer has nothing to say about: none, or a string
    that does not start with [0x] or has 40 characters after it. *)
Definition good_coinbase (data : list (string * json)) : Prop :=
  match PyDict.lookup "coinbase" data with
  | None => True
  | Some (JStr c) =>
      PyStr.startswith "0x" c = false \/ PyStr.len (PyStr.drop 2 c) = 40
  | Some _ => False
  end.

(** A document with good coinbases and no ['cChainGenesis'] key, at
    every level. *)
#[warnings="-register-all"]
Inductive clean : json -> Prop :=
| clean_null : clean JNull
| clean_bool b : clean (JBool b)
| clean_num z : clean (JNum z)
| clean_str s : clean (JStr s)
| clean_list items : Forall clean items -> clean (JList items)
| clean_dict items :
    good_coinbase items ->
    PyDict.lookup "cChainGenesis" items = None ->
    Forall (fun kv => clean (snd kv)) items -> clean (JDict items).

(** The nested calls [fix_coinbase_in_json] makes on a document without
    embedded text. *)
Fixpoint calls (doc : json) : nat :=
  match doc with
  | JList items => S (list_max (map calls items))
  | JDict items => S (list_max (map (fun kv => calls (snd kv)) items))
  | _ => 1
  end.

(** A document with no coinbase left to fix: at every level, and in the
    document a string under ['cChainGenesis'] holds, a ['coinbase'] is a
    string that does not have 64 characters after a [0x]. *)
#[warnings="-register-all"]
Inductive settled (loads : string -> option json) : json -> Prop :=
| settled_null : settled loads JNull
| settled_bool b : settled loads (JBool b)
| settled_num z : settled loads (JNum z)
| settled_str s : settled loads (JStr s)
| settled_list items : Forall (settled loads) items -> settled loads (JList items)
| settled_dict items :
    NormalizerSpec.settled_field items ->
    Forall (fun kv => settled loads (snd kv)) items ->
    (forall text embedded,
       PyDict.lookup "cChainGenesis" items = Some (JStr text) ->
       loads text = Some embedded -> settled loads embedded) ->
    settled loads (JDict items).

(** The exceptions the normalizer lets out. *)
Definition escapes (e : exn) : Prop := e = AttributeError \/ e = RecursionError.

End ExtraSpec.

(** Inputs for the statements on concrete runs. *)
Module ExtraSamples.
Import ExporterSpec AnalyzerSpec NormalizerSpec.

(** The text under ['cChainGenesis'] in the sample genesis. *)
Definition sample_embedded_text : string :=
  JsonText.text
    "{ 'coinbase' : '0x0100000000000000000000000000000000000000000000000000000000000000', 'nonce' : '0x0' }".

(** A genesis with nothing to fix. *)
Definition clean_genesis : json :=
  JDict [("config", JDict [("chainId", JNum 96369)]);
         ("coinbase", JStr "0x0100000000000000000000000000000000000000");
         ("alloc",
          JDict [(treasury_key, JDict [("balance", JStr "1000000000000000000000")])]);
         ("extraData", JList [JStr "0x"; JNull])].


(** The node's genesis directory with one of the seven files in it. *)
Definition genesis_disk : FixGenesisCoinbase.files :=
  {[ FixGenesisMain.join FixGenesisMain.genesis_dir "genesis_local.json"
     := sample_genesis_text ]}.

(** A node that answers every call with a JSON array. *)
Definition array_node (method : string) (params : list json)
  : ExportBlockchainRpc.response :=
  ExportBlockchainRpc.Body (JList [JStr "error"]).




(** An export with two block records under one key, a state record, and
    the same export with a line that holds a number. *)
Definition state_line : string :=
  JsonText.text "{'bucket':3,'key_id':'s0'}".

Definition counted_export : list string :=
  [metadata_line "1"; block_line; state_line; block_line].


End ExtraSamples.
(** * Facts *)

From Stdlib Require DecimalPos DecimalFacts.

(** ** The monad *)

Section MonadFacts.
Context {W : Type}.

Lemma bind_ok_inv {A B} (m : M W A) (k : A -> M W B) l (b : B) :
  bind m k = (l, Ok b) ->
  exists l1 a l2, m = (l1, Ok a) /\ k a = (l2, Ok b) /\ l = l1 ++ l2.
Proof.
  destruct m as [l1 [a|e]]; simpl.
  - destruct (k a) as [l2 r] eqn:E. intros [= <- ->]. eauto 6.
  - discriminate.
Qed.

Lemma ret_ok_inv {A} (a b : A) (l : list W) : ret a = (l, Ok b) -> l = [] /\ a = b.
Proof. intros [= <- <-]. auto. Qed.

Lemma outcome_bind {A B} (m : M W A) (k : A -> M W B) :
  outcome (bind m k)
  = match outcome m with Ok a => outcome (k a) | Raise e => Raise e end.
Proof.
  destruct m as [l [a|e]]; simpl; [|reflexivity]. destruct (k a). reflexivity.
Qed.

End MonadFacts.

(** ** Strings and dicts *)

Lemma append_cons c a b : String c a +:+ b = String c (a +:+ b).
Proof. reflexivity. Qed.

Lemma append_nil_l s : "" +:+ s = s.
Proof. reflexivity. Qed.

Ltac push_append := rewrite ?append_cons, ?append_nil_l.

Lemma append_nil_r s : s +:+ "" = s.
Proof. induction s as [|c s IH]; [reflexivity|]. rewrite append_cons, IH. reflexivity. Qed.

Lemma append_assoc a b c : (a +:+ b) +:+ c = a +:+ (b +:+ c).
Proof.
  induction a as [|x a IH]; [reflexivity|]. rewrite !append_cons, IH. reflexivity.
Qed.

Lemma length_append a b : String.length (a +:+ b) = String.length a + String.length b.
Proof.
  induction a as [|x a IH]; [reflexivity|]. rewrite append_cons. simpl. rewrite IH.
  reflexivity.
Qed.

Lemma backup_path_differs filepath : filepath +:+ ".backup" <> filepath.
Proof.
  intros H. apply (f_equal String.length) in H. rewrite length_append in H.
  simpl in H. lia.
Qed.

Lemma startswith_0x s : PyStr.startswith "0x" ("0x" +:+ s) = true.
Proof. reflexivity. Qed.

Lemma drop_0x s : PyStr.drop 2 ("0x" +:+ s) = s.
Proof. reflexivity. Qed.

Lemma str_length_take n s : String.length (PyStr.take n s) = Nat.min n (String.length s).
Proof.
  revert s. induction n as [|n IH]; intros [|c s]; simpl; auto.
Qed.

Lemma lookup_set_eq key v items :
  PyDict.lookup key (PyDict.set key v items) = Some v.
Proof.
  induction items as [|[k x] items IH]; simpl.
  - rewrite String.eqb_refl. reflexivity.
  - destruct (String.eqb k key) eqn:E; simpl; rewrite E; auto.
Qed.

Lemma keys_set key v items x :
  PyDict.lookup key items = Some x ->
  PyDict.keys (PyDict.set key v items) = PyDict.keys items.
Proof.
  induction items as [|[k y] items IH]; simpl; [discriminate|].
  destruct (String.eqb k key) eqn:E; simpl; [reflexivity|].
  intros H. unfold PyDict.keys in *. simpl. rewrite IH; auto.
Qed.

(** ** The codec reads back what it writes *)

Section JsonTextFacts.
Import JsonText JsonSpec.

Lemma parse_chars_escape_char c tail :
  parse_chars (escape_char c +:+ tail) = cons_char c (parse_chars tail).
Proof.
  destruct c as [[] [] [] [] [] [] [] []]; reflexivity.
Qed.

Lemma parse_chars_escape s rest :
  parse_chars (escape s +:+ String quote rest) = Some (s, rest).
Proof.
  induction s as [|c s IH].
  - reflexivity.
  - change (escape (String c s)) with (escape_char c +:+ escape s).
    rewrite append_assoc, parse_chars_escape_char, IH. reflexivity.
Qed.

Lemma parse_chars_dump_string s rest :
  parse_chars (escape s +:+ String quote "" +:+ rest) = Some (s, rest).
Proof. apply parse_chars_escape. Qed.

Lemma scan_uint_digits d rest :
  delimited rest ->
  scan_uint (DecimalString.NilEmpty.string_of_uint d +:+ rest) = (d, rest).
Proof.
  intros Hrest.
  induction d; cbn [DecimalString.NilEmpty.string_of_uint];
    try (rewrite append_cons; cbn [scan_uint digit_of]; rewrite IHd; reflexivity).
  destruct rest as [|c rest]; [reflexivity|].
  destruct Hrest as [->|[->| ->]]; reflexivity.
Qed.

Lemma delimited_no_float rest : delimited rest -> starts_float_tail rest = false.
Proof.
  destruct rest as [|c rest]; [reflexivity|].
  intros [->|[->| ->]]; reflexivity.
Qed.

Lemma pos_to_uint_head p :
  match Pos.to_uint p with
  | Decimal.Nil | Decimal.D0 _ => False
  | _ => True
  end.
Proof.
  pose proof (DecimalPos.Unsigned.to_uint_nonnil p) as Hnil.
  pose proof (DecimalPos.Unsigned.to_of (Pos.to_uint p)) as Hnorm.
  rewrite DecimalPos.Unsigned.of_to in Hnorm. simpl in Hnorm.
  destruct (Pos.to_uint p) as [|d|d|d|d|d|d|d|d|d|d] eqn:E; auto.
  unfold Decimal.unorm in Hnorm. cbn [Decimal.nzhead] in Hnorm.
  destruct (Decimal.nzhead d) eqn:E2;
    try exact (DecimalFacts.nzhead_nonzero d d (eq_trans E2 (eq_sym Hnorm))).
  injection Hnorm as ->. exact (DecimalPos.Unsigned.to_uint_nonzero p E).
Qed.

Lemma parse_uint_pos p rest :
  delimited rest ->
  parse_uint (DecimalString.NilEmpty.string_of_uint (Pos.to_uint p) +:+ rest)
  = Some (Zpos p, rest).
Proof.
  intros Hrest. unfold parse_uint. rewrite scan_uint_digits by assumption.
  rewrite (delimited_no_float _ Hrest).
  pose proof (pos_to_uint_head p) as Hhead.
  pose proof (DecimalPos.Unsigned.of_to p) as Hval.
  assert (Z.of_uint (Pos.to_uint p) = Zpos p) as Hz
    by (unfold Z.of_uint; rewrite Hval; reflexivity).
  destruct (Pos.to_uint p); try contradiction; rewrite Hz; reflexivity.
Qed.

Lemma value_head_plain c :
  value_head c = true ->
  is_ws c = false /\ Ascii.eqb c "]" = false /\ Ascii.eqb c "}" = false.
Proof.
  destruct c as [[] [] [] [] [] [] [] []]; try discriminate; intros _; repeat split.
Qed.

Lemma uint_head d :
  d <> Decimal.Nil ->
  exists c s, DecimalString.NilEmpty.string_of_uint d = String c s
              /\ digit_of c <> None.
Proof.
  destruct d; try congruence; intros _; simpl; eexists _, _; split;
    try reflexivity; discriminate.
Qed.

Lemma dump_int_head z :
  exists c s, dump_int z = String c s /\ value_head c = true.
Proof.
  destruct z as [|p|p]; simpl.
  - eexists _, _. split; reflexivity.
  - destruct (uint_head (Pos.to_uint p) (DecimalPos.Unsigned.to_uint_nonnil p))
      as (c & s & -> & Hc).
    exists c, s. split; [reflexivity|]. unfold value_head.
    destruct (digit_of c); congruence.
  - eexists _, _. split; reflexivity.
Qed.

Lemma dumps_head doc :
  exists c s, dumps doc = String c s /\ value_head c = true.
Proof.
  destruct doc as [|[]|z|s|items|items]; try (eexists _, _; split; reflexivity).
  apply dump_int_head.
Qed.

Lemma skip_ws_dumps doc rest : skip_ws (dumps doc +:+ rest) = dumps doc +:+ rest.
Proof.
  destruct (dumps_head doc) as (c & s & -> & Hc).
  apply value_head_plain in Hc as (Hws & _). rewrite append_cons.
  cbn [skip_ws]. rewrite Hws. reflexivity.
Qed.

Lemma after_close_dumps doc rest :
  after "]" (dumps doc +:+ rest) = None.
Proof.
  destruct (dumps_head doc) as (c & s & -> & Hc).
  apply value_head_plain in Hc as (_ & Hc & _). rewrite append_cons.
  cbn [after]. rewrite Hc. reflexivity.
Qed.

Lemma parse_value_digit fuel c s :
  digit_of c <> None ->
  parse_value (S fuel) (String c s) =
  match parse_uint (String c s) with
  | Some (z, rest) => Some (JNum z, rest)
  | None => None
  end.
Proof.
  destruct c as [[] [] [] [] [] [] [] []]; intros H;
    try (exfalso; apply H; reflexivity); reflexivity.
Qed.

Lemma parse_value_int fuel z rest :
  delimited rest ->
  parse_value (S fuel) (dump_int z +:+ rest) = Some (JNum z, rest).
Proof.
  intros Hrest. destruct z as [|p|p].
  - change (dump_int 0 +:+ rest) with (String "0" rest).
    rewrite parse_value_digit by discriminate.
    unfold parse_uint. cbn [scan_uint digit_of].
    pose proof (scan_uint_digits Decimal.Nil rest Hrest) as Hscan.
    cbn [DecimalString.NilEmpty.string_of_uint] in Hscan.
    change ("" +:+ rest) with rest in Hscan. rewrite Hscan.
    rewrite (delimited_no_float _ Hrest). reflexivity.
  - cbn [dump_int].
    pose proof (parse_uint_pos p rest Hrest) as Hp.
    destruct (uint_head (Pos.to_uint p) (DecimalPos.Unsigned.to_uint_nonnil p))
      as (c & s & E & Hc).
    rewrite E in *. rewrite append_cons in *.
    rewrite parse_value_digit by assumption. rewrite Hp. reflexivity.
  - cbn [dump_int]. rewrite append_cons.
    change (parse_value (S fuel)
              (String "-" (DecimalString.NilEmpty.string_of_uint (Pos.to_uint p) +:+ rest)))
      with (match parse_uint (DecimalString.NilEmpty.string_of_uint (Pos.to_uint p) +:+ rest) with
            | Some (z, rest) => Some (JNum (- z), rest)
            | None => None
            end).
    rewrite parse_uint_pos by assumption. reflexivity.
Qed.

Lemma skip_ws_plain c s : is_ws c = false -> skip_ws (String c s) = String c s.
Proof. intros H. cbn [skip_ws]. rewrite H. reflexivity. Qed.

Lemma parse_elements_dumps items :
  items <> [] -> Forall reads_back items -> Forall wf items ->
  forall fuel rest,
    list_sum (map (fun x => S (cost x)) items) <= fuel ->
    parse_elements fuel (dump_elements dumps items +:+ String "]" rest)
    = Some (items, rest).
Proof.
  induction items as [|item items IH]; [congruence|].
  intros _ Hread Hwf fuel rest Hfuel.
  inversion Hread as [|? ? Hitem Hread']; subst.
  inversion Hwf as [|? ? Hwitem Hwf']; subst.
  simpl in Hfuel.
  destruct fuel as [|fuel]; [lia|].
  cbn [parse_elements dump_elements].
  destruct items as [|item' items].
  - rewrite (Hitem Hwitem fuel (String "]" rest)); [|simpl in *; lia|simpl; auto].
    reflexivity.
  - rewrite append_assoc, append_cons.
    rewrite (Hitem Hwitem fuel); [|simpl in *; lia|simpl; auto].
    rewrite skip_ws_plain by reflexivity. cbn [after].
    change (Ascii.eqb "," ",") with true. cbv iota.
    assert (dump_elements dumps (item' :: items) +:+ String "]" rest
            = dumps item' +:+
                match items with
                | [] => String "]" rest
                | _ => String "," (dump_elements dumps items +:+ String "]" rest)
                end) as Hshape.
    { cbn [dump_elements]. destruct items; [reflexivity|].
      rewrite append_assoc, append_cons. reflexivity. }
    rewrite Hshape at 1. rewrite skip_ws_dumps. rewrite <- Hshape.
    rewrite IH; [reflexivity|discriminate|assumption|assumption|].
    simpl in *. lia.
Qed.

Lemma set_fresh key v items :
  key ∉ PyDict.keys items -> PyDict.set key v items = items ++ [(key, v)].
Proof.
  induction items as [|[k x] items IH]; simpl; [reflexivity|].
  intros Hnot. destruct (String.eqb_spec k key) as [->|Hne].
  - exfalso. apply Hnot. left.
  - rewrite IH; [reflexivity|]. intros Hin. apply Hnot. right. exact Hin.
Qed.

Lemma dict_of_pairs_acc pairs acc :
  NoDup (PyDict.keys (acc ++ pairs)) ->
  fold_left (fun d kv => PyDict.set (fst kv) (snd kv) d) pairs acc = acc ++ pairs.
Proof.
  revert acc. induction pairs as [|[k v] pairs IH]; intros acc Hnd; simpl.
  - rewrite app_nil_r. reflexivity.
  - rewrite set_fresh.
    + rewrite IH; rewrite <- app_assoc; [reflexivity|exact Hnd].
    + unfold PyDict.keys in *. rewrite map_app in Hnd. simpl in Hnd.
      apply NoDup_app in Hnd as (_ & Hdisj & _).
      intros Hin. apply (Hdisj k Hin). left.
Qed.

Lemma dict_of_pairs_nodup pairs :
  NoDup (PyDict.keys pairs) -> dict_of_pairs pairs = pairs.
Proof. intros H. apply (dict_of_pairs_acc pairs []). exact H. Qed.

Lemma parse_members_dumps items :
  items <> [] -> Forall (fun kv => reads_back (snd kv)) items ->
  Forall (fun kv => wf (snd kv)) items ->
  forall fuel rest,
    list_sum (map (fun kv => S (cost (snd kv))) items) <= fuel ->
    parse_members fuel (dump_members dumps items +:+ String "}" rest)
    = Some (items, rest).
Proof.
  induction items as [|[key value] items IH]; [congruence|].
  intros _ Hread Hwf fuel rest Hfuel.
  inversion Hread as [|? ? Hitem Hread']; subst.
  inversion Hwf as [|? ? Hwitem Hwf']; subst.
  simpl in Hfuel. cbn [snd] in Hitem, Hwitem.
  destruct fuel as [|fuel]; [lia|].
  assert (dump_members dumps ((key, value) :: items) +:+ String "}" rest
          = String quote (escape key +:+ String quote
              (String ":" (dumps value +:+
                 match items with
                 | [] => String "}" rest
                 | _ => String "," (dump_members dumps items +:+ String "}" rest)
                 end)))) as Hshape.
  { cbn [dump_members]. unfold dump_string.
    destruct items; rewrite ?append_assoc, ?append_cons, ?append_assoc;
      reflexivity. }
  rewrite Hshape. cbn [parse_members after].
  change (Ascii.eqb quote quote) with true. cbv iota.
  rewrite parse_chars_escape.
  rewrite skip_ws_plain by reflexivity. cbn [after].
  change (Ascii.eqb ":" ":") with true. cbv iota.
  rewrite skip_ws_dumps.
  destruct items as [|kv items].
  - rewrite (Hitem Hwitem fuel (String "}" rest)); [|simpl in *; lia|simpl; auto].
    reflexivity.
  - rewrite (Hitem Hwitem fuel); [|simpl in *; lia|simpl; auto].
    rewrite skip_ws_plain by reflexivity. cbn [after].
    change (Ascii.eqb "," ",") with true. cbv iota.
    assert (skip_ws (dump_members dumps (kv :: items) +:+ String "}" rest)
            = dump_members dumps (kv :: items) +:+ String "}" rest) as Hskip.
    { destruct kv as [k v]. cbn [dump_members]. unfold dump_string.
      destruct items; rewrite ?append_assoc, ?append_cons; reflexivity. }
    rewrite Hskip.
    rewrite IH; [reflexivity|discriminate|assumption|assumption|].
    simpl in *. lia.
Qed.

Lemma dumps_reads_back doc : reads_back doc.
Proof.
  induction doc as [|b|z|s|items IH|items IH] using json_induction;
    intros Hwf fuel rest Hfuel Hrest; (destruct fuel as [|fuel]; [simpl in Hfuel; lia|]).
  - cbn [dumps]. push_append. reflexivity.
  - destruct b; cbn [dumps]; push_append; reflexivity.
  - apply parse_value_int. exact Hrest.
  - cbn [dumps]. unfold dump_string. rewrite append_cons, append_assoc.
    cbn [parse_value]. change (Ascii.eqb quote quote) with true. cbv iota.
    change (String quote "" +:+ rest) with (String quote rest).
    rewrite parse_chars_escape. reflexivity.
  - inversion Hwf as [| | | |? Hall|]; subst.
    cbn [dumps]. rewrite append_cons, append_assoc.
    change ("]" +:+ rest) with (String "]" rest).
    cbn [parse_value]. change (Ascii.eqb "[" quote) with false.
    change (Ascii.eqb "[" "[") with true. cbv iota.
    destruct items as [|item items].
    + reflexivity.
    + assert (skip_ws (dump_elements dumps (item :: items) +:+ String "]" rest)
              = dump_elements dumps (item :: items) +:+ String "]" rest
              /\ after "]" (dump_elements dumps (item :: items) +:+ String "]" rest)
                 = None) as [Hskip Hafter].
      { cbn [dump_elements].
        destruct items; rewrite ?append_assoc; split;
          auto using skip_ws_dumps, after_close_dumps. }
      rewrite Hskip, Hafter.
      rewrite parse_elements_dumps; [reflexivity|discriminate|assumption|assumption|].
      simpl in Hfuel. simpl. lia.
  - inversion Hwf as [| | | | |? Hnd Hall]; subst.
    cbn [dumps]. rewrite append_cons, append_assoc.
    change ("}" +:+ rest) with (String "}" rest).
    cbn [parse_value]. change (Ascii.eqb "{" quote) with false.
    change (Ascii.eqb "{" "[") with false.
    change (Ascii.eqb "{" "{") with true. cbv iota.
    destruct items as [|[key value] items].
    + reflexivity.
    + assert (skip_ws (dump_members dumps ((key, value) :: items) +:+ String "}" rest)
              = dump_members dumps ((key, value) :: items) +:+ String "}" rest
              /\ after "}" (dump_members dumps ((key, value) :: items) +:+ String "}" rest)
                 = None) as [Hskip Hafter].
      { cbn [dump_members]. unfold dump_string.
        destruct items; rewrite ?append_assoc, ?append_cons; split; reflexivity. }
      rewrite Hskip, Hafter.
      rewrite parse_members_dumps; [|discriminate|assumption|assumption|].
      * rewrite dict_of_pairs_nodup by assumption. reflexivity.
      * simpl in Hfuel. simpl. lia.
Qed.

Lemma dump_elements_cost items :
  Forall (fun doc => cost doc <= String.length (dumps doc)) items ->
  list_sum (map (fun x => S (cost x)) items)
  <= S (String.length (dump_elements dumps items)).
Proof.
  induction 1 as [|item items Hitem _ IH]; [simpl; lia|].
  cbn [dump_elements]. destruct items as [|item' items].
  - simpl. lia.
  - rewrite length_append. cbn [String.length]. simpl in *. lia.
Qed.

Lemma dump_members_cost items :
  Forall (fun kv => cost (snd kv) <= String.length (dumps (snd kv))) items ->
  list_sum (map (fun kv => S (cost (snd kv))) items)
  <= S (String.length (dump_members dumps items)).
Proof.
  induction 1 as [|[key value] items Hitem _ IH]; [simpl; lia|].
  cbn [dump_members]. simpl in Hitem. destruct items as [|kv items].
  - rewrite length_append. cbn [String.length]. simpl. lia.
  - rewrite !length_append. cbn [String.length]. simpl in *. lia.
Qed.

Lemma cost_le_length doc : cost doc <= String.length (dumps doc).
Proof.
  induction doc as [|b|z|s|items IH|items IH] using json_induction.
  - simpl. lia.
  - destruct b; simpl; lia.
  - destruct (dump_int_head z) as (c & s & E & _). cbn [dumps cost]. rewrite E.
    simpl. lia.
  - simpl. lia.
  - cbn [dumps cost String.length]. rewrite length_append.
    pose proof (dump_elements_cost items IH). simpl in *. lia.
  - cbn [dumps cost String.length]. rewrite length_append.
    pose proof (dump_members_cost items IH). simpl in *. lia.
Qed.

(** Reading back what [dumps] wrote gives the document. *)
Lemma json_text_loads_dumps doc : wf doc -> loads (dumps doc) = Some doc.
Proof.
  intros Hwf. unfold loads.
  pose proof (skip_ws_dumps doc "") as Hskip.
  rewrite append_nil_r in Hskip. rewrite Hskip.
  pose proof (dumps_reads_back doc Hwf (S (String.length (dumps doc))) "") as Hread.
  rewrite append_nil_r in Hread. rewrite Hread; [reflexivity| |exact I].
  pose proof (cost_le_length doc). lia.
Qed.

Lemma in_keys_set key v items k :
  k ∈ PyDict.keys (PyDict.set key v items) -> k = key \/ k ∈ PyDict.keys items.
Proof.
  induction items as [|[k' x] items IH]; simpl.
  - intros H. apply list_elem_of_singleton in H. auto.
  - destruct (String.eqb_spec k' key) as [->|Hne]; simpl; [auto|].
    intros H. apply elem_of_cons in H as [->|H].
    + right. left.
    + destruct (IH H); [auto|]. right. right. assumption.
Qed.

Lemma NoDup_keys_set key v items :
  NoDup (PyDict.keys items) -> NoDup (PyDict.keys (PyDict.set key v items)).
Proof.
  induction items as [|[k' x] items IH]; simpl; intros Hnd.
  - apply NoDup_singleton.
  - apply NoDup_cons in Hnd as [Hnot Hnd].
    destruct (String.eqb_spec k' key) as [->|Hne]; simpl.
    + apply NoDup_cons. auto.
    + apply NoDup_cons. split; [|auto].
      intros Hin. apply in_keys_set in Hin as [->|Hin]; auto.
Qed.

Lemma Forall_dict_set (P : string * json -> Prop) key v items :
  P (key, v) -> Forall P items -> Forall P (PyDict.set key v items).
Proof.
  intros Hv. induction 1 as [|[k y] items Hy H IH]; simpl.
  - constructor; auto.
  - destruct (String.eqb_spec k key) as [->|]; constructor; auto.
Qed.

Lemma dict_of_pairs_wf pairs :
  Forall (fun kv => wf (snd kv)) pairs -> wf (JDict (dict_of_pairs pairs)).
Proof.
  intros Hall. unfold dict_of_pairs.
  assert (forall acc, NoDup (PyDict.keys acc) -> Forall (fun kv => wf (snd kv)) acc ->
            let d := fold_left (fun d kv => PyDict.set (fst kv) (snd kv) d) pairs acc in
            NoDup (PyDict.keys d) /\ Forall (fun kv => wf (snd kv)) d) as Hgen.
  { induction Hall as [|[k v] pairs Hv _ IH]; intros acc Hnd Hacc; simpl; [auto|].
    apply IH; [apply NoDup_keys_set|apply Forall_dict_set]; assumption. }
  destruct (Hgen [] (NoDup_nil_2 (A:=string)) (List.Forall_nil _)) as [Hnd Hwf].
  constructor; assumption.
Qed.

Ltac split_match H :=
  repeat match type of H with
         | match ?x with _ => _ end = Some _ => destruct x eqn:?; try discriminate H
         | (let '(_, _) := ?x in _) = Some _ => destruct x eqn:?
         | (if ?b then _ else _) = Some _ => destruct b eqn:?; try discriminate H
         end.

Lemma parse_gives_wf fuel :
  (forall s doc rest, parse_value fuel s = Some (doc, rest) -> wf doc)
  /\ (forall s items rest, parse_elements fuel s = Some (items, rest) -> Forall wf items)
  /\ (forall s pairs rest, parse_members fuel s = Some (pairs, rest) ->
        Forall (fun kv => wf (snd kv)) pairs).
Proof.
  induction fuel as [|fuel (IHv & IHe & IHm)]; [repeat split; discriminate|].
  repeat split.
  - intros s doc rest H. cbn [parse_value] in H. unfold expect in H.
    destruct s as [|c s]; [discriminate|].
    split_match H; injection H as <- <-;
      first [apply dict_of_pairs_wf; eauto | constructor; eauto];
      apply NoDup_nil_2.
  - intros s items rest H. cbn [parse_elements] in H.
    split_match H; injection H as <- <-; constructor; eauto.
  - intros s pairs rest H. cbn [parse_members] in H.
    split_match H; injection H as <- <-; constructor; simpl; eauto.
Qed.

Lemma json_text_loads_wf text doc : loads text = Some doc -> wf doc.
Proof.
  unfold loads. intros H. split_match H. injection H as <-.
  eapply parse_gives_wf. eassumption.
Qed.

End JsonTextFacts.

(** ** The coinbase normalizer *)

Section NormalizerFacts.
Import FixGenesisCoinbase JsonSpec NormalizerSpec.

Variable loads : string -> option json.
Variable dumps : json -> string.

Local Opaque PyStr.take PyStr.drop.

Lemma fix_coinbase_field_cases data l data' :
  fix_coinbase_field data = (l, Ok data') ->
  data' = data \/
  exists old new, PyDict.lookup "coinbase" data = Some (JStr old) /\
                  data' = PyDict.set "coinbase" (JStr new) data.
Proof.
  unfold fix_coinbase_field.
  destruct (PyDict.lookup "coinbase" data) as [[| | |c| |]|] eqn:E; try discriminate.
  - destruct (PyStr.startswith "0x" c).
    + destruct (Nat.eqb _ 64).
      * intros [= <- <-]. right. eauto.
      * destruct (negb _); intros [= <- <-]; auto.
    + intros [= <- <-]; auto.
  - intros [= <- <-]; auto.
Qed.

Lemma fix_coinbase_field_keys data l data' :
  fix_coinbase_field data = (l, Ok data') -> PyDict.keys data' = PyDict.keys data.
Proof.
  intros H. apply fix_coinbase_field_cases in H as [->|(old & new & Hget & ->)];
    [reflexivity|]. eapply keys_set; eauto.
Qed.

Lemma fix_items_keys self items l items' :
  fix_items loads dumps self items = (l, Ok items') ->
  PyDict.keys items' = PyDict.keys items.
Proof.
  revert l items'. induction items as [|[k v] items IH]; simpl; intros l items' H.
  - apply ret_ok_inv in H as [_ <-]. reflexivity.
  - apply bind_ok_inv in H as (l1 & v' & l2 & Hv & H & _).
    apply bind_ok_inv in H as (l3 & rest' & l4 & Hrest & H & _).
    apply ret_ok_inv in H as [_ <-]. simpl. f_equal. eauto.
Qed.

(** The loop over the items leaves a string under ['coinbase'] alone. *)
Lemma fix_items_coinbase self items l items' s :
  fix_items loads dumps self items = (l, Ok items') ->
  PyDict.lookup "coinbase" items = Some (JStr s) ->
  PyDict.lookup "coinbase" items' = Some (JStr s).
Proof.
  revert l items'. induction items as [|[k v] items IH]; simpl; intros l items' H;
    [discriminate|].
  apply bind_ok_inv in H as (l1 & v' & l2 & Hv & H & _).
  apply bind_ok_inv in H as (l3 & rest' & l4 & Hrest & H & _).
  apply ret_ok_inv in H as [_ <-]. simpl.
  destruct (String.eqb_spec k "coinbase") as [->|Hne]; [|eauto].
  intros [= ->]. simpl in Hv. injection Hv as <- <-. reflexivity.
Qed.

(** *** What the normalizer leaves as it is *)

Lemma set_string_preserved key old new data :
  key = "coinbase" \/ key = "cChainGenesis" ->
  PyDict.lookup key data = Some (JStr old) ->
  Forall2 (fun kv kv' => fst kv = fst kv' /\
             (snd kv = snd kv' \/ rewritable (fst kv) (snd kv) (snd kv')))
    data (PyDict.set key (JStr new) data).
Proof.
  intros Hk. induction data as [|[k v] data IH]; simpl; [discriminate|].
  destruct (String.eqb_spec k key) as [->|Hne].
  - intros [= ->]. constructor.
    + simpl. split; [reflexivity|]. right. split; [assumption|]. eauto.
    + clear. induction data; constructor; auto.
  - intros H. constructor; auto.
Qed.

Lemma fix_item_preserved self key value l value' :
  (forall v l v', self v = (l, Ok v') -> preserved v v') ->
  fix_item loads dumps self key value = (l, Ok value') ->
  preserved value value' \/ rewritable key value value'.
Proof.
  intros Hself. destruct value as [| | |text| |]; simpl;
    try (intros [= <- <-]; left; constructor).
  - destruct (String.eqb_spec key "cChainGenesis") as [->|Hne].
    + intros H. right. split; [auto|]. exists text.
      unfold catch in H.
      destruct (bind _ _) as [l0 [a|e]] eqn:E.
      * injection H as <- <-.
        apply bind_ok_inv in E as (l1 & e1 & l2 & _ & E & _).
        apply bind_ok_inv in E as (l3 & e3 & l4 & _ & E & _).
        apply ret_ok_inv in E as [_ <-]. eauto.
      * destruct (caught_in_embedded e); [|discriminate].
        injection H as <- <-. eauto.
    + intros [= <- <-]; left; constructor.
  - intros H. left. eauto.
  - intros H. left. eauto.
Qed.

Lemma fix_items_preserved self items l items' :
  (forall v l v', self v = (l, Ok v') -> preserved v v') ->
  fix_items loads dumps self items = (l, Ok items') ->
  Forall2 preserved_entry items items'.
Proof.
  intros Hself. revert l items'.
  induction items as [|[k v] items IH]; simpl; intros l items' H.
  - apply ret_ok_inv in H as [_ <-]. constructor.
  - apply bind_ok_inv in H as (l1 & v' & l2 & Hv & H & _).
    apply bind_ok_inv in H as (l3 & rest' & l4 & Hrest & H & _).
    apply ret_ok_inv in H as [_ <-].
    constructor; [|eauto].
    split; [reflexivity|]. simpl. eapply fix_item_preserved; eauto.
Qed.

Lemma fix_list_preserved self items l items' :
  (forall v l v', self v = (l, Ok v') -> preserved v v') ->
  fix_list self items = (l, Ok items') ->
  Forall2 preserved items items'.
Proof.
  intros Hself. revert l items'.
  induction items as [|v items IH]; simpl; intros l items' H.
  - apply ret_ok_inv in H as [_ <-]. constructor.
  - apply bind_ok_inv in H as (l1 & v' & l2 & Hv & H & _).
    apply bind_ok_inv in H as (l3 & rest' & l4 & Hrest & H & _).
    apply ret_ok_inv in H as [_ <-].
    constructor; eauto.
Qed.

Lemma preserved_entry_after_set data data1 data2 :
  Forall2 (fun kv kv' => fst kv = fst kv' /\
             (snd kv = snd kv' \/ rewritable (fst kv) (snd kv) (snd kv')))
    data data1 ->
  Forall2 preserved_entry data1 data2 ->
  Forall2 preserved_entry data data2.
Proof.
  intros H. revert data2. induction H as [|[k v] [k1 v1] data data1 [Hk Hv] H IH];
    intros data2 H2; inversion H2 as [|? [k2 v2] ? ? [Hk2 Hv2] H2']; subst;
    constructor; auto.
  simpl in *. subst. split; [reflexivity|]. simpl.
  destruct Hv as [->|(Hkey & s & s' & -> & ->)]; [assumption|].
  right. split; [assumption|]. exists s.
  destruct Hv2 as [Hp|(_ & s1 & s2 & _ & ->)]; [|eauto].
  inversion Hp; subst. eauto.
Qed.

(** C9.  When [fix_coinbase_in_json] returns, the document it leaves is
    the one it was given up to strings under the keys ['coinbase'] and
    ['cChainGenesis']: every other value, the keys of every mapping and
    their order, the length and the order of every sequence are the
    same. *)
Theorem fix_coinbase_in_json_preserves depth data l data' :
  fix_coinbase_in_json loads dumps depth data = (l, Ok data') ->
  preserved data data'.
Proof.
  revert data l data'. induction depth as [|depth IH]; intros data l data'; simpl.
  - discriminate.
  - destruct data as [| | | |items|items]; simpl;
      try (intros [= <- <-]; constructor).
    + intros H.
      apply bind_ok_inv in H as (l1 & items' & l2 & Hitems & H & _).
      apply ret_ok_inv in H as [_ <-].
      apply preserved_list. eapply fix_list_preserved; eauto.
    + intros H.
      apply bind_ok_inv in H as (l1 & items1 & l2 & Hfield & H & _).
      apply bind_ok_inv in H as (l3 & items2 & l4 & Hitems & H & _).
      apply ret_ok_inv in H as [_ <-].
      apply preserved_dict. fold preserved_entry.
      apply fix_items_preserved in Hitems; [|eauto].
      apply fix_coinbase_field_cases in Hfield as [->|(old & new & Hget & ->)];
        [assumption|].
      eapply preserved_entry_after_set; [|eassumption].
      eapply set_string_preserved; eauto.
Qed.

(** C2.  On a dict whose ['coinbase'] is a string with the [0x] prefix,
    the normalizer looks at the length of the rest: at 64 it stores the
    prefix and the first 40 characters and records one correction; at 40
    it records nothing; at any other length it records one warning; in
    the last two cases the dict is as it was.  The visit of the items
    that follows leaves a string under ['coinbase'] alone. *)
Theorem fix_coinbase_by_length depth data coinbase :
  PyDict.lookup "coinbase" data = Some (JStr coinbase) ->
  PyStr.startswith "0x" coinbase = true ->
  let hex_part := PyStr.drop 2 coinbase in
  let truncated := "0x" +:+ PyStr.take 40 hex_part in
  let visit items :=
    (items <- fix_items loads dumps (fix_coinbase_in_json loads dumps depth) items ;;
     ret (JDict items)) in
  (PyStr.len hex_part = 64 ->
     fix_coinbase_field data
       = ([FixedCoinbase coinbase truncated],
          Ok (PyDict.set "coinbase" (JStr truncated) data))
     /\ fix_coinbase_in_json loads dumps (S depth) (JDict data)
        = (tell (FixedCoinbase coinbase truncated) ;;;
           visit (PyDict.set "coinbase" (JStr truncated) data)))
  /\ (PyStr.len hex_part = 40 ->
        fix_coinbase_field data = ([], Ok data)
        /\ fix_coinbase_in_json loads dumps (S depth) (JDict data) = visit data)
  /\ (PyStr.len hex_part <> 64 -> PyStr.len hex_part <> 40 ->
        fix_coinbase_field data
          = ([UnexpectedLength (PyStr.len hex_part) coinbase], Ok data)
        /\ fix_coinbase_in_json loads dumps (S depth) (JDict data)
           = (tell (UnexpectedLength (PyStr.len hex_part) coinbase) ;;; visit data))
  /\ (forall items l items' s,
        fix_items loads dumps (fix_coinbase_in_json loads dumps depth) items
          = (l, Ok items') ->
        PyDict.lookup "coinbase" items = Some (JStr s) ->
        PyDict.lookup "coinbase" items' = Some (JStr s)).
Proof.
  intros Hget Hpre hex_part truncated visit.
  assert (forall evs data1,
            fix_coinbase_field data = (evs, Ok data1) ->
            fix_coinbase_in_json loads dumps (S depth) (JDict data)
            = bind (evs, Ok data1) visit) as Hcall.
  { intros evs data1 E. cbn [fix_coinbase_in_json fix_body]. rewrite E. reflexivity. }
  assert (forall m : M event json, bind (ret data) (fun _ => m) = m) as Hret.
  { intros [l r]. reflexivity. }
  repeat split.
  - unfold fix_coinbase_field. rewrite Hget, Hpre. fold hex_part. rewrite H.
    reflexivity.
  - rewrite (Hcall [FixedCoinbase coinbase truncated]
               (PyDict.set "coinbase" (JStr truncated) data)).
    + cbn [bind tell]. destruct (visit _) as [l r]. reflexivity.
    + unfold fix_coinbase_field. rewrite Hget, Hpre. fold hex_part. rewrite H.
      reflexivity.
  - unfold fix_coinbase_field. rewrite Hget, Hpre. fold hex_part. rewrite H.
    reflexivity.
  - rewrite (Hcall [] data).
    + cbn [bind]. destruct (visit data) as [l r]. reflexivity.
    + unfold fix_coinbase_field. rewrite Hget, Hpre. fold hex_part. rewrite H.
      reflexivity.
  - unfold fix_coinbase_field. rewrite Hget, Hpre. fold hex_part.
    destruct (Nat.eqb_spec (PyStr.len hex_part) 64); [contradiction|].
    destruct (Nat.eqb_spec (PyStr.len hex_part) 40); [contradiction|].
    reflexivity.
  - rewrite (Hcall [UnexpectedLength (PyStr.len hex_part) coinbase] data).
    + cbn [bind tell]. destruct (visit data) as [l r]. reflexivity.
    + unfold fix_coinbase_field. rewrite Hget, Hpre. fold hex_part.
      destruct (Nat.eqb_spec (PyStr.len hex_part) 64); [contradiction|].
      destruct (Nat.eqb_spec (PyStr.len hex_part) 40); [contradiction|].
      reflexivity.
  - intros items l items' s. apply fix_items_coinbase.
Qed.

(** C4, amended.  Normalizing a genesis made of an [alloc] mapping
    returns a genesis made of an [alloc] mapping with the same keys in
    the same order: no key is renamed, merged or dropped. *)
Theorem fix_coinbase_keeps_alloc_keys depth alloc l doc' :
  fix_coinbase_in_json loads dumps depth (JDict [("alloc", JDict alloc)]) = (l, Ok doc') ->
  exists alloc',
    doc' = JDict [("alloc", JDict alloc')]
    /\ PyDict.keys alloc' = PyDict.keys alloc.
Proof.
  destruct depth as [|depth]; [discriminate|].
  cbn [fix_coinbase_in_json fix_body]. intros H.
  apply bind_ok_inv in H as (l1 & items1 & l2 & Hfield & H & _).
  injection Hfield as <- <-.
  apply bind_ok_inv in H as (l3 & items2 & l4 & Hitems & H & _).
  apply ret_ok_inv in H as [_ <-].
  cbn [fix_items fix_item] in Hitems.
  apply bind_ok_inv in Hitems as (l5 & v' & l6 & Hv & Hitems & _).
  apply ret_ok_inv in Hitems as [_ <-].
  destruct depth as [|depth]; [discriminate|].
  cbn [fix_coinbase_in_json fix_body] in Hv.
  apply bind_ok_inv in Hv as (l7 & alloc1 & l8 & Hfield & Hv & _).
  apply bind_ok_inv in Hv as (l9 & alloc2 & l10 & Hvisit & Hv & _).
  apply ret_ok_inv in Hv as [_ <-].
  exists alloc2. split; [reflexivity|].
  rewrite (fix_items_keys _ _ _ _ Hvisit). eapply fix_coinbase_field_keys; eauto.
Qed.

(** *** A second pass changes nothing *)

Hypothesis loads_wf : forall text doc, loads text = Some doc -> wf doc.
Hypothesis loads_dumps : forall doc, wf doc -> loads (dumps doc) = Some doc.

Lemma settled_field_fix data :
  settled_field data -> exists l, fix_coinbase_field data = (l, Ok data).
Proof.
  unfold settled_field, fix_coinbase_field.
  destruct (PyDict.lookup "coinbase" data) as [[| | |c| |]|]; try contradiction; eauto.
  destruct (PyStr.startswith "0x" c); eauto.
  intros H. destruct (Nat.eqb_spec (PyStr.len (PyStr.drop 2 c)) 64) as [E|_].
  - destruct (H eq_refl E).
  - destruct (negb _); eauto.
Qed.

Lemma fix_coinbase_field_settles data l data' :
  fix_coinbase_field data = (l, Ok data') ->
  settled_field data'
  /\ (Forall (fun kv => wf (snd kv)) data -> Forall (fun kv => wf (snd kv)) data').
Proof.
  unfold fix_coinbase_field, settled_field.
  destruct (PyDict.lookup "coinbase" data) as [[| | |c| |]|] eqn:E; try discriminate.
  - destruct (PyStr.startswith "0x" c) eqn:Hpre.
    + destruct (Nat.eqb_spec (PyStr.len (PyStr.drop 2 c)) 64) as [H64|H64].
      * intros [= <- <-]. split.
        -- rewrite lookup_set_eq, drop_0x. intros _.
           unfold PyStr.len in *. rewrite str_length_take, H64. discriminate.
        -- apply Forall_dict_set. constructor.
      * destruct (negb _); intros [= <- <-]; rewrite E; auto.
    + intros [= <- <-]. rewrite E, Hpre. split; [discriminate|auto].
  - intros [= <- <-]. rewrite E. auto.
Qed.

Lemma fix_item_settles self key value l value' :
  settles self ->
  fix_item loads dumps self key value = (l, Ok value') ->
  (exists l', fix_item loads dumps self key value' = (l', Ok value'))
  /\ (wf value -> wf value').
Proof.
  intros Hself. destruct value as [| | |text| |]; simpl;
    try (intros [= <- <-]; simpl; eauto).
  - destruct (String.eqb key "cChainGenesis") eqn:Hkey.
    + unfold json_loads. destruct (loads text) as [embedded|] eqn:Hload; simpl.
      * destruct (self embedded) as [l1 [embedded'|e]] eqn:Hrec; simpl.
        -- rewrite app_nil_r. intros [= <- <-]. split; [|constructor].
           simpl. rewrite Hkey. unfold json_loads.
           destruct (Hself _ _ _ Hrec) as ((l' & Hagain) & Hwf & _).
           rewrite loads_dumps by eauto. simpl. rewrite Hagain. simpl. eauto.
        -- destruct (caught_in_embedded e) eqn:Hc; [|discriminate].
           intros [= <- <-]. split; [|auto].
           simpl. rewrite Hkey. unfold json_loads. rewrite Hload. simpl.
           rewrite Hrec. simpl. rewrite Hc. eauto.
      * intros [= <- <-]. split; [|auto].
        simpl. rewrite Hkey. unfold json_loads. rewrite Hload. simpl. eauto.
    + intros [= <- <-]. split; [|auto]. simpl. rewrite Hkey. eauto.
  - intros H. destruct (Hself _ _ _ H) as ((l' & Hagain) & Hwf & Hkind).
    split; [|assumption].
    destruct value' as [| | | |items'|]; try contradiction. simpl. eauto.
  - intros H. destruct (Hself _ _ _ H) as ((l' & Hagain) & Hwf & Hkind).
    split; [|assumption].
    destruct value' as [| | | | |items']; try contradiction. simpl. eauto.
Qed.

Lemma fix_items_settles self items l items' :
  settles self ->
  fix_items loads dumps self items = (l, Ok items') ->
  (exists l', fix_items loads dumps self items' = (l', Ok items'))
  /\ (Forall (fun kv => wf (snd kv)) items -> Forall (fun kv => wf (snd kv)) items').
Proof.
  intros Hself. revert l items'.
  induction items as [|[k v] items IH]; simpl; intros l items' H.
  - apply ret_ok_inv in H as [_ <-]. simpl. eauto.
  - apply bind_ok_inv in H as (l1 & v' & l2 & Hv & H & _).
    apply bind_ok_inv in H as (l3 & rest' & l4 & Hrest & H & _).
    apply ret_ok_inv in H as [_ <-].
    destruct (fix_item_settles _ _ _ _ _ Hself Hv) as ((l' & Hv') & Hwf).
    destruct (IH _ _ Hrest) as ((l'' & Hrest') & Hwfs).
    split.
    + simpl. rewrite Hv'. simpl. rewrite Hrest'. simpl. eauto.
    + intros Hall. inversion Hall; subst. constructor; auto.
Qed.

Lemma fix_list_settles self items l items' :
  settles self ->
  fix_list self items = (l, Ok items') ->
  (exists l', fix_list self items' = (l', Ok items'))
  /\ (Forall wf items -> Forall wf items').
Proof.
  intros Hself. revert l items'.
  induction items as [|v items IH]; simpl; intros l items' H.
  - apply ret_ok_inv in H as [_ <-]. simpl. eauto.
  - apply bind_ok_inv in H as (l1 & v' & l2 & Hv & H & _).
    apply bind_ok_inv in H as (l3 & rest' & l4 & Hrest & H & _).
    apply ret_ok_inv in H as [_ <-].
    destruct (Hself _ _ _ Hv) as ((l' & Hv') & Hwf & _).
    destruct (IH _ _ Hrest) as ((l'' & Hrest') & Hwfs).
    split.
    + simpl. rewrite Hv'. simpl. rewrite Hrest'. simpl. eauto.
    + intros Hall. inversion Hall; subst. constructor; auto.
Qed.

Lemma fix_items_settled_field self items l items' :
  fix_items loads dumps self items = (l, Ok items') ->
  settled_field items -> settled_field items'.
Proof.
  unfold settled_field. revert l items'.
  induction items as [|[k v] items IH]; simpl; intros l items' H.
  - apply ret_ok_inv in H as [_ <-]. auto.
  - apply bind_ok_inv in H as (l1 & v' & l2 & Hv & H & _).
    apply bind_ok_inv in H as (l3 & rest' & l4 & Hrest & H & _).
    apply ret_ok_inv in H as [_ <-]. simpl.
    destruct (String.eqb_spec k "coinbase") as [->|Hne]; [|exact (IH _ _ Hrest)].
    intros Hs. destruct v; try contradiction.
    simpl in Hv. injection Hv as <- <-. exact Hs.
Qed.

Lemma fix_coinbase_in_json_settles depth :
  settles (fix_coinbase_in_json loads dumps depth).
Proof.
  induction depth as [|depth IH]; intros data l data'; simpl.
  - discriminate.
  - destruct data as [| | | |items|items]; simpl;
      try (intros [= <- <-]; simpl; eauto).
    + intros H.
      apply bind_ok_inv in H as (l1 & items' & l2 & Hitems & H & _).
      apply ret_ok_inv in H as [_ <-].
      destruct (fix_list_settles _ _ _ _ IH Hitems) as ((l' & Hagain) & Hwf).
      split; [|split].
      * simpl. rewrite Hagain. simpl. eauto.
      * intros Hw. inversion Hw; subst. constructor. auto.
      * exact I.
    + intros H.
      apply bind_ok_inv in H as (l1 & items1 & l2 & Hfield & H & _).
      apply bind_ok_inv in H as (l3 & items2 & l4 & Hitems & H & _).
      apply ret_ok_inv in H as [_ <-].
      destruct (fix_coinbase_field_settles _ _ _ Hfield) as (Hset & Hw1).
      destruct (fix_items_settles _ _ _ _ IH Hitems) as ((l'' & Hitems') & Hw2).
      split; [|split].
      * apply (fix_items_settled_field _ _ _ _ Hitems) in Hset.
        destruct (settled_field_fix _ Hset) as (l' & Hfield').
        simpl. rewrite Hfield'. simpl. rewrite Hitems'. simpl. eauto.
      * intros Hw. inversion Hw; subst. constructor.
        -- rewrite (fix_items_keys _ _ _ _ Hitems).
           rewrite (fix_coinbase_field_keys _ _ _ Hfield). assumption.
        -- auto.
      * exact I.
Qed.

(** C1.  With a codec that reads back what it writes, normalizing the
    result of a normalization gives that result again: the outcome of two
    passes is the outcome of one, also when that is an exception. *)
Theorem fix_coinbase_in_json_idempotent depth data :
  outcome (fixed <- fix_coinbase_in_json loads dumps depth data ;;
           fix_coinbase_in_json loads dumps depth fixed)
  = outcome (fix_coinbase_in_json loads dumps depth data).
Proof.
  rewrite outcome_bind.
  destruct (fix_coinbase_in_json loads dumps depth data) as [l [fixed|e]] eqn:E;
    [|reflexivity].
  destruct (fix_coinbase_in_json_settles depth _ _ _ E) as ((l' & Hagain) & _).
  cbn [outcome snd]. rewrite Hagain. reflexivity.
Qed.

End NormalizerFacts.

(** ** The file fixer *)

Section FileFacts.
Import FixGenesisCoinbase NormalizerSpec.

Variable loads : string -> option json.
Variable dumps : json -> string.
Variable dumps_indent : json -> string.
Variable recursion_limit : nat.

Lemma fix_genesis_file_run fs filepath :
  fix_genesis_file loads dumps dumps_indent recursion_limit fs filepath
  = expected_run loads dumps dumps_indent recursion_limit fs filepath.
Proof.
  unfold fix_genesis_file, expected_run, fix_genesis_try, open_read, json_loads.
  destruct (fs !! filepath) as [text|]; [|reflexivity].
  cbn [bind ret].
  destruct (loads text) as [data|]; [|reflexivity].
  unfold lift at 1. cbn [bind ret fst snd map].
  destruct (fix_coinbase_in_json loads dumps recursion_limit data) as [l [fixed|e]];
    destruct (bool_decide (is_Some (fs !! (filepath +:+ ".backup"))));
    unfold effects, outcome, lift, narrate; simpl; rewrite ?app_nil_r;
    rewrite <- ?app_assoc; reflexivity.
Qed.

Lemma files_after_app fs run1 run2 :
  files_after fs (run1 ++ run2) = files_after (files_after fs run1) run2.
Proof. apply fold_left_app. Qed.

Lemma files_after_narrate fs l : files_after fs (narrate l) = fs.
Proof. induction l; simpl; auto. Qed.

Lemma written_under_app guard path fs run1 run2 :
  written_under guard path fs run1 ->
  written_under guard path (files_after fs run1) run2 ->
  written_under guard path fs (run1 ++ run2).
Proof.
  revert fs. induction run1 as [|e run1 IH]; intros fs; simpl; [auto|].
  intros [He H1] H2. split; auto.
Qed.

Lemma written_under_narrate guard path fs l :
  written_under guard path fs (narrate l).
Proof. revert fs. induction l; simpl; auto. Qed.

Lemma written_to_app path run1 run2 :
  written_to path (run1 ++ run2) = written_to path run1 ++ written_to path run2.
Proof. apply omap_app. Qed.

Lemma written_to_narrate path l : written_to path (narrate l) = [].
Proof. induction l; simpl; auto. Qed.

Lemma backup_path_eqb filepath :
  String.eqb filepath (filepath +:+ ".backup") = false
  /\ String.eqb (filepath +:+ ".backup") (filepath +:+ ".backup") = true.
Proof.
  split; [|apply String.eqb_refl].
  apply String.eqb_neq. intros H. symmetry in H. exact (backup_path_differs _ H).
Qed.

(** C8.  In a run of [fix_genesis_file] every write to the file finds
    the backup on disk; a backup found there at the start is never
    written to and keeps its content; with none, the backup created
    holds the document as it was read, written once; and a second run
    does not write to the backup. *)
Theorem fix_genesis_file_backup (fs : files) (filepath : string) :
  let backup_path := filepath +:+ ".backup" in
  let fix_file fs := fix_genesis_file loads dumps dumps_indent recursion_limit fs filepath in
  let fs' := files_after fs (fix_file fs) in
  written_under backup_path filepath fs (fix_file fs)
  /\ (forall saved, fs !! backup_path = Some saved ->
        fs' !! backup_path = Some saved /\ written_to backup_path (fix_file fs) = [])
  /\ (forall text data,
        fs !! backup_path = None -> fs !! filepath = Some text -> loads text = Some data ->
        fs' !! backup_path = Some (dumps_indent data)
        /\ written_to backup_path (fix_file fs) = [dumps_indent data])
  /\ (files_after fs' (fix_file fs') !! backup_path = fs' !! backup_path
      /\ written_to backup_path (fix_file fs') = []).
Proof.
  intros backup_path fix_file fs'.
  assert (forall fs saved, fs !! backup_path = Some saved ->
            files_after fs (fix_file fs) !! backup_path = Some saved
            /\ written_to backup_path (fix_file fs) = []) as Hkept.
  { clear fs fs'. intros fs saved Hsaved. unfold fix_file.
    rewrite fix_genesis_file_run. unfold expected_run. fold backup_path.
    destruct (backup_path_eqb filepath) as [Hne Heq]. fold backup_path in Hne, Heq.
    destruct (fs !! filepath) as [text|]; [|simpl; auto].
    destruct (loads text) as [data|]; [|simpl; auto].
    rewrite bool_decide_eq_true_2 by eauto.
    destruct (fix_coinbase_in_json loads dumps recursion_limit data) as [l [fixed|e]];
      unfold effects, outcome, files_after; simpl;
      rewrite ?fold_left_app, ?written_to_app, ?written_to_narrate;
      fold (files_after fs (narrate l)); rewrite files_after_narrate; simpl;
      rewrite ?Hne; auto.
    unfold files in *.
    rewrite lookup_insert_ne by (intros H; exact (backup_path_differs _ (eq_sym H))).
    auto. }
  assert (forall fs, fs !! backup_path = None ->
            (exists text data, fs !! filepath = Some text /\ loads text = Some data
               /\ files_after fs (fix_file fs) !! backup_path = Some (dumps_indent data)
               /\ written_to backup_path (fix_file fs) = [dumps_indent data])
            \/ (files_after fs (fix_file fs) = fs
                /\ written_to backup_path (fix_file fs) = [])) as Hnew.
  { clear fs fs'. intros fs Hnone. unfold fix_file.
    rewrite fix_genesis_file_run. unfold expected_run. fold backup_path.
    destruct (backup_path_eqb filepath) as [Hne Heq]. fold backup_path in Hne, Heq.
    destruct (fs !! filepath) as [text|]; [|right; simpl; auto].
    destruct (loads text) as [data|] eqn:Hdata; [|right; simpl; auto].
    left. exists text, data. split; [reflexivity|]. split; [exact Hdata|].
    rewrite bool_decide_eq_false_2 by (rewrite Hnone; intros [? ?]; discriminate).
    destruct (fix_coinbase_in_json loads dumps recursion_limit data) as [l [fixed|e]];
      unfold effects, outcome, files_after; simpl;
      rewrite ?fold_left_app, ?written_to_app, ?written_to_narrate;
      fold (files_after (<[backup_path:=dumps_indent data]> fs) (narrate l));
      rewrite files_after_narrate; simpl; rewrite ?Hne, ?Heq; simpl.
    - unfold files in *.
      rewrite lookup_insert_ne by (intros H; exact (backup_path_differs _ (eq_sym H))).
      rewrite lookup_insert_eq. auto.
    - unfold files in *. rewrite lookup_insert_eq. auto. }
  split; [|split; [|split]].
  - unfold fix_file. rewrite fix_genesis_file_run. unfold expected_run.
    fold backup_path.
    split; [exact I|]. cbn [apply_effect].
    destruct (fs !! filepath) as [text|]; [|simpl; auto].
    destruct (loads text) as [data|]; [|simpl; auto].
    apply written_under_app.
    + destruct (bool_decide (is_Some (fs !! backup_path))); simpl; [auto|].
      split; [|auto]. intros H. destruct (backup_path_differs _ H).
    + apply written_under_app; [apply written_under_narrate|].
      rewrite files_after_narrate.
      destruct (outcome _); simpl; [|auto].
      split; [|auto]. intros _.
      destruct (bool_decide (is_Some (fs !! backup_path))) eqn:Hb; simpl.
      * apply bool_decide_eq_true_1 in Hb. exact Hb.
      * unfold files in *. rewrite lookup_insert_eq. eauto.
  - exact (Hkept fs).
  - intros text data Hnone Htext Hdata.
    destruct (Hnew fs Hnone) as [(text' & data' & Ht & Hd & H1 & H2)|[Hsame Hw]].
    + rewrite Htext in Ht. injection Ht as <-. rewrite Hdata in Hd. injection Hd as <-.
      auto.
    + exfalso. revert Hw. unfold fix_file. rewrite fix_genesis_file_run.
      unfold expected_run. fold backup_path. rewrite Htext, Hdata.
      rewrite bool_decide_eq_false_2 by (rewrite Hnone; intros [? ?]; discriminate).
      destruct (backup_path_eqb filepath) as [_ Heq]. fold backup_path in Heq.
      simpl. rewrite Heq. discriminate.
  - destruct (fs' !! backup_path) as [saved|] eqn:Hb.
    + exact (Hkept fs' saved Hb).
    + assert (fs' = fs) as Hsame.
      { destruct (fs !! backup_path) as [saved|] eqn:Hb0.
        - destruct (Hkept fs saved Hb0) as [Hk _]. unfold fs' in Hb. congruence.
        - destruct (Hnew fs Hb0) as [(text & data & _ & _ & H3 & _)|[Hsame _]].
          + unfold fs' in Hb. congruence.
          + exact Hsame. }
      destruct (Hnew fs' Hb) as [(text' & data' & _ & _ & H1 & H2)|[Hstill Hw]].
      * exfalso. rewrite Hsame in H1. unfold fs' in Hsame, Hb.
        rewrite Hsame in Hb. congruence.
      * rewrite Hstill. auto.
Qed.
End FileFacts.

(** ** The exporter *)

Section ExporterFacts.
Import ExportBlockchainRpc ExporterSpec.

Variable post : string -> list json -> response.

Lemma make_rpc_call_prints method params :
  Forall is_print (effects (make_rpc_call post method params)).
Proof.
  unfold make_rpc_call. destruct (post method params) as [| |result].
  - repeat constructor.
  - repeat constructor.
  - destruct result as [| | |s|items|items]; simpl; try constructor.
    + destruct (PyBuiltin.is_substring "error" s); simpl; constructor.
    + destruct (existsb _ items); simpl; constructor.
    + destruct (PyDict.mem "error" items); simpl.
      * destruct (PyDict.lookup "error" items); simpl; repeat constructor.
      * constructor.
Qed.

Lemma get_current_height_prints :
  Forall is_print (effects (get_current_height post)).
Proof.
  unfold get_current_height.
  pose proof (make_rpc_call_prints "eth_blockNumber" []) as H.
  destruct (make_rpc_call post "eth_blockNumber" []) as [l [result|e]]; simpl in *.
  - destruct (PyBuiltin.truthy result).
    + destruct result as [| | |s| |]; simpl; rewrite ?app_nil_r; auto.
      destruct (PyBuiltin.int16_str s); simpl; rewrite app_nil_r; auto.
    + simpl. rewrite app_nil_r. auto.
  - auto.
Qed.

Lemma export_files_after_app fs run1 run2 :
  files_after fs (run1 ++ run2) = files_after (files_after fs run1) run2.
Proof. apply fold_left_app. Qed.

Lemma export_files_after_cons fs e run :
  files_after fs (e :: run) = files_after (apply_effect fs e) run.
Proof. reflexivity. Qed.

Lemma files_after_prints fs run : Forall is_print run -> files_after fs run = fs.
Proof.
  induction 1 as [|e run He _ IH]; [reflexivity|].
  destruct e; try contradiction. exact IH.
Qed.

Lemma lines_written_app run1 run2 :
  lines_written (run1 ++ run2) = lines_written run1 ++ lines_written run2.
Proof. apply omap_app. Qed.

Lemma lines_written_write doc run :
  lines_written (WriteLine doc :: run) = doc :: lines_written run.
Proof. reflexivity. Qed.

Lemma lines_written_print m run :
  lines_written (Print m :: run) = lines_written run.
Proof. reflexivity. Qed.

Lemma prints_never_open run : Forall is_print run -> never_opens run.
Proof.
  intros H. eapply Forall_impl; [exact H|]. intros []; simpl; auto.
Qed.

Lemma prints_write_nothing run : Forall is_print run -> lines_written run = [].
Proof.
  induction 1 as [|e run He _ IH]; [reflexivity|].
  destruct e; try contradiction. exact IH.
Qed.

(** Once the file is open, the lines written are appended to it. *)
Lemma files_after_lines run : forall (fs : files) lines,
  fs !! OUTPUT_FILE = Some lines -> never_opens run ->
  files_after fs run !! OUTPUT_FILE = Some (lines ++ lines_written run).
Proof.
  unfold files, files_after, lines_written.
  induction run as [|e run IH]; intros fs lines Hfs Hno.
  - cbn [fold_left omap]. rewrite app_nil_r. exact Hfs.
  - inversion Hno as [|? ? He Hno']; subst.
    destruct e as [m|path|doc]; try contradiction; cbn [fold_left apply_effect omap].
    + apply IH; assumption.
    + unfold files in *. rewrite Hfs.
      erewrite IH; [|apply lookup_insert_eq|assumption].
      rewrite <- app_assoc. reflexivity.
Qed.

(** The empty-chain path: the run prints and returns. *)
Lemma export_at_height_zero (fs : files) (log : list effect) :
  get_current_height post = (log, Ok 0%Z) ->
  export_blockchain post
  = (Print Banner :: log ++ [Print (CurrentHeight 0); Print HeightZeroWarning], Ok tt)
  /\ Forall is_print (effects (export_blockchain post))
  /\ files_after fs (effects (export_blockchain post)) = fs.
Proof.
  intros Hheight.
  assert (export_blockchain post
          = (Print Banner :: log ++ [Print (CurrentHeight 0); Print HeightZeroWarning],
             Ok tt)) as Hrun.
  { unfold export_blockchain. rewrite Hheight. reflexivity. }
  assert (Forall is_print (effects (export_blockchain post))) as Hprints.
  { rewrite Hrun. unfold effects. simpl. constructor; [exact I|].
    apply Forall_app. split.
    - pose proof get_current_height_prints as H. rewrite Hheight in H. exact H.
    - repeat constructor. }
  split; [exact Hrun|]. split; [exact Hprints|].
  apply files_after_prints. exact Hprints.
Qed.

(** C7.  When the height query gives 0 the export prints the height and
    the warning after what the query printed, and returns: it performs no
    effect but prints (no file is opened, no record written) and leaves
    every file as it was. *)
Theorem export_height_zero (fs : files) (log : list effect) :
  get_current_height post = (log, Ok 0%Z) ->
  export_blockchain post
  = (Print Banner :: log ++ [Print (CurrentHeight 0); Print HeightZeroWarning], Ok tt)
  /\ lines_written (effects (export_blockchain post)) = []
  /\ Forall is_print (effects (export_blockchain post))
  /\ files_after fs (effects (export_blockchain post)) = fs.
Proof.
  intros Hheight.
  destruct (export_at_height_zero fs log Hheight) as (Hrun & Hprints & Hfiles).
  auto using prints_write_nothing.
Qed.

(** C10.  When the height query fails (the request fails, the body is not
    JSON, or the response carries an ['error']), [get_current_height]
    returns 0 as for an empty chain, and the export takes the empty-chain
    path: it returns after the warning, having only printed, and leaves
    every file as it was. *)
Theorem export_failed_height_query (fs : files) :
  height_query_fails post ->
  outcome (get_current_height post) = Ok 0%Z
  /\ outcome (export_blockchain post) = Ok tt
  /\ Forall is_print (effects (export_blockchain post))
  /\ In (Print HeightZeroWarning) (effects (export_blockchain post))
  /\ files_after fs (effects (export_blockchain post)) = fs.
Proof.
  intros Hfail.
  assert (exists log, get_current_height post = (log, Ok 0%Z)) as [log Hheight].
  { unfold get_current_height, make_rpc_call.
    destruct Hfail as [-> | [-> | (items & -> & Herr)]]; simpl; eauto.
    rewrite Herr. simpl. unfold PyDict.mem in Herr.
    destruct (PyDict.lookup "error" items); [|discriminate]. simpl. eauto. }
  destruct (export_at_height_zero fs log Hheight) as (Hrun & Hprints & Hfiles).
  rewrite Hheight. split; [reflexivity|].
  rewrite Hrun. repeat split; auto.
  - rewrite Hrun in Hprints. exact Hprints.
  - unfold effects. simpl. right. apply in_or_app. right. right. left. reflexivity.
  - rewrite Hrun in Hfiles. exact Hfiles.
Qed.

Lemma decodable_int16 field items :
  decodable field items ->
  exists z,
    PyBuiltin.int16 (W:=effect) (PyDict.get field (JStr "0x0") items) = ([], Ok z).
Proof.
  unfold decodable, PyDict.get. intros [->|(s & z & -> & Hs)].
  - exists 0%Z. reflexivity.
  - exists z. simpl. rewrite Hs. reflexivity.
Qed.

Lemma hex_int16 n : n <= 9 -> PyBuiltin.int16_str (PyBuiltin.hex n) = Some (Z.of_nat n).
Proof.
  intros H.
  do 10 (destruct n as [|n]; [reflexivity|]). lia.
Qed.

Lemma block_entry_resolved n block :
  n <= 9 -> resolves n block ->
  exists entry,
    block_entry block = ([], Ok entry)
    /\ PyBuiltin.truthy block = true
    /\ is_block_line entry = true
    /\ line_number entry = Some (Z.of_nat n).
Proof.
  intros Hn (items & -> & Hnum & Ht & Hu & Hl & Hd).
  destruct (decodable_int16 _ _ Ht) as (t & Et).
  destruct (decodable_int16 _ _ Hu) as (u & Eu).
  destruct (decodable_int16 _ _ Hl) as (g & El).
  destruct (decodable_int16 _ _ Hd) as (d & Ed).
  eexists. split; [|split; [|split]].
  - unfold block_entry. cbn [PyBuiltin.get bind ret].
    unfold PyDict.get at 1. rewrite Hnum. cbn [PyBuiltin.int16].
    rewrite (hex_int16 n Hn). cbn [bind ret app].
    rewrite Et. cbn [bind ret app]. rewrite Eu. cbn [bind ret app].
    rewrite El. cbn [bind ret app]. rewrite Ed. cbn [bind ret app].
    reflexivity.
  - destruct items; [discriminate|reflexivity].
  - reflexivity.
  - reflexivity.
Qed.

Lemma export_block_resolved n block :
  n <= 9 ->
  outcome (get_block_by_number post n) = Ok block -> resolves n block ->
  exists prints entry,
    export_block post n = (prints ++ [WriteLine entry], Ok tt)
    /\ Forall is_print prints
    /\ is_block_line entry = true
    /\ line_number entry = Some (Z.of_nat n).
Proof.
  intros Hn Hget Hres.
  destruct (block_entry_resolved n block Hn Hres) as (entry & Hentry & Htruthy & Hb & Hl).
  pose proof (make_rpc_call_prints "eth_getBlockByNumber"
                [JStr (PyBuiltin.hex n); JBool true]) as Hprints.
  unfold export_block. fold (get_block_by_number post n) in Hprints.
  destruct (get_block_by_number post n) as [l r]. simpl in Hget, Hprints. subst r.
  exists ((if Nat.eqb (n mod 1000) 0 then [Print (ProcessingBlock n)] else []) ++ l), entry.
  split; [|split; [|auto]].
  - destruct (Nat.eqb (n mod 1000) 0); simpl; rewrite Htruthy, Hentry; simpl;
      rewrite ?app_nil_r; reflexivity.
  - apply Forall_app. split; [|assumption].
    destruct (Nat.eqb (n mod 1000) 0); repeat constructor.
Qed.

Lemma block_range_spec h :
  (0 <= h)%Z -> block_range h = seq 0 (S (Z.to_nat (Z.min h 9))).
Proof.
  intros Hh. unfold block_range. f_equal.
  replace (Z.min (h + 1) 10) with (Z.min h 9 + 1)%Z by lia.
  rewrite Z2Nat.inj_add by lia. simpl. lia.
Qed.

(** C3.  The block numbers walked at height [h] are 0, 1, ... up to the
    smaller of [h] and 9; and when the height query gives 3 and blocks 0
    to 3 resolve, the run leaves in the output file the metadata line
    followed by four block lines numbered 0, 1, 2, 3. *)
Theorem export_walks_first_blocks (fs : files) (block : nat -> json) :
  outcome (get_current_height post) = Ok 3%Z ->
  (forall n, n <= 3 ->
     outcome (get_block_by_number post n) = Ok (block n) /\ resolves n (block n)) ->
  (forall h, (0 <= h)%Z -> block_range h = seq 0 (S (Z.to_nat (Z.min h 9))))
  /\ exists e0 e1 e2 e3,
       files_after fs (effects (export_blockchain post)) !! OUTPUT_FILE
       = Some [metadata 3; e0; e1; e2; e3]
       /\ is_metadata_line (metadata 3) = true
       /\ map is_block_line [metadata 3; e0; e1; e2; e3] = [false; true; true; true; true]
       /\ map line_number [e0; e1; e2; e3] = [Some 0; Some 1; Some 2; Some 3]%Z.
Proof.
  intros Hheight Hblocks. split; [exact block_range_spec|].
  destruct (Hblocks 0 ltac:(lia)) as [G0 R0].
  destruct (Hblocks 1 ltac:(lia)) as [G1 R1].
  destruct (Hblocks 2 ltac:(lia)) as [G2 R2].
  destruct (Hblocks 3 ltac:(lia)) as [G3 R3].
  destruct (export_block_resolved 0 _ ltac:(lia) G0 R0) as (p0 & e0 & E0 & P0 & B0 & L0).
  destruct (export_block_resolved 1 _ ltac:(lia) G1 R1) as (p1 & e1 & E1 & P1 & B1 & L1).
  destruct (export_block_resolved 2 _ ltac:(lia) G2 R2) as (p2 & e2 & E2 & P2 & B2 & L2).
  destruct (export_block_resolved 3 _ ltac:(lia) G3 R3) as (p3 & e3 & E3 & P3 & B3 & L3).
  exists e0, e1, e2, e3.
  split; [|split; [reflexivity|split]].
  - pose proof get_current_height_prints as Hp.
    unfold export_blockchain.
    destruct (get_current_height post) as [l0 r]. simpl in Hheight, Hp. subst r.
    cbn [bind tell ret Z.eqb].
    change (block_range 3) with [0; 1; 2; 3].
    cbn [export_blocks]. rewrite E0, E1, E2, E3.
    unfold effects. cbn [bind tell ret fst app Z.eqb].
    change (Print Banner :: l0 ++ ?x) with ((Print Banner :: l0) ++ x).
    rewrite export_files_after_app.
    rewrite (files_after_prints fs (Print Banner :: l0))
      by (constructor; [exact I|exact Hp]).
    rewrite export_files_after_cons. cbn [apply_effect].
    rewrite export_files_after_cons. cbn [apply_effect].
    rewrite (files_after_lines (WriteLine (metadata 3) :: _) _ []).
    + rewrite app_nil_l. f_equal.
      rewrite !lines_written_write, lines_written_print.
      rewrite !lines_written_app, !lines_written_write, !lines_written_print.
      rewrite (prints_write_nothing p0 P0), (prints_write_nothing p1 P1),
        (prints_write_nothing p2 P2), (prints_write_nothing p3 P3).
      reflexivity.
    + unfold files. apply lookup_insert_eq.
    + repeat first [ apply Forall_cons; split; [exact I|]
                   | apply Forall_app; split
                   | apply prints_never_open; assumption
                   | apply Forall_nil_2 ].
  - simpl. rewrite B0, B1, B2, B3. reflexivity.
  - simpl. rewrite L0, L1, L2, L3. reflexivity.
Qed.

End ExporterFacts.

(** ** The analyzer *)

Section AnalyzerFacts.
Import ReadMigratedState AnalyzerSpec.

Variable loads : string -> option json.

Lemma analyze_line_malformed st line_num line :
  loads line = None -> analyze_line loads st line_num line = ([], Ok st).
Proof.
  intros H. unfold analyze_line, analyze_entry, json_loads. rewrite H. reflexivity.
Qed.

Lemma analyze_line_outcome st n n' line :
  outcome (analyze_line loads st n line) = outcome (analyze_line loads st n' line).
Proof.
  unfold analyze_line. rewrite !outcome_bind.
  destruct (outcome (catch _ _ _)) as [[st' after]|e]; [|reflexivity].
  rewrite !outcome_bind.
  destruct (after && _), (after && _); reflexivity.
Qed.

Lemma analyze_lines_skips st n n' lines :
  outcome (analyze_lines loads st n lines)
  = outcome (analyze_lines loads st n'
               (filter (fun line => parses loads line = true) lines)).
Proof.
  revert st n n'. induction lines as [|line lines IH]; intros st n n'; [reflexivity|].
  cbn [analyze_lines].
  destruct (loads line) as [doc|] eqn:Hline.
  - rewrite filter_cons_True by (unfold parses; rewrite Hline; reflexivity).
    cbn [analyze_lines].
    rewrite !outcome_bind. rewrite (analyze_line_outcome st n n' line).
    destruct (outcome (analyze_line loads st n' line)); [apply IH|reflexivity].
  - rewrite filter_cons_False by (unfold parses; rewrite Hline; discriminate).
    rewrite analyze_line_malformed by assumption.
    rewrite outcome_bind. cbn [outcome snd ret]. apply IH.
Qed.

(** C6, amended.  The figures the analyzer reports for an export are
    those it reports for the export without the lines that fail to
    parse: such a line is skipped, and nothing counts it. *)
Theorem analyze_skips_malformed_lines (lines : list string) :
  report loads lines
  = report loads (filter (fun line => parses loads line = true) lines).
Proof.
  unfold report, analyze_export. rewrite !outcome_bind.
  rewrite (analyze_lines_skips initial 1 1 lines).
  reflexivity.
Qed.

Lemma analyze_line_metadata st line_num line items :
  loads line = Some (JDict items) ->
  PyDict.lookup "type" items = Some (JStr "metadata") ->
  analyze_line loads st line_num line = ([Metadata (JDict items)], Ok st).
Proof.
  intros Hline Htype. unfold analyze_line, analyze_entry, json_loads.
  rewrite Hline. cbn [bind ret PyBuiltin.get]. unfold PyDict.get. rewrite Htype.
  reflexivity.
Qed.

(** C5, amended.  The analyzer echoes the leading metadata record and
    uses it for nothing else: two exports that differ in that record only
    (so in the height it declares) give the same messages after the echo,
    the same outcome and the same reported figures. *)
Theorem analyze_ignores_declared_height (line1 line2 : string)
    (items1 items2 : list (string * json)) (rest : list string) :
  loads line1 = Some (JDict items1) ->
  PyDict.lookup "type" items1 = Some (JStr "metadata") ->
  loads line2 = Some (JDict items2) ->
  PyDict.lookup "type" items2 = Some (JStr "metadata") ->
  effects (analyze_export loads (line1 :: rest))
    = Metadata (JDict items1) :: tail (effects (analyze_export loads (line2 :: rest)))
  /\ outcome (analyze_export loads (line1 :: rest))
     = outcome (analyze_export loads (line2 :: rest))
  /\ report loads (line1 :: rest) = report loads (line2 :: rest).
Proof.
  intros H1 T1 H2 T2.
  assert (forall line items, loads line = Some (JDict items) ->
            PyDict.lookup "type" items = Some (JStr "metadata") ->
            analyze_export loads (line :: rest)
            = (Metadata (JDict items) ::
                 effects (st <- analyze_lines loads initial 2 rest ;;
                          tell (Summary (block_count st) (state_count st)
                                        (size (unique_keys st))) ;;;
                          ret st),
               outcome (st <- analyze_lines loads initial 2 rest ;;
                        tell (Summary (block_count st) (state_count st)
                                      (size (unique_keys st))) ;;;
                        ret st))) as Hrun.
  { intros line items Hl Ht. unfold analyze_export. cbn [analyze_lines].
    rewrite (analyze_line_metadata _ _ _ _ Hl Ht). cbn [bind].
    change (1 + 1)%N with 2%N.
    destruct (analyze_lines loads initial 2 rest) as [l [st|e]]; reflexivity. }
  unfold report. rewrite (Hrun _ _ H1 T1), (Hrun _ _ H2 T2).
  repeat split.
Qed.

End AnalyzerFacts.

(** ** The statements on concrete inputs *)

Section Instances.
Import JsonSpec NormalizerSpec ExporterSpec AnalyzerSpec.

(** The sample text is the sample document. *)
Example sample_genesis_loads :
  JsonText.loads sample_genesis_text = Some sample_genesis.
Proof. vm_compute. reflexivity. Qed.

Example collapse_genesis_loads :
  JsonText.loads collapse_genesis_text = Some collapse_genesis.
Proof. vm_compute. reflexivity. Qed.

(** C1 on the sample genesis, with the concrete codec. *)
Lemma fix_coinbase_in_json_idempotent_witness :
  (forall text doc, JsonText.loads text = Some doc -> wf doc)
  /\ (forall doc, wf doc -> JsonText.loads (JsonText.dumps doc) = Some doc)
  /\ outcome (FixGenesisCoinbase.fix_coinbase_in_json
                JsonText.loads JsonText.dumps 8 sample_genesis)
     = Ok sample_genesis_fixed
  /\ outcome (fixed <- FixGenesisCoinbase.fix_coinbase_in_json
                         JsonText.loads JsonText.dumps 8 sample_genesis ;;
              FixGenesisCoinbase.fix_coinbase_in_json
                JsonText.loads JsonText.dumps 8 fixed)
     = outcome (FixGenesisCoinbase.fix_coinbase_in_json
                  JsonText.loads JsonText.dumps 8 sample_genesis).
Proof.
  split; [exact json_text_loads_wf|].
  split; [exact json_text_loads_dumps|].
  split; [vm_compute; reflexivity|].
  exact (fix_coinbase_in_json_idempotent JsonText.loads JsonText.dumps
           json_text_loads_wf json_text_loads_dumps 8 sample_genesis).
Defined.

(** C2 on the items of the sample genesis. *)
Lemma fix_coinbase_by_length_witness :
  PyDict.lookup "coinbase" sample_genesis_items = Some (JStr sample_coinbase)
  /\ PyStr.startswith "0x" sample_coinbase = true
  /\ PyStr.len (PyStr.drop 2 sample_coinbase) = 64
  /\ FixGenesisCoinbase.fix_coinbase_field sample_genesis_items
     = ([FixGenesisCoinbase.FixedCoinbase sample_coinbase
           ("0x" +:+ PyStr.take 40 (PyStr.drop 2 sample_coinbase))],
        Ok (PyDict.set "coinbase"
              (JStr ("0x" +:+ PyStr.take 40 (PyStr.drop 2 sample_coinbase)))
              sample_genesis_items)).
Proof.
  split; [reflexivity|]. split; [reflexivity|]. split; [reflexivity|].
  exact (proj1 (proj1 (fix_coinbase_by_length JsonText.loads JsonText.dumps 0
                         sample_genesis_items sample_coinbase eq_refl eq_refl)
                      eq_refl)).
Defined.

(** C9 on the sample genesis. *)
Lemma fix_coinbase_in_json_preserves_witness :
  FixGenesisCoinbase.fix_coinbase_in_json JsonText.loads JsonText.dumps 8 sample_genesis
  = (sample_log, Ok sample_genesis_fixed)
  /\ preserved sample_genesis sample_genesis_fixed.
Proof.
  assert (FixGenesisCoinbase.fix_coinbase_in_json
            JsonText.loads JsonText.dumps 8 sample_genesis
          = (sample_log, Ok sample_genesis_fixed)) as Hrun
    by (vm_compute; reflexivity).
  split; [exact Hrun|].
  exact (fix_coinbase_in_json_preserves JsonText.loads JsonText.dumps 8
           sample_genesis sample_log sample_genesis_fixed Hrun).
Defined.

(** C4 as stated fails: the normalizer returns the genesis of the
    scenario as it was given, the corrupted key (60 hex characters) next
    to the address; and so it does with a key of 64 hex characters. *)
Lemma corrupted_alloc_key_is_kept :
  FixGenesisCoinbase.fix_coinbase_in_json JsonText.loads JsonText.dumps 8
    collapse_genesis = ([], Ok collapse_genesis)
  /\ PyDict.keys collapse_alloc = [treasury_key; corrupted_key]
  /\ PyStr.len (PyStr.drop 2 corrupted_key) = 60
  /\ FixGenesisCoinbase.fix_coinbase_in_json JsonText.loads JsonText.dumps 8
       padded_genesis = ([], Ok padded_genesis)
  /\ PyDict.keys padded_alloc = [treasury_key; padded_key]
  /\ PyStr.len (PyStr.drop 2 padded_key) = 64.
Proof. repeat split; vm_compute; reflexivity. Qed.

(** C4, amended, on the scenario. *)
Lemma fix_coinbase_keeps_alloc_keys_witness :
  FixGenesisCoinbase.fix_coinbase_in_json JsonText.loads JsonText.dumps 8
    (JDict [("alloc", JDict collapse_alloc)]) = ([], Ok collapse_genesis)
  /\ exists alloc',
       collapse_genesis = JDict [("alloc", JDict alloc')]
       /\ PyDict.keys alloc' = PyDict.keys collapse_alloc.
Proof.
  assert (FixGenesisCoinbase.fix_coinbase_in_json JsonText.loads JsonText.dumps 8
            (JDict [("alloc", JDict collapse_alloc)]) = ([], Ok collapse_genesis))
    as Hrun by (vm_compute; reflexivity).
  split; [exact Hrun|].
  exact (fix_coinbase_keeps_alloc_keys JsonText.loads JsonText.dumps 8
           collapse_alloc [] collapse_genesis Hrun).
Defined.

(** C8 on a disk that holds the sample genesis and no backup. *)
Lemma fix_genesis_file_backup_witness :
  let fix_file fs :=
    FixGenesisCoinbase.fix_genesis_file JsonText.loads JsonText.dumps
      (JsonText.dumps_indent 0) 100 fs "genesis_local.json" in
  let disk := FixGenesisCoinbase.files_after sample_disk (fix_file sample_disk) in
  FixGenesisCoinbase.written_under "genesis_local.json.backup" "genesis_local.json"
    sample_disk (fix_file sample_disk)
  /\ disk !! "genesis_local.json.backup"
     = Some (JsonText.dumps_indent 0 sample_genesis)
  /\ disk !! "genesis_local.json"
     = Some (JsonText.dumps_indent 0 sample_genesis_fixed)
  /\ FixGenesisCoinbase.files_after disk (fix_file disk) !! "genesis_local.json.backup"
     = disk !! "genesis_local.json.backup".
Proof.
  intros fix_file disk.
  pose proof (fix_genesis_file_backup JsonText.loads JsonText.dumps
                (JsonText.dumps_indent 0) 100 sample_disk "genesis_local.json")
    as (Hunder & _ & Hnew & Hagain & _).
  split; [exact Hunder|].
  split; [|split; [vm_compute; reflexivity|exact Hagain]].
  exact (proj1 (Hnew sample_genesis_text sample_genesis
                  eq_refl eq_refl sample_genesis_loads)).
Defined.

(** C3 on a node at height 3. *)
Lemma export_walks_first_blocks_witness :
  outcome (ExportBlockchainRpc.get_current_height node_at_height_3) = Ok 3%Z
  /\ (forall n, n <= 3 ->
        outcome (ExportBlockchainRpc.get_block_by_number node_at_height_3 n)
        = Ok (sample_block (PyBuiltin.hex n))
        /\ resolves n (sample_block (PyBuiltin.hex n)))
  /\ exists e0 e1 e2 e3,
       ExportBlockchainRpc.files_after ∅
         (effects (ExportBlockchainRpc.export_blockchain node_at_height_3))
         !! ExportBlockchainRpc.OUTPUT_FILE
       = Some [ExportBlockchainRpc.metadata 3; e0; e1; e2; e3]
       /\ map ExportBlockchainRpc.line_number [e0; e1; e2; e3]
          = [Some 0; Some 1; Some 2; Some 3]%Z.
Proof.
  assert (forall n, n <= 3 ->
            outcome (ExportBlockchainRpc.get_block_by_number node_at_height_3 n)
            = Ok (sample_block (PyBuiltin.hex n))
            /\ resolves n (sample_block (PyBuiltin.hex n))) as Hblocks.
  { intros n Hn. split.
    - do 4 (destruct n as [|n]; [reflexivity|]). lia.
    - eexists. split; [reflexivity|]. split; [reflexivity|].
      repeat split;
        first [ left; reflexivity | right; eexists _, _; split; reflexivity ]. }
  split; [reflexivity|]. split; [exact Hblocks|].
  destruct (export_walks_first_blocks node_at_height_3 ∅
              (fun n => sample_block (PyBuiltin.hex n)) eq_refl Hblocks)
    as (_ & e0 & e1 & e2 & e3 & Hfile & _ & _ & Hnumbers).
  exists e0, e1, e2, e3. split; assumption.
Defined.

(** C7 on a node whose chain is empty. *)
Lemma export_height_zero_witness :
  ExportBlockchainRpc.get_current_height empty_node = ([], Ok 0%Z)
  /\ ExportBlockchainRpc.export_blockchain empty_node
     = ([ExportBlockchainRpc.Print ExportBlockchainRpc.Banner;
         ExportBlockchainRpc.Print (ExportBlockchainRpc.CurrentHeight 0);
         ExportBlockchainRpc.Print ExportBlockchainRpc.HeightZeroWarning], Ok tt)
  /\ ExportBlockchainRpc.files_after ∅
       (effects (ExportBlockchainRpc.export_blockchain empty_node)) = ∅.
Proof.
  split; [reflexivity|].
  destruct (export_height_zero empty_node ∅ [] eq_refl) as (Hrun & _ & _ & Hfiles).
  split; [exact Hrun|exact Hfiles].
Defined.

(** C10 on a node that answers with an error. *)
Lemma export_failed_height_query_witness :
  height_query_fails failing_node
  /\ height_query_fails refusing_node
  /\ outcome (ExportBlockchainRpc.get_current_height failing_node) = Ok 0%Z
  /\ ExportBlockchainRpc.files_after ∅
       (effects (ExportBlockchainRpc.export_blockchain failing_node)) = ∅.
Proof.
  assert (height_query_fails failing_node) as Hfails
    by (right; right; eexists; split; reflexivity).
  split; [exact Hfails|]. split; [left; reflexivity|].
  destruct (export_failed_height_query failing_node ∅ Hfails)
    as (Hheight & _ & _ & _ & Hfiles).
  split; [exact Hheight|exact Hfiles].
Defined.

(** C5 as stated fails: one block record under a declared height of 3 is
    a truncated export, under a declared height of 0 a complete one, and
    the analyzer reports the same figures and prints the same messages
    after the echo of the metadata record for both. *)
Lemma truncation_is_not_flagged :
  truncated JsonText.loads truncated_export = true
  /\ truncated JsonText.loads complete_export = false
  /\ ReadMigratedState.report JsonText.loads truncated_export
     = ReadMigratedState.report JsonText.loads complete_export
  /\ tail (effects (ReadMigratedState.analyze_export JsonText.loads truncated_export))
     = tail (effects (ReadMigratedState.analyze_export JsonText.loads complete_export))
  /\ tail (effects (ReadMigratedState.analyze_export JsonText.loads truncated_export))
     = [ReadMigratedState.BlockEntry 1 (JStr "b0") (JNum 540);
        ReadMigratedState.Summary 1 0 1].
Proof. repeat split; vm_compute; reflexivity. Qed.

(** C5, amended, on the two exports. *)
Lemma analyze_ignores_declared_height_witness :
  JsonText.loads (metadata_line "3") = Some (JDict (metadata_items 3))
  /\ PyDict.lookup "type" (metadata_items 3) = Some (JStr "metadata")
  /\ JsonText.loads (metadata_line "0") = Some (JDict (metadata_items 0))
  /\ PyDict.lookup "type" (metadata_items 0) = Some (JStr "metadata")
  /\ ReadMigratedState.report JsonText.loads truncated_export
     = ReadMigratedState.report JsonText.loads complete_export.
Proof.
  assert (JsonText.loads (metadata_line "3") = Some (JDict (metadata_items 3))) as H3
    by (vm_compute; reflexivity).
  assert (JsonText.loads (metadata_line "0") = Some (JDict (metadata_items 0))) as H0
    by (vm_compute; reflexivity).
  split; [exact H3|]. split; [reflexivity|]. split; [exact H0|]. split; [reflexivity|].
  exact (proj2 (proj2 (analyze_ignores_declared_height JsonText.loads
                         (metadata_line "3") (metadata_line "0")
                         (metadata_items 3) (metadata_items 0) [block_line]
                         H3 eq_refl H0 eq_refl))).
Defined.

(** C6 as stated fails: the export with a record cut short and the export
    without it give the same messages and the same counters; nothing
    tells that a line was refused. *)
Lemma malformed_lines_are_not_counted :
  malformed JsonText.loads export_with_garbage = 1
  /\ malformed JsonText.loads complete_export = 0
  /\ ReadMigratedState.analyze_export JsonText.loads export_with_garbage
     = ReadMigratedState.analyze_export JsonText.loads complete_export.
Proof. repeat split; vm_compute; reflexivity. Qed.

End Instances.

(** * Further facts *)

Section MoreMonadFacts.
Context {W : Type}.

Lemma effects_bind {A B} (m : M W A) (k : A -> M W B) :
  effects (bind m k)
  = effects m ++ match outcome m with Ok a => effects (k a) | Raise _ => [] end.
Proof.
  destruct m as [l [a|e]]; simpl.
  - destruct (k a). reflexivity.
  - unfold effects. simpl. rewrite app_nil_r. reflexivity.
Qed.

Lemma Forall_effects_bind {A B} (P : W -> Prop) (m : M W A) (k : A -> M W B) :
  Forall P (effects m) ->
  (forall a, outcome m = Ok a -> Forall P (effects (k a))) ->
  Forall P (effects (bind m k)).
Proof.
  intros Hm Hk. rewrite effects_bind. apply Forall_app. split; [exact Hm|].
  destruct (outcome m) eqn:E; [apply Hk; reflexivity|constructor].
Qed.

Lemma outcome_bind_raise {A B} (m : M W A) (k : A -> M W B) e :
  outcome (bind m k) = Raise e ->
  outcome m = Raise e \/ exists a, outcome m = Ok a /\ outcome (k a) = Raise e.
Proof.
  rewrite outcome_bind. destruct (outcome m) as [a|e'] eqn:E; [eauto|].
  intros [= <-]. left. reflexivity.
Qed.

Lemma effects_catch {A} (caught : exn -> bool) (body : M W A) (handler : exn -> M W A) :
  effects (catch caught body handler)
  = effects body ++ match outcome body with
                    | Raise e => if caught e then effects (handler e) else []
                    | Ok _ => []
                    end.
Proof.
  destruct body as [l [a|e]]; unfold effects; simpl.
  - rewrite app_nil_r. reflexivity.
  - destruct (caught e); simpl; [|rewrite app_nil_r; reflexivity].
    destruct (handler e). reflexivity.
Qed.

Lemma outcome_catch {A} (caught : exn -> bool) (body : M W A) (handler : exn -> M W A) :
  outcome (catch caught body handler)
  = match outcome body with
    | Raise e => if caught e then outcome (handler e) else Raise e
    | Ok a => Ok a
    end.
Proof.
  destruct body as [l [a|e]]; simpl; [reflexivity|].
  destruct (caught e); [|reflexivity]. destruct (handler e). reflexivity.
Qed.

Lemma run_eq {A} (m : M W A) : m = (effects m, outcome m).
Proof. destruct m. reflexivity. Qed.

End MoreMonadFacts.

Lemma take_0x c :
  PyStr.startswith "0x" c = true ->
  "0x" +:+ PyStr.take 40 (PyStr.drop 2 c) = PyStr.take 42 c
  /\ PyStr.len c = 2 + PyStr.len (PyStr.drop 2 c).
Proof.
  destruct c as [|a c]; [discriminate|]. cbn [PyStr.startswith].
  intros H. apply andb_prop in H as [Ha H].
  destruct c as [|b c]; [discriminate|].
  apply andb_prop in H as [Hb _].
  apply Ascii.eqb_eq in Ha, Hb. subst a b. split; reflexivity.
Qed.

(** ** More on the normalizer *)

Section MoreNormalizerFacts.
Import FixGenesisCoinbase JsonSpec NormalizerSpec ExtraSpec.

Variable loads : string -> option json.
Variable dumps : json -> string.

Local Opaque PyStr.take PyStr.drop PyStr.startswith.

Lemma fix_coinbase_field_sound data :
  Forall sound_event (effects (fix_coinbase_field data)).
Proof.
  unfold fix_coinbase_field.
  destruct (PyDict.lookup "coinbase" data) as [[| | |c| |]|]; try constructor.
  destruct (PyStr.startswith "0x" c) eqn:Hpre; [|constructor].
  destruct (take_0x c Hpre) as [Htake Hlen].
  destruct (Nat.eqb_spec (PyStr.len (PyStr.drop 2 c)) 64) as [H64|H64].
  - repeat constructor; auto. rewrite Hlen, H64. reflexivity.
  - destruct (Nat.eqb_spec (PyStr.len (PyStr.drop 2 c)) 40) as [H40|H40];
      repeat constructor; auto.
Qed.

Lemma fix_item_sound self key value :
  (forall v, Forall sound_event (effects (self v))) ->
  Forall sound_event (effects (fix_item loads dumps self key value)).
Proof.
  intros Hself. destruct value as [| | |text| |]; simpl; auto; try constructor.
  destruct (String.eqb key "cChainGenesis"); [|constructor].
  rewrite effects_catch. apply Forall_app. split.
  - apply Forall_effects_bind.
    + unfold json_loads. destruct (loads text); constructor.
    + intros embedded _. apply Forall_effects_bind; [apply Hself|].
      intros; constructor.
  - destruct (outcome _); [constructor|].
    destruct (caught_in_embedded e); constructor.
Qed.

Lemma fix_items_sound self items :
  (forall v, Forall sound_event (effects (self v))) ->
  Forall sound_event (effects (fix_items loads dumps self items)).
Proof.
  intros Hself. induction items as [|[k v] items IH]; simpl; [constructor|].
  apply Forall_effects_bind; [apply fix_item_sound; assumption|].
  intros v' _. apply Forall_effects_bind; [exact IH|]. intros; constructor.
Qed.

Lemma fix_list_sound self items :
  (forall v, Forall sound_event (effects (self v))) ->
  Forall sound_event (effects (fix_list self items)).
Proof.
  intros Hself. induction items as [|v items IH]; simpl; [constructor|].
  apply Forall_effects_bind; [apply Hself|].
  intros v' _. apply Forall_effects_bind; [exact IH|]. intros; constructor.
Qed.

(** X1.  Whatever [fix_coinbase_in_json] prints is true of the document:
    a correction replaces a [0x] value of 66 characters by its first 42
    characters, a warning is about a [0x] value whose length after the
    prefix is the one printed and is neither 64 nor 40.  This holds of
    what is printed before an exception too. *)
Theorem fix_coinbase_in_json_events_sound depth data :
  Forall sound_event (effects (fix_coinbase_in_json loads dumps depth data)).
Proof.
  revert data. induction depth as [|depth IH]; intros data; [constructor|].
  cbn [fix_coinbase_in_json]. destruct data as [| | | |items|items]; simpl;
    try constructor.
  - apply Forall_effects_bind; [apply fix_list_sound; assumption|].
    intros; constructor.
  - apply Forall_effects_bind; [apply fix_coinbase_field_sound|].
    intros items1 _. apply Forall_effects_bind; [apply fix_items_sound; assumption|].
    intros; constructor.
Qed.

(** *** The exceptions that escape *)

Lemma fix_coinbase_field_raises data e :
  outcome (fix_coinbase_field data) = Raise e -> e = AttributeError.
Proof.
  unfold fix_coinbase_field.
  destruct (PyDict.lookup "coinbase" data) as [[| | |c| |]|]; simpl;
    try discriminate; try (intros [= <-]; reflexivity).
  destruct (PyStr.startswith "0x" c); simpl; [|discriminate].
  destruct (Nat.eqb _ 64); simpl; [discriminate|]. destruct (negb _); simpl; discriminate.
Qed.

Lemma fix_item_raises self key value e :
  (forall v e, outcome (self v) = Raise e -> escapes e) ->
  outcome (fix_item loads dumps self key value) = Raise e -> escapes e.
Proof.
  intros Hself. destruct value as [| | |text| |]; simpl; try discriminate; eauto.
  destruct (String.eqb key "cChainGenesis"); [|discriminate].
  rewrite outcome_catch.
  destruct (outcome (bind _ _)) as [a|e'] eqn:E; [discriminate|].
  destruct (caught_in_embedded e') eqn:Hc; [discriminate|]. intros [= <-].
  apply outcome_bind_raise in E as [E|(embedded & _ & E)].
  - unfold json_loads in E. destruct (loads text); [discriminate|].
    injection E as <-. discriminate.
  - apply outcome_bind_raise in E as [E|(x & _ & E)]; [eauto|discriminate].
Qed.

Lemma fix_items_raises self items e :
  (forall v e, outcome (self v) = Raise e -> escapes e) ->
  outcome (fix_items loads dumps self items) = Raise e -> escapes e.
Proof.
  intros Hself. induction items as [|[k v] items IH]; simpl; [discriminate|].
  intros H. apply outcome_bind_raise in H as [H|(v' & _ & H)].
  - eapply fix_item_raises; eauto.
  - apply outcome_bind_raise in H as [H|(r & _ & H)]; [auto|discriminate].
Qed.

Lemma fix_list_raises self items e :
  (forall v e, outcome (self v) = Raise e -> escapes e) ->
  outcome (fix_list self items) = Raise e -> escapes e.
Proof.
  intros Hself. induction items as [|v items IH]; simpl; [discriminate|].
  intros H. apply outcome_bind_raise in H as [H|(v' & _ & H)]; [eauto|].
  apply outcome_bind_raise in H as [H|(r & _ & H)]; [auto|discriminate].
Qed.

Lemma fix_coinbase_in_json_raises_escapes depth data e :
  outcome (fix_coinbase_in_json loads dumps depth data) = Raise e -> escapes e.
Proof.
  revert data e. induction depth as [|depth IH]; intros data e.
  - intros [= <-]. right. reflexivity.
  - cbn [fix_coinbase_in_json]. destruct data as [| | | |items|items]; simpl;
      try discriminate.
    + intros H. apply outcome_bind_raise in H as [H|(r & _ & H)]; [|discriminate].
      eapply fix_list_raises; eauto.
    + intros H. apply outcome_bind_raise in H as [H|(items1 & _ & H)].
      * left. eapply fix_coinbase_field_raises; eauto.
      * apply outcome_bind_raise in H as [H|(r & _ & H)]; [|discriminate].
        eapply fix_items_raises; eauto.
Qed.


(** *** Documents with nothing to fix *)

Lemma lookup_none_keys key items :
  PyDict.lookup key items = None -> Forall (fun kv => fst kv <> key) items.
Proof.
  induction items as [|[k v] items IH]; simpl; [constructor|].
  destruct (String.eqb_spec k key) as [->|Hne]; [discriminate|].
  intros H. constructor; auto.
Qed.

Lemma good_coinbase_fix data :
  good_coinbase data -> fix_coinbase_field data = ([], Ok data).
Proof.
  unfold good_coinbase, fix_coinbase_field.
  destruct (PyDict.lookup "coinbase" data) as [[| | |c| |]|]; try contradiction;
    [|reflexivity].
  intros [->|H40]; [reflexivity|].
  destruct (PyStr.startswith "0x" c); [|reflexivity].
  rewrite H40. reflexivity.
Qed.

Lemma fix_items_clean self items :
  Forall (fun kv => fst kv <> "cChainGenesis") items ->
  Forall (fun kv => clean (snd kv) /\ self (snd kv) = ([], Ok (snd kv))) items ->
  fix_items loads dumps self items = ([], Ok items).
Proof.
  induction items as [|[k v] items IH]; simpl; [reflexivity|].
  intros Hkeys Hall. inversion Hkeys as [|? ? Hk Hkeys']; subst.
  inversion Hall as [|? ? [Hc Hv] Hall']; subst. simpl in Hk, Hc, Hv.
  rewrite (IH Hkeys' Hall').
  assert (fix_item loads dumps self k v = ([], Ok v)) as ->.
  { destruct v; simpl; auto.
    destruct (String.eqb_spec k "cChainGenesis"); [contradiction|reflexivity]. }
  reflexivity.
Qed.

Lemma fix_list_clean self items :
  Forall (fun v => self v = ([], Ok v)) items ->
  fix_list self items = ([], Ok items).
Proof.
  induction items as [|v items IH]; simpl; [reflexivity|].
  intros Hall. inversion Hall as [|? ? Hv Hall']; subst.
  rewrite Hv, (IH Hall'). reflexivity.
Qed.

(** X3.  A document in which every ['coinbase'] is a string that does
    not start with [0x] or has 40 characters after it, and which has no
    ['cChainGenesis'] key, comes back as it was, with nothing printed, as
    soon as the recursion limit allows its nesting. *)
Theorem fix_coinbase_in_json_clean depth data :
  clean data -> calls data <= depth ->
  fix_coinbase_in_json loads dumps depth data = ([], Ok data).
Proof.
  revert data. induction depth as [|depth IH]; intros data Hclean Hdepth.
  - destruct data; simpl in Hdepth; lia.
  - cbn [fix_coinbase_in_json].
    destruct Hclean as [| | | |items Hitems|items Hcb Hemb Hitems]; try reflexivity.
    + simpl in Hdepth. apply le_S_n in Hdepth.
      apply list_max_le in Hdepth. rewrite List.Forall_map in Hdepth.
      simpl. rewrite fix_list_clean; [reflexivity|].
      rewrite List.Forall_forall in *. intros v Hv. apply IH; auto.
    + simpl in Hdepth. apply le_S_n in Hdepth.
      apply list_max_le in Hdepth. rewrite List.Forall_map in Hdepth.
      simpl. rewrite (good_coinbase_fix _ Hcb). simpl.
      rewrite fix_items_clean; [reflexivity|apply lookup_none_keys; assumption|].
      rewrite List.Forall_forall in *. intros kv Hkv. split; [auto|].
      apply IH; auto.
Qed.

(** *** The embedded genesis *)

Lemma lookup_set_ne key key' v items :
  key <> key' ->
  PyDict.lookup key' (PyDict.set key v items) = PyDict.lookup key' items.
Proof.
  intros Hne. induction items as [|[k old] items IH]; simpl.
  - destruct (String.eqb_spec key key'); [contradiction|reflexivity].
  - destruct (String.eqb_spec k key) as [->|Hk]; simpl.
    + destruct (String.eqb_spec key key'); [contradiction|reflexivity].
    + destruct (String.eqb_spec k key'); [reflexivity|exact IH].
Qed.

Lemma fix_items_lookup self items l items' key v :
  fix_items loads dumps self items = (l, Ok items') ->
  PyDict.lookup key items = Some v ->
  exists l0 v', fix_item loads dumps self key v = (l0, Ok v')
                /\ PyDict.lookup key items' = Some v'.
Proof.
  revert l items'. induction items as [|[k w] items IH]; simpl; intros l items' H;
    [discriminate|].
  apply bind_ok_inv in H as (l1 & w' & l2 & Hw & H & _).
  apply bind_ok_inv in H as (l3 & rest' & l4 & Hrest & H & _).
  apply ret_ok_inv in H as [_ <-]. simpl.
  destruct (String.eqb_spec k key) as [->|Hne]; [|eauto].
  intros [= ->]. eauto.
Qed.

(** X4.  After a successful call on a dict, a string under
    ['cChainGenesis'] that is not JSON is still there as it was, and one
    that is JSON has been replaced by the compact text of its normalized
    document, whether or not anything in it was corrected. *)
Theorem fix_coinbase_in_json_embedded depth items l data' text :
  fix_coinbase_in_json loads dumps (S depth) (JDict items) = (l, Ok data') ->
  PyDict.lookup "cChainGenesis" items = Some (JStr text) ->
  exists items',
    data' = JDict items'
    /\ match loads text with
       | None => PyDict.lookup "cChainGenesis" items' = Some (JStr text)
       | Some embedded =>
           exists l0 embedded',
             fix_coinbase_in_json loads dumps depth embedded = (l0, Ok embedded')
             /\ PyDict.lookup "cChainGenesis" items' = Some (JStr (dumps embedded'))
       end.
Proof.
  cbn [fix_coinbase_in_json fix_body]. intros H Hget.
  apply bind_ok_inv in H as (l1 & items1 & l2 & Hfield & H & _).
  apply bind_ok_inv in H as (l3 & items' & l4 & Hitems & H & _).
  apply ret_ok_inv in H as [_ <-]. exists items'. split; [reflexivity|].
  assert (PyDict.lookup "cChainGenesis" items1 = Some (JStr text)) as Hget1.
  { apply fix_coinbase_field_cases in Hfield as [->|(old & new & _ & ->)];
      [assumption|]. rewrite lookup_set_ne by discriminate. assumption. }
  destruct (fix_items_lookup _ _ _ _ _ _ Hitems Hget1) as (l0 & v' & Hitem & Hget').
  simpl in Hitem. unfold json_loads in Hitem.
  destruct (loads text) as [embedded|]; simpl in Hitem.
  - destruct (fix_coinbase_in_json loads dumps depth embedded)
      as [l5 [embedded'|e]] eqn:Hrec; simpl in Hitem.
    + injection Hitem as _ <-. eauto.
    + exfalso.
      destruct (fix_coinbase_in_json_raises_escapes depth embedded e) as [->| ->];
        [rewrite Hrec; reflexivity| |]; discriminate.
  - injection Hitem as _ <-. assumption.
Qed.

End MoreNormalizerFacts.

(** *** What a second pass prints *)

Section SecondPass.
Import FixGenesisCoinbase JsonSpec NormalizerSpec ExtraSpec.

Variable loads : string -> option json.
Variable dumps : json -> string.
Hypothesis loads_wf : forall text doc, loads text = Some doc -> wf doc.
Hypothesis loads_dumps : forall doc, wf doc -> loads (dumps doc) = Some doc.

Local Opaque PyStr.take PyStr.drop PyStr.startswith.

Lemma settled_field_warns data :
  settled_field data -> Forall is_warning (effects (fix_coinbase_field data)).
Proof.
  unfold settled_field, fix_coinbase_field.
  destruct (PyDict.lookup "coinbase" data) as [[| | |c| |]|]; try contradiction;
    try constructor.
  destruct (PyStr.startswith "0x" c); [|constructor].
  intros H. destruct (Nat.eqb_spec (PyStr.len (PyStr.drop 2 c)) 64) as [E|_].
  - destruct (H eq_refl E).
  - destruct (negb _); repeat constructor.
Qed.

Lemma fix_item_quiet self key value l value' :
  settles self -> quiet self ->
  (forall v e, outcome (self v) = Raise e -> escapes e) ->
  fix_item loads dumps self key value = (l, Ok value') ->
  Forall is_warning (effects (fix_item loads dumps self key value')).
Proof.
  intros Hself Hquiet Hraises. destruct value as [| | |text| |]; simpl;
    try (intros [= <- <-]; constructor).
  - destruct (String.eqb key "cChainGenesis") eqn:Hkey.
    + unfold json_loads. destruct (loads text) as [embedded|] eqn:Hload; simpl.
      * destruct (self embedded) as [l1 [embedded'|e]] eqn:Hrec; simpl.
        -- intros [= <- <-]. simpl. rewrite Hkey. unfold json_loads.
           destruct (Hself _ _ _ Hrec) as ((l' & Hagain) & Hwf & _).
           rewrite loads_dumps by eauto. simpl. rewrite Hagain. simpl.
           rewrite app_nil_r.
           specialize (Hquiet _ _ _ Hrec). rewrite Hagain in Hquiet. exact Hquiet.
        -- destruct (Hraises embedded e) as [->| ->];
             [rewrite Hrec; reflexivity| |]; discriminate.
      * intros [= <- <-]. simpl. rewrite Hkey. unfold json_loads. rewrite Hload.
        constructor.
    + intros [= <- <-]. simpl. rewrite Hkey. constructor.
  - intros H. destruct (Hself _ _ _ H) as (_ & _ & Hkind).
    specialize (Hquiet _ _ _ H).
    destruct value' as [| | | |items'|]; try contradiction. exact Hquiet.
  - intros H. destruct (Hself _ _ _ H) as (_ & _ & Hkind).
    specialize (Hquiet _ _ _ H).
    destruct value' as [| | | | |items']; try contradiction. exact Hquiet.
Qed.

Lemma fix_items_quiet self items l items' :
  settles self -> quiet self ->
  (forall v e, outcome (self v) = Raise e -> escapes e) ->
  fix_items loads dumps self items = (l, Ok items') ->
  Forall is_warning (effects (fix_items loads dumps self items')).
Proof.
  intros Hself Hquiet Hraises. revert l items'.
  induction items as [|[k v] items IH]; simpl; intros l items' H.
  - apply ret_ok_inv in H as [_ <-]. constructor.
  - apply bind_ok_inv in H as (l1 & v' & l2 & Hv & H & _).
    apply bind_ok_inv in H as (l3 & rest' & l4 & Hrest & H & _).
    apply ret_ok_inv in H as [_ <-]. simpl.
    apply Forall_effects_bind; [eapply fix_item_quiet; eauto|].
    intros v'' _. apply Forall_effects_bind; [eauto|]. intros; constructor.
Qed.

Lemma fix_list_quiet self items l items' :
  quiet self ->
  fix_list self items = (l, Ok items') ->
  Forall is_warning (effects (fix_list self items')).
Proof.
  intros Hquiet. revert l items'.
  induction items as [|v items IH]; simpl; intros l items' H.
  - apply ret_ok_inv in H as [_ <-]. constructor.
  - apply bind_ok_inv in H as (l1 & v' & l2 & Hv & H & _).
    apply bind_ok_inv in H as (l3 & rest' & l4 & Hrest & H & _).
    apply ret_ok_inv in H as [_ <-]. simpl.
    apply Forall_effects_bind; [eauto|].
    intros v'' _. apply Forall_effects_bind; [eauto|]. intros; constructor.
Qed.

(** X5.  With a codec that reads back what it writes, a second call of
    [fix_coinbase_in_json] on the result of a successful one prints no
    correction: every line it prints is a warning about an unexpected
    length. *)
Theorem fix_coinbase_in_json_second_pass depth data l data' :
  fix_coinbase_in_json loads dumps depth data = (l, Ok data') ->
  Forall is_warning (effects (fix_coinbase_in_json loads dumps depth data')).
Proof.
  revert data l data'.
  induction depth as [|depth IH]; intros data l data'; [discriminate|].
  cbn [fix_coinbase_in_json].
  destruct data as [| | | |items|items]; simpl;
    try (intros [= <- <-]; constructor).
  - intros H. apply bind_ok_inv in H as (l1 & items' & l2 & Hitems & H & _).
    apply ret_ok_inv in H as [_ <-]. simpl.
    apply Forall_effects_bind; [eapply fix_list_quiet; eauto|].
    intros; constructor.
  - intros H.
    apply bind_ok_inv in H as (l1 & items1 & l2 & Hfield & H & _).
    apply bind_ok_inv in H as (l3 & items2 & l4 & Hitems & H & _).
    apply ret_ok_inv in H as [_ <-]. simpl.
    destruct (fix_coinbase_field_settles _ _ _ Hfield) as (Hset & _).
    apply (fix_items_settled_field _ _ _ _ _ _ Hitems) in Hset.
    apply Forall_effects_bind; [apply settled_field_warns; assumption|].
    intros items3 Hagain.
    destruct (settled_field_fix _ Hset) as (l' & Hfield').
    rewrite Hfield' in Hagain. injection Hagain as <-.
    apply Forall_effects_bind.
    + eapply fix_items_quiet; eauto.
      * apply fix_coinbase_in_json_settles; assumption.
      * apply fix_coinbase_in_json_raises_escapes.
    + intros; constructor.
Qed.

End SecondPass.

(** ** More on the file fixer *)

Section MoreFileFacts.
Import FixGenesisCoinbase NormalizerSpec ExtraSpec FixGenesisMain.

Variable loads : string -> option json.
Variable dumps : json -> string.
Variable dumps_indent : json -> string.
Variable recursion_limit : nat.

(** The disk a run of [fix_genesis_file] leaves. *)
Lemma fix_genesis_file_disk fs filepath :
  files_after fs (fix_genesis_file loads dumps dumps_indent recursion_limit fs filepath)
  = match fs !! filepath with
    | None => fs
    | Some text =>
        match loads text with
        | None => fs
        | Some data =>
            let backup_path := filepath +:+ ".backup" in
            let fs1 := if bool_decide (is_Some (fs !! backup_path)) then fs
                       else <[backup_path := dumps_indent data]> fs in
            match outcome (fix_coinbase_in_json loads dumps recursion_limit data) with
            | Ok fixed => <[filepath := dumps_indent fixed]> fs1
            | Raise _ => fs1
            end
        end
    end.
Proof.
  rewrite fix_genesis_file_run. unfold expected_run.
  destruct (fs !! filepath) as [text|]; [|reflexivity].
  destruct (loads text) as [data|]; [|reflexivity].
  change (files_after fs (Print (Processing filepath) :: ?r))
    with (files_after fs r).
  rewrite !files_after_app, files_after_narrate.
  destruct (bool_decide (is_Some (fs !! (filepath +:+ ".backup"))));
    destruct (outcome _); reflexivity.
Qed.

Lemma fix_genesis_file_frame fs filepath path :
  path <> filepath -> path <> filepath +:+ ".backup" ->
  files_after fs (fix_genesis_file loads dumps dumps_indent recursion_limit fs filepath)
    !! path = fs !! path.
Proof.
  intros Hfile Hbackup. rewrite fix_genesis_file_disk.
  destruct (fs !! filepath) as [text|]; [|reflexivity].
  destruct (loads text) as [data|]; [|reflexivity]. cbv zeta.
  unfold files in *.
  destruct (bool_decide _); destruct (outcome _);
    rewrite ?lookup_insert_ne by congruence; reflexivity.
Qed.

(** The file and its backup after a run depend on nothing else. *)
Lemma fix_genesis_file_local fs1 fs2 filepath path :
  fs1 !! filepath = fs2 !! filepath ->
  fs1 !! (filepath +:+ ".backup") = fs2 !! (filepath +:+ ".backup") ->
  path = filepath \/ path = filepath +:+ ".backup" ->
  files_after fs1 (fix_genesis_file loads dumps dumps_indent recursion_limit fs1 filepath)
    !! path
  = files_after fs2 (fix_genesis_file loads dumps dumps_indent recursion_limit fs2 filepath)
    !! path.
Proof.
  intros Hfile Hbackup Hpath. rewrite !fix_genesis_file_disk. rewrite <- Hfile.
  assert (filepath +:+ ".backup" <> filepath) as Hne by apply backup_path_differs.
  destruct (fs1 !! filepath) as [text|] eqn:E1;
    [|destruct Hpath as [->| ->]; congruence].
  destruct (loads text) as [data|]; [|destruct Hpath as [->| ->]; congruence].
  cbv zeta. rewrite <- Hbackup. unfold files in *.
  destruct (bool_decide _); destruct (outcome _); destruct Hpath as [->| ->];
    rewrite ?lookup_insert_eq, ?(lookup_insert_ne _ _ _ _ (not_eq_sym Hne)),
      ?(lookup_insert_ne _ _ _ _ Hne), ?lookup_insert_eq; congruence.
Qed.

(** X6.  [fix_genesis_file] changes no file but the one it is given and
    its backup.  A file that is missing or is not JSON leaves the whole
    disk as it was, with no backup made; when the normalizer raises, the
    file keeps its content; otherwise it holds the indented text of the
    normalized document. *)
Theorem fix_genesis_file_result (fs : files) (filepath : string) :
  let fs' := files_after fs
               (fix_genesis_file loads dumps dumps_indent recursion_limit fs filepath) in
  (forall path, path <> filepath -> path <> filepath +:+ ".backup" ->
     fs' !! path = fs !! path)
  /\ (fs !! filepath = None -> fs' = fs)
  /\ (forall text, fs !! filepath = Some text ->
        match loads text with
        | None => fs' = fs
        | Some data =>
            match outcome (fix_coinbase_in_json loads dumps recursion_limit data) with
            | Ok fixed => fs' !! filepath = Some (dumps_indent fixed)
            | Raise _ => fs' !! filepath = Some text
            end
        end).
Proof.
  intros fs'. split; [|split].
  - intros path. apply fix_genesis_file_frame.
  - intros Hnone. unfold fs'. rewrite fix_genesis_file_disk, Hnone. reflexivity.
  - intros text Htext. unfold fs'. rewrite fix_genesis_file_disk, Htext.
    destruct (loads text) as [data|]; [|reflexivity]. cbv zeta.
    assert (filepath +:+ ".backup" <> filepath) as Hne by apply backup_path_differs.
    unfold files in *.
    destruct (outcome _); destruct (bool_decide _);
      rewrite ?lookup_insert_eq, ?(lookup_insert_ne _ _ _ _ Hne); auto.
Qed.

(** *** [main] *)

Lemma main_files_after_app fs run1 run2 :
  main_files_after fs (run1 ++ run2)
  = main_files_after (main_files_after fs run1) run2.
Proof. apply fold_left_app. Qed.

Lemma main_files_after_fix fs run :
  main_files_after fs (map Fix run) = files_after fs run.
Proof. revert fs. induction run as [|e run IH]; intros fs; simpl; auto. Qed.

Lemma fix_one_disk dir fs filename :
  main_files_after fs (fix_one loads dumps dumps_indent recursion_limit dir fs filename)
  = files_after fs (fix_genesis_file loads dumps dumps_indent recursion_limit fs
                      (join dir filename)).
Proof.
  unfold fix_one. destruct (bool_decide _) eqn:Hb.
  - apply main_files_after_fix.
  - rewrite fix_genesis_file_disk.
    apply bool_decide_eq_false_1 in Hb.
    destruct (fs !! join dir filename); [|reflexivity].
    destruct Hb. eauto.
Qed.

(** The paths a run of [main] over [filenames] may write. *)
Lemma fix_all_frame dir filenames : forall fs path,
  Forall (fun filename => path <> join dir filename
                          /\ path <> join dir filename +:+ ".backup") filenames ->
  main_files_after fs
    (fix_all loads dumps dumps_indent recursion_limit dir fs filenames) !! path
  = fs !! path.
Proof.
  induction filenames as [|f rest IH]; intros fs path Hall; [reflexivity|].
  inversion Hall as [|? ? [Hf Hb] Hrest]; subst.
  cbn [fix_all]. rewrite main_files_after_app, IH by assumption.
  rewrite fix_one_disk. apply fix_genesis_file_frame; assumption.
Qed.

Lemma touched_in dir filenames filename :
  In filename filenames ->
  join dir filename ∈ touched dir filenames
  /\ join dir filename +:+ ".backup" ∈ touched dir filenames.
Proof.
  induction filenames as [|f rest IH]; intros Hin; [destruct Hin|].
  unfold touched. simpl. fold (touched dir rest).
  destruct Hin as [->|Hin].
  - split; [apply list_elem_of_here|apply list_elem_of_further, list_elem_of_here].
  - destruct (IH Hin). split; do 2 apply list_elem_of_further; assumption.
Qed.

Lemma fix_all_each dir filenames : forall fs filename path,
  NoDup (touched dir filenames) ->
  In filename filenames ->
  path = join dir filename \/ path = join dir filename +:+ ".backup" ->
  main_files_after fs
    (fix_all loads dumps dumps_indent recursion_limit dir fs filenames) !! path
  = files_after fs (fix_genesis_file loads dumps dumps_indent recursion_limit fs
                      (join dir filename)) !! path.
Proof.
  induction filenames as [|f rest IH]; intros fs filename path Hnd Hin Hpath;
    [destruct Hin|].
  cbn [fix_all]. rewrite main_files_after_app, fix_one_disk.
  unfold touched in Hnd. simpl in Hnd. fold (touched dir rest) in Hnd.
  apply NoDup_cons in Hnd as [Hf Hnd]. apply NoDup_cons in Hnd as [Hfb Hnd].
  apply not_elem_of_cons in Hf as [_ Hf].
  assert (forall g, In g rest ->
            join dir g <> join dir f /\ join dir g <> join dir f +:+ ".backup"
            /\ join dir g +:+ ".backup" <> join dir f
            /\ join dir g +:+ ".backup" <> join dir f +:+ ".backup") as Hapart.
  { intros g Hg. destruct (touched_in dir rest g Hg) as [Hg1 Hg2].
    repeat split; intros E; rewrite E in *; contradiction. }
  destruct Hin as [->|Hin].
  - apply fix_all_frame. rewrite List.Forall_forall. intros g Hg.
    destruct (Hapart g Hg) as (H1 & H2 & H3 & H4).
    destruct Hpath as [->| ->]; split; congruence.
  - rewrite (IH _ filename path Hnd Hin Hpath).
    destruct (Hapart filename Hin) as (H1 & H2 & H3 & H4).
    apply fix_genesis_file_local; [| |assumption];
      apply fix_genesis_file_frame; assumption.
Qed.

Lemma touched_main : NoDup (touched genesis_dir files_to_fix).
Proof. apply (bool_decide_unpack _). vm_compute. exact I. Qed.

Lemma not_found_in_fix path run : ~ In (FileNotFound path) (map Fix run).
Proof. induction run as [|e run IH]; simpl; [tauto|]. intros [H|H]; [discriminate|auto]. Qed.

Lemma fix_one_not_found dir fs filename path :
  In (FileNotFound path)
     (fix_one loads dumps dumps_indent recursion_limit dir fs filename)
  <-> path = join dir filename /\ fs !! path = None.
Proof.
  unfold fix_one. destruct (bool_decide _) eqn:Hb.
  - apply bool_decide_eq_true_1 in Hb as [text Htext]. split.
    + intros H. destruct (not_found_in_fix _ _ H).
    + intros [-> H]. congruence.
  - apply bool_decide_eq_false_1 in Hb. simpl. split.
    + intros [[= <-]|[]]. split; [reflexivity|].
      destruct (fs !! join dir filename) eqn:E; [|reflexivity].
      destruct Hb. eauto.
    + intros [-> _]. auto.
Qed.

Lemma fix_all_not_found dir filenames : forall fs path,
  NoDup (touched dir filenames) ->
  In (FileNotFound path)
     (fix_all loads dumps dumps_indent recursion_limit dir fs filenames)
  <-> exists filename,
        In filename filenames /\ path = join dir filename /\ fs !! path = None.
Proof.
  induction filenames as [|f rest IH]; intros fs path Hnd.
  - simpl. split; [tauto|]. intros (? & [] & _).
  - cbn [fix_all]. rewrite in_app_iff, fix_one_not_found.
    unfold touched in Hnd. simpl in Hnd. fold (touched dir rest) in Hnd.
    apply NoDup_cons in Hnd as [Hf Hnd]. apply NoDup_cons in Hnd as [Hfb Hnd].
    apply not_elem_of_cons in Hf as [_ Hf].
    rewrite (IH _ path Hnd). rewrite fix_one_disk.
    assert (forall g, In g rest ->
              files_after fs
                (fix_genesis_file loads dumps dumps_indent recursion_limit fs
                   (join dir f)) !! join dir g = fs !! join dir g) as Hsame.
    { intros g Hg. destruct (touched_in dir rest g Hg) as [Hg1 Hg2].
      apply fix_genesis_file_frame; intros E; rewrite E in *; contradiction. }
    split.
    + intros [[-> Hnone]|(g & Hg & -> & Hnone)].
      * exists f. simpl. auto.
      * exists g. rewrite Hsame in Hnone by assumption. simpl. auto.
    + intros (g & [<-|Hg] & -> & Hnone); [auto|].
      right. exists g. rewrite Hsame by assumption. auto.
Qed.

(** X7.  [main] leaves each of its seven files, and the backup of each,
    as [fix_genesis_file] alone would have left it from the disk [main]
    started on, and changes no other path. *)
Theorem main_fixes_each_file (fs : files) :
  let fs' := main_files_after fs
               (main loads dumps dumps_indent recursion_limit fs) in
  (forall filename path,
     In filename files_to_fix ->
     path = join genesis_dir filename
     \/ path = join genesis_dir filename +:+ ".backup" ->
     fs' !! path
     = files_after fs
         (fix_genesis_file loads dumps dumps_indent recursion_limit fs
            (join genesis_dir filename)) !! path)
  /\ (forall path, path ∉ touched genesis_dir files_to_fix -> fs' !! path = fs !! path).
Proof.
  intros fs'. unfold fs', main. rewrite main_files_after_app.
  cbn [main_files_after fold_left apply_main_effect]. split.
  - intros filename path. apply fix_all_each. apply touched_main.
  - intros path Hpath. apply fix_all_frame. rewrite List.Forall_forall.
    intros g Hg. destruct (touched_in genesis_dir files_to_fix g Hg) as [H1 H2].
    split; intros E; rewrite E in *; contradiction.
Qed.

(** X8.  [main] prints [File not found] for a path exactly when it is
    the path of one of its seven files and nothing is there on the disk
    [main] started on: no backup written on the way is taken for one of them. *)
Theorem main_reports_missing_files (fs : files) (path : string) :
  In (FileNotFound path) (main loads dumps dumps_indent recursion_limit fs)
  <-> exists filename,
        In filename files_to_fix /\ path = join genesis_dir filename
        /\ fs !! path = None.
Proof.
  unfold main. rewrite in_app_iff, (fix_all_not_found _ _ _ _ touched_main).
  split; [|auto]. intros [H|[H|[]]]; [assumption|discriminate].
Qed.

End MoreFileFacts.

(** ** More on the exporter *)

Section MoreExporterFacts.
Import ExportBlockchainRpc ExporterSpec ExporterExtraSpec.

Variable post : string -> list json -> response.


(** *** The block entry *)




(** *** The export loop *)










(** *** Blocks the node does not serve *)



End MoreExporterFacts.

(** ** The API check and the script *)

Section ScriptFacts.
Import ExportBlockchainRpc ExporterSpec ExporterExtraSpec LuxApis.

Variable post : string -> list json -> response.

Lemma export_part_lift (m : M effect json) :
  export_part (effects (lift Export m)) = effects m.
Proof.
  destruct m as [l r]. unfold lift, effects. simpl.
  induction l as [|e l IH]; simpl; [reflexivity|]. f_equal. exact IH.
Qed.

Lemma export_part_app run1 run2 :
  export_part (run1 ++ run2) = export_part run1 ++ export_part run2.
Proof. apply omap_app. Qed.

Lemma export_part_map run : export_part (map Export run) = run.
Proof. induction run as [|e l IH]; simpl; [reflexivity|]. f_equal. exact IH. Qed.

Lemma api_messages_map run : api_messages (map Export run) = [].
Proof. induction run as [|e l IH]; simpl; auto. Qed.

Lemma check_lux_apis_prints :
  Forall is_print (export_part (effects (check_lux_apis post))).
Proof.
  unfold check_lux_apis.
  pose proof (make_rpc_call_prints post "lux_replayStatus" []) as H1.
  pose proof (make_rpc_call_prints post "lux_verifyBlockchain" []) as H2.
  destruct (make_rpc_call post "lux_replayStatus" []) as [l1 [r1|e1]];
    destruct (make_rpc_call post "lux_verifyBlockchain" []) as [l2 [r2|e2]];
    unfold lift, effects in *; simpl in *;
    try destruct (PyBuiltin.truthy r1); try destruct (PyBuiltin.truthy r2); simpl;
    rewrite ?export_part_app, ?export_part_map; simpl;
    rewrite ?export_part_app, ?export_part_map; simpl;
    rewrite ?app_nil_r; try apply Forall_app; auto.
Qed.

(** X13.  The API check that follows the export only prints: the script
    leaves every file as [export_blockchain] left it; and when the
    export raises, the check does not run and the script ends in the
    same exception. *)
Theorem script_keeps_export (fs : files) :
  files_after fs (export_part (effects (script post)))
  = files_after fs (effects (export_blockchain post))
  /\ forall e, outcome (export_blockchain post) = Raise e ->
       outcome (script post) = Raise e
       /\ api_messages (effects (script post)) = [].
Proof.
  unfold script. split.
  - rewrite effects_bind, export_part_app, export_files_after_app.
    assert (export_part (effects (lift Export (export_blockchain post)))
            = effects (export_blockchain post)) as ->.
    { destruct (export_blockchain post) as [l r]. apply export_part_map. }
    apply files_after_prints.
    destruct (outcome (lift Export (export_blockchain post))); [|constructor].
    apply check_lux_apis_prints.
  - intros e He. destruct (export_blockchain post) as [l r]. simpl in He. subst r.
    split; [reflexivity|]. apply api_messages_map.
Qed.

End ScriptFacts.

(** ** The height, by the balance checker and by the exporter *)

Section CheckerFacts.
Import ExportBlockchainRpc CheckBalance CheckerSpec.

Variable post : string -> list json -> response.
Variable printable : Z -> bool.

(** What [get_block_height] returns, by the response. *)
Lemma get_block_height_outcome :
  outcome (get_block_height post printable)
  = Ok (match result_string (post "eth_blockNumber" []) with
        | Some s =>
            match PyBuiltin.int16_str s with
            | Some h => if printable h then Some h else None
            | None => None
            end
        | None => None
        end).
Proof.
  unfold get_block_height, read_height, result_string.
  destruct (post "eth_blockNumber" []) as [| |result]; [reflexivity|reflexivity|].
  destruct result as [| | |s|elems|items]; simpl; try reflexivity.
  - destruct (PyBuiltin.is_substring "result" s); reflexivity.
  - destruct (existsb _ elems); reflexivity.
  - unfold PyDict.mem.
    destruct (PyDict.lookup "result" items) as [[| | |s| |]|]; simpl; try reflexivity.
    destruct (PyBuiltin.int16_str s) as [h|]; simpl; [|reflexivity].
    destruct (printable h); reflexivity.
Qed.

(** What [get_current_height] returns when it is not 0. *)
Lemma get_current_height_nonzero h :
  outcome (get_current_height post) = Ok h -> h <> 0%Z ->
  exists s, result_string (post "eth_blockNumber" []) = Some s
            /\ PyBuiltin.int16_str s = Some h.
Proof.
  unfold get_current_height, make_rpc_call, result_string.
  destruct (post "eth_blockNumber" []) as [| |result];
    [intros [= <-] H; contradiction|intros [= <-] H; contradiction|].
  destruct result as [| | |s|elems|items]; simpl; try discriminate.
  - destruct (PyBuiltin.is_substring "error" s); discriminate.
  - destruct (existsb _ elems); discriminate.
  - unfold PyDict.mem, PyDict.get.
    destruct (PyDict.lookup "error" items); simpl;
      [intros [= <-] H; contradiction|].
    destruct (PyDict.lookup "result" items) as [[|b|z|s|l|d]|]; simpl;
      try (intros [= <-] H; contradiction).
    + destruct b; simpl; [discriminate|intros [= <-] H; contradiction].
    + destruct (negb (z =? 0)%Z); simpl;
        [discriminate|intros [= <-] H; contradiction].
    + destruct (negb (String.eqb s "")); simpl;
        [|intros [= <-] H; contradiction].
      destruct (PyBuiltin.int16_str s) as [z|] eqn:Hs; simpl; [|discriminate].
      intros [= <-] _. eauto.
    + destruct l; simpl; [intros [= <-] H; contradiction|discriminate].
    + destruct d; simpl; [intros [= <-] H; contradiction|discriminate].
Qed.

(** X14.  [get_block_height] never raises, whatever the node answers.
    It returns the height [get_current_height] returns whenever that is
    not 0 and can be printed; and a height it returns is the one
    [get_current_height] returns, unless the response carries an
    ['error'] beside its ['result']. *)
Theorem get_block_height_agrees :
  (exists r, outcome (get_block_height post printable) = Ok r)
  /\ (forall h, outcome (get_current_height post) = Ok h -> h <> 0%Z ->
        printable h = true ->
        outcome (get_block_height post printable) = Ok (Some h))
  /\ (forall h items,
        outcome (get_block_height post printable) = Ok (Some h) ->
        post "eth_blockNumber" [] = Body (JDict items) ->
        PyDict.lookup "error" items = None ->
        outcome (get_current_height post) = Ok h).
Proof.
  rewrite get_block_height_outcome. split; [eauto|]. split.
  - intros h Hh Hne Hprint.
    destruct (get_current_height_nonzero h Hh Hne) as (s & -> & ->).
    rewrite Hprint. reflexivity.
  - intros h items Hh Hbody Herr.
    unfold get_current_height, make_rpc_call.
    unfold result_string in Hh. rewrite Hbody in *. simpl.
    unfold PyDict.mem, PyDict.get. rewrite Herr. simpl.
    destruct (PyDict.lookup "result" items) as [[| | |s| |]|]; try discriminate.
    destruct (PyBuiltin.int16_str s) as [z|] eqn:Hs; [|discriminate].
    destruct (printable z); [|discriminate]. injection Hh as ->.
    simpl. destruct (String.eqb_spec s "") as [->|_]; [discriminate|].
    simpl. rewrite Hs. reflexivity.
Qed.

End CheckerFacts.

(** ** More on the analyzer *)

Section MoreAnalyzerFacts.
Import ReadMigratedState AnalyzerSpec AnalyzerExtraSpec.

Variable loads : string -> option json.

(** A value that is true is not 0: the second test on ['bucket'] never
    decides. *)
Lemma truthy_ne_zero v : PyBuiltin.truthy v = true -> PyBuiltin.ne_zero v = true.
Proof. destruct v; simpl; auto. Qed.

Lemma hashable_key_of v :
  hashable (W:=message) v
  = match key_of v with Some k => ret k | None => raise TypeError end.
Proof. destruct v; reflexivity. Qed.

(** The counters after one line. *)
Lemma analyze_line_step st n line :
  outcome (analyze_line loads st n line)
  = match loads line with
    | None => Ok st
    | Some (JDict items) =>
        if has_type "metadata" items then Ok st
        else if has_type "block" items then
          match key_of (PyDict.get "key_id" (JStr "") items) with
          | Some key =>
              Ok {| block_count := block_count st + 1;
                    state_count := state_count st;
                    unique_keys := {[ key ]} ∪ unique_keys st |}
          | None => Raise TypeError
          end
        else if PyBuiltin.truthy (PyDict.get "bucket" JNull items) then
          Ok {| block_count := block_count st;
                state_count := state_count st + 1;
                unique_keys := unique_keys st |}
        else Ok st
    | Some _ => Raise AttributeError
    end.
Proof.
  unfold analyze_line, analyze_entry, json_loads, has_type.
  destruct (loads line) as [doc|]; [|reflexivity].
  destruct doc as [| | | | |items]; try reflexivity.
  cbn [bind ret PyBuiltin.get app].
  destruct (PyBuiltin.eq_str (PyDict.get "type" JNull items) "metadata");
    [reflexivity|].
  destruct (PyBuiltin.eq_str (PyDict.get "type" JNull items) "block").
  - rewrite hashable_key_of.
    destruct (key_of (PyDict.get "key_id" (JStr "") items)) as [key|];
      [|reflexivity].
    cbn [bind ret app].
    generalize (existsb (N.eqb (block_count st + 1)) sample_points). intros sampled.
    generalize (N.eqb (n mod 100000) 0). intros c.
    destruct sampled, c; reflexivity.
  - destruct (PyBuiltin.truthy (PyDict.get "bucket" JNull items)) eqn:Hb.
    + rewrite (truthy_ne_zero _ Hb). cbn [andb].
      generalize (N.leb (state_count st + 1) 3). intros shown.
      generalize (N.eqb (n mod 100000) 0). intros c.
      destruct shown, c; reflexivity.
    + cbn [andb]. generalize (N.eqb (n mod 100000) 0). intros c.
      destruct c; reflexivity.
Qed.

Lemma metadata_not_block items :
  has_type "metadata" items = true -> has_type "block" items = false.
Proof.
  unfold has_type. destruct (PyDict.get "type" JNull items); simpl; try discriminate.
  intros H. apply String.eqb_eq in H. subst. reflexivity.
Qed.

Lemma size_add_key (key : pykey) (keys : gset pykey) :
  size ({[ key ]} ∪ keys) <= S (size keys).
Proof.
  rewrite size_union_alt, size_singleton.
  apply le_n_S, subseteq_size. apply subseteq_difference_l. reflexivity.
Qed.

Lemma block_keys_cons line lines :
  block_keys loads (line :: lines)
  = match block_key loads line ≫= key_of with
    | Some key => {[ key ]} ∪ block_keys loads lines
    | None => block_keys loads lines
    end.
Proof.
  unfold block_keys. simpl.
  destruct (block_key loads line ≫= key_of); reflexivity.
Qed.

Lemma block_key_is_block line key :
  block_key loads line = Some key -> is_block loads line = true.
Proof.
  unfold block_key, is_block. destruct (record loads line) as [items|]; [|discriminate].
  destruct (has_type "block" items); [reflexivity|discriminate].
Qed.

(** One line, by what it is. *)
Lemma analyze_line_kind st n line :
  outcome (analyze_line loads st n line)
  = if fatal loads line then
      Raise (match loads line with Some (JDict _) => TypeError | _ => AttributeError end)
    else
      Ok {| block_count := block_count st + (if is_block loads line then 1 else 0);
            state_count := state_count st + (if is_state loads line then 1 else 0);
            unique_keys := match block_key loads line ≫= key_of with
                           | Some key => {[ key ]} ∪ unique_keys st
                           | None => unique_keys st
                           end |}.
Proof.
  rewrite analyze_line_step.
  unfold fatal, is_block, is_state, block_key, record.
  destruct st as [blocks states keys]. cbn [block_count state_count unique_keys].
  destruct (loads line) as [doc|]; [|simpl; rewrite !N.add_0_r; reflexivity].
  destruct doc as [| | | | |items]; try reflexivity.
  destruct (has_type "metadata" items) eqn:Hmeta.
  { rewrite (metadata_not_block _ Hmeta). simpl. rewrite !N.add_0_r. reflexivity. }
  destruct (has_type "block" items).
  - destruct (PyDict.get "key_id" (JStr "") items); simpl;
      rewrite ?N.add_0_r; reflexivity.
  - simpl. destruct (PyBuiltin.truthy (PyDict.get "bucket" JNull items)); simpl;
      rewrite ?N.add_0_r; reflexivity.
Qed.

(** The counters after the lines, or the line that stops the run. *)
Lemma analyze_lines_run lines : forall st n,
  match outcome (analyze_lines loads st n lines) with
  | Ok st' =>
      existsb (fatal loads) lines = false
      /\ block_count st'
         = (block_count st + N.of_nat (length (List.filter (is_block loads) lines)))%N
      /\ state_count st'
         = (state_count st + N.of_nat (length (List.filter (is_state loads) lines)))%N
      /\ unique_keys st' = block_keys loads lines ∪ unique_keys st
      /\ (size (unique_keys st) <= N.to_nat (block_count st) ->
          size (unique_keys st') <= N.to_nat (block_count st'))
  | Raise e =>
      existsb (fatal loads) lines = true /\ (e = AttributeError \/ e = TypeError)
  end.
Proof.
  induction lines as [|line lines IH]; intros st n.
  - cbn [analyze_lines outcome ret snd]. unfold block_keys. simpl.
    repeat split; try lia. rewrite (left_id_L ∅ (∪)). reflexivity.
  - cbn [analyze_lines]. rewrite outcome_bind, analyze_line_kind.
    cbn [existsb List.filter]. rewrite block_keys_cons.
    destruct (fatal loads line).
    { split; [reflexivity|]. destruct (loads line) as [[| | | | |]|]; auto. }
    cbn [orb].
    match goal with
    | |- context [analyze_lines loads ?st' _ lines] => specialize (IH st' (n + 1)%N)
    end.
    destruct (outcome (analyze_lines loads _ (n + 1) lines)) as [st'|e]; [|exact IH].
    destruct IH as (Hf & Hb & Hs & Hk & Hsize).
    cbn [block_count state_count unique_keys] in *.
    split; [exact Hf|]. split; [|split; [|split]].
    + rewrite Hb. destruct (is_block loads line); cbn [length]; lia.
    + rewrite Hs. destruct (is_state loads line); cbn [length]; lia.
    + rewrite Hk. destruct (block_key loads line ≫= key_of) as [key|]; [|reflexivity].
      rewrite (comm_L (∪) {[ key ]} (block_keys loads lines)).
      rewrite (assoc_L (∪)). reflexivity.
    + intros Hinv. apply Hsize.
      destruct (block_key loads line) as [key_id|] eqn:Hkey; cbn [mbind option_bind].
      * rewrite (block_key_is_block _ _ Hkey).
        destruct (key_of key_id) as [key|]; [|lia].
        pose proof (size_add_key key (unique_keys st)). lia.
      * destruct (is_block loads line); lia.
Qed.

(** X15.  When the analysis reaches its summary, the block entries it
    reports are the lines holding an object of type ['block'], and the
    state entries the lines holding an object that is neither metadata
    nor a block and has a ['bucket'] that is true: the further test that
    the bucket is not 0 excludes nothing. *)
Theorem analyze_counts_records (lines : list string) (blocks states : N) (keys : nat) :
  report loads lines = Some (blocks, states, keys) ->
  blocks = N.of_nat (length (List.filter (is_block loads) lines))
  /\ states = N.of_nat (length (List.filter (is_state loads) lines)).
Proof.
  unfold report, analyze_export. rewrite outcome_bind.
  pose proof (analyze_lines_run lines initial 1) as H.
  destruct (outcome (analyze_lines loads initial 1 lines)) as [st|e]; [|discriminate].
  destruct H as (_ & Hb & Hs & _). cbn [outcome snd bind tell ret].
  intros [= <- <- <-]. rewrite Hb, Hs. simpl. split; lia.
Qed.

(** X16.  The unique block keys reported are the distinct ['key_id']
    values of the block records, a record without one counting as the
    empty string; they are never more than the block entries. *)
Theorem analyze_unique_keys (lines : list string) (blocks states : N) (keys : nat) :
  report loads lines = Some (blocks, states, keys) ->
  keys = size (block_keys loads lines) /\ keys <= N.to_nat blocks.
Proof.
  unfold report, analyze_export. rewrite outcome_bind.
  pose proof (analyze_lines_run lines initial 1) as H.
  destruct (outcome (analyze_lines loads initial 1 lines)) as [st|e]; [|discriminate].
  destruct H as (_ & _ & _ & Hk & Hsize). cbn [outcome snd bind tell ret].
  intros [= <- <- <-]. split.
  - rewrite Hk. f_equal. cbn [initial unique_keys]. apply (right_id_L ∅ (∪)).
  - apply Hsize. cbn [initial unique_keys block_count]. rewrite size_empty. lia.
Qed.


End MoreAnalyzerFacts.

(** ** A second run of the file fixer *)

Section SecondRun.
Import FixGenesisCoinbase JsonSpec NormalizerSpec.

Variable loads : string -> option json.
Variable dumps : json -> string.
Variable dumps_indent : json -> string.
Variable recursion_limit : nat.

Hypothesis loads_wf : forall text doc, loads text = Some doc -> wf doc.
Hypothesis loads_dumps : forall doc, wf doc -> loads (dumps doc) = Some doc.

(** X18.  When the indented text the fixer writes reads back as the
    document written, a second run of [fix_genesis_file] on the same
    path leaves the disk as the first run left it, whether the first run
    fixed the file, found it missing or not JSON, or failed in the
    normalizer. *)
Theorem fix_genesis_file_twice (fs : files) (filepath : string) :
  (forall text data fixed,
     fs !! filepath = Some text -> loads text = Some data ->
     outcome (fix_coinbase_in_json loads dumps recursion_limit data) = Ok fixed ->
     loads (dumps_indent fixed) = Some fixed) ->
  let fs1 := files_after fs
               (fix_genesis_file loads dumps dumps_indent recursion_limit fs filepath) in
  files_after fs1
    (fix_genesis_file loads dumps dumps_indent recursion_limit fs1 filepath)
  = fs1.
Proof.
  intros Hreads fs1.
  assert (filepath +:+ ".backup" <> filepath) as Hne by apply backup_path_differs.
  pose proof (fix_genesis_file_disk loads dumps dumps_indent recursion_limit
                fs filepath) as Hfs1.
  fold fs1 in Hfs1.
  rewrite (fix_genesis_file_disk loads dumps dumps_indent recursion_limit fs1).
  destruct (fs !! filepath) as [text|] eqn:Htext;
    [|rewrite Hfs1, Htext; reflexivity].
  destruct (loads text) as [data|] eqn:Hdata;
    [|rewrite Hfs1, Htext, Hdata; reflexivity].
  cbv zeta in Hfs1.
  assert (exists fs0 : files,
            (if bool_decide (is_Some (fs !! (filepath +:+ ".backup"))) then fs
             else <[filepath +:+ ".backup" := dumps_indent data]> fs) = fs0
            /\ fs0 !! filepath = Some text
            /\ is_Some (fs0 !! (filepath +:+ ".backup"))) as (fs0 & Hfs0 & Hfile & Hbackup).
  { eexists. split; [reflexivity|].
    destruct (bool_decide (is_Some (fs !! (filepath +:+ ".backup")))) eqn:Hb.
    - apply bool_decide_eq_true_1 in Hb. auto.
    - unfold files in *. rewrite lookup_insert_ne by assumption.
      rewrite lookup_insert_eq. eauto. }
  rewrite Hfs0 in Hfs1. clear Hfs0.
  specialize (Hreads text data).
  destruct (fix_coinbase_in_json loads dumps recursion_limit data)
    as [l [fixed|e]] eqn:Hfix; cbn [outcome snd] in Hfs1, Hreads.
  - specialize (Hreads fixed eq_refl Hdata eq_refl).
    destruct (fix_coinbase_in_json_settles loads dumps loads_wf loads_dumps
                recursion_limit _ _ _ Hfix) as ((l' & Hagain) & _).
    assert (fs1 !! filepath = Some (dumps_indent fixed)) as ->
      by (rewrite Hfs1; unfold files; apply lookup_insert_eq).
    rewrite Hreads. cbv zeta. rewrite Hagain. cbn [outcome snd].
    rewrite bool_decide_eq_true_2.
    + apply insert_id. rewrite Hfs1. unfold files. apply lookup_insert_eq.
    + rewrite Hfs1. unfold files in *. rewrite lookup_insert_ne by congruence.
      assumption.
  - rewrite Hfs1 at 1. rewrite Hfile, Hdata. cbv zeta. rewrite Hfix. cbn [outcome snd].
    rewrite bool_decide_eq_true_2; [reflexivity|]. rewrite Hfs1. assumption.
Qed.

End SecondRun.

(** ** What the normalizer achieves *)

Section Achieved.
Import FixGenesisCoinbase JsonSpec NormalizerSpec ExtraSpec.

Variable loads : string -> option json.
Variable dumps : json -> string.
Hypothesis loads_wf : forall text doc, loads text = Some doc -> wf doc.
Hypothesis loads_dumps : forall doc, wf doc -> loads (dumps doc) = Some doc.

Local Opaque PyStr.take PyStr.drop PyStr.startswith.

Lemma fix_items_found self items l items' key v' :
  fix_items loads dumps self items = (l, Ok items') ->
  PyDict.lookup key items' = Some v' ->
  exists l0 v, PyDict.lookup key items = Some v
               /\ fix_item loads dumps self key v = (l0, Ok v').
Proof.
  revert l items'. induction items as [|[k w] items IH]; simpl; intros l items' H.
  - apply ret_ok_inv in H as [_ <-]. discriminate.
  - apply bind_ok_inv in H as (l1 & w' & l2 & Hw & H & _).
    apply bind_ok_inv in H as (l3 & rest' & l4 & Hrest & H & _).
    apply ret_ok_inv in H as [_ <-]. simpl.
    destruct (String.eqb_spec k key) as [->|Hne]; [|eauto].
    intros [= ->]. eauto.
Qed.

Lemma fix_item_settled self key value l value' :
  settles self ->
  (forall v l v', self v = (l, Ok v') -> settled loads v') ->
  (forall v e, outcome (self v) = Raise e -> escapes e) ->
  fix_item loads dumps self key value = (l, Ok value') ->
  settled loads value'
  /\ (key = "cChainGenesis" ->
      forall text embedded, value' = JStr text -> loads text = Some embedded ->
                            settled loads embedded).
Proof.
  intros Hself Hsettled Hraises.
  destruct value as [| | |text| |]; simpl.
  1-3: intros [= <- <-]; split; [constructor|discriminate].
  - destruct (String.eqb_spec key "cChainGenesis") as [->|Hkey].
    + unfold json_loads. destruct (loads text) as [embedded|] eqn:Hload; simpl.
      * destruct (self embedded) as [l1 [embedded'|e]] eqn:Hrec; simpl.
        -- intros [= <- <-]. split; [constructor|].
           intros _ text' emb [= <-] Hemb.
           destruct (Hself _ _ _ Hrec) as (_ & Hwf & _).
           rewrite loads_dumps in Hemb by eauto. injection Hemb as <-. eauto.
        -- destruct (Hraises embedded e) as [->| ->];
             [rewrite Hrec; reflexivity| |]; discriminate.
      * intros [= <- <-]. split; [constructor|].
        intros _ text' emb [= <-] Hemb. congruence.
    + intros [= <- <-]. split; [constructor|]. contradiction.
  - intros H. split; [eauto|]. intros _ text emb ->.
    destruct (Hself _ _ _ H) as (_ & _ & []).
  - intros H. split; [eauto|]. intros _ text emb ->.
    destruct (Hself _ _ _ H) as (_ & _ & []).
Qed.

Lemma fix_items_settled self items l items' :
  settles self ->
  (forall v l v', self v = (l, Ok v') -> settled loads v') ->
  (forall v e, outcome (self v) = Raise e -> escapes e) ->
  fix_items loads dumps self items = (l, Ok items') ->
  Forall (fun kv => settled loads (snd kv)) items'.
Proof.
  intros Hself Hsettled Hraises. revert l items'.
  induction items as [|[k v] items IH]; simpl; intros l items' H.
  - apply ret_ok_inv in H as [_ <-]. constructor.
  - apply bind_ok_inv in H as (l1 & v' & l2 & Hv & H & _).
    apply bind_ok_inv in H as (l3 & rest' & l4 & Hrest & H & _).
    apply ret_ok_inv in H as [_ <-].
    constructor; [|eauto].
    exact (proj1 (fix_item_settled _ _ _ _ _ Hself Hsettled Hraises Hv)).
Qed.

Lemma fix_list_settled self items l items' :
  (forall v l v', self v = (l, Ok v') -> settled loads v') ->
  fix_list self items = (l, Ok items') -> Forall (settled loads) items'.
Proof.
  intros Hsettled. revert l items'.
  induction items as [|v items IH]; simpl; intros l items' H.
  - apply ret_ok_inv in H as [_ <-]. constructor.
  - apply bind_ok_inv in H as (l1 & v' & l2 & Hv & H & _).
    apply bind_ok_inv in H as (l3 & rest' & l4 & Hrest & H & _).
    apply ret_ok_inv in H as [_ <-]. constructor; eauto.
Qed.

(** X19.  With a codec that reads back what it writes, the document a
    successful call of [fix_coinbase_in_json] leaves has no coinbase of
    64 hex digits after [0x] any more: not in any mapping at any depth,
    and not in the document its ['cChainGenesis'] strings hold. *)
Theorem fix_coinbase_in_json_settled depth data l data' :
  fix_coinbase_in_json loads dumps depth data = (l, Ok data') ->
  settled loads data'.
Proof.
  revert data l data'. induction depth as [|depth IH]; intros data l data';
    [discriminate|].
  cbn [fix_coinbase_in_json].
  destruct data as [| | | |items|items]; simpl;
    try (intros [= <- <-]; constructor).
  - intros H. apply bind_ok_inv in H as (l1 & items' & l2 & Hitems & H & _).
    apply ret_ok_inv in H as [_ <-]. constructor.
    eapply fix_list_settled; eauto.
  - intros H.
    apply bind_ok_inv in H as (l1 & items1 & l2 & Hfield & H & _).
    apply bind_ok_inv in H as (l3 & items2 & l4 & Hitems & H & _).
    apply ret_ok_inv in H as [_ <-].
    pose proof (fix_coinbase_in_json_settles loads dumps loads_wf loads_dumps depth)
      as Hself.
    pose proof (fix_coinbase_in_json_raises_escapes loads dumps depth) as Hraises.
    constructor.
    + destruct (fix_coinbase_field_settles _ _ _ Hfield) as (Hset & _).
      exact (fix_items_settled_field _ _ _ _ _ _ Hitems Hset).
    + eapply fix_items_settled; eauto.
    + intros text embedded Hget Hemb.
      destruct (fix_items_found _ _ _ _ _ _ Hitems Hget) as (l0 & v & _ & Hitem).
      exact (proj2 (fix_item_settled _ _ _ _ _ Hself IH Hraises Hitem)
               eq_refl text embedded eq_refl Hemb).
Qed.

End Achieved.

(** ** The further statements on concrete inputs *)

Section MoreInstances.
Import JsonSpec NormalizerSpec ExporterSpec AnalyzerSpec.
Import ExtraSpec ExporterExtraSpec AnalyzerExtraSpec CheckerSpec ExtraSamples.


Lemma clean_genesis_is_clean : clean clean_genesis.
Proof.
  unfold clean_genesis.
  repeat first
    [ apply clean_dict; [try exact I; try (right; reflexivity)|reflexivity|]
    | apply clean_list
    | apply List.Forall_cons
    | apply List.Forall_nil
    | apply clean_str | apply clean_num | apply clean_null | apply clean_bool ].
Defined.

(** X3 on a genesis with nothing to fix. *)
Lemma fix_coinbase_in_json_clean_witness :
  clean clean_genesis /\ calls clean_genesis <= 4
  /\ FixGenesisCoinbase.fix_coinbase_in_json JsonText.loads JsonText.dumps 4
       clean_genesis = ([], Ok clean_genesis).
Proof.
  assert (calls clean_genesis <= 4) as Hcalls by (vm_compute; lia).
  split; [exact clean_genesis_is_clean|]. split; [exact Hcalls|].
  exact (fix_coinbase_in_json_clean JsonText.loads JsonText.dumps 4 clean_genesis
           clean_genesis_is_clean Hcalls).
Defined.

(** X4 on the sample genesis: its embedded genesis is rewritten. *)
Lemma fix_coinbase_in_json_embedded_witness :
  FixGenesisCoinbase.fix_coinbase_in_json JsonText.loads JsonText.dumps 8
    (JDict sample_genesis_items) = (sample_log, Ok sample_genesis_fixed)
  /\ PyDict.lookup "cChainGenesis" sample_genesis_items
     = Some (JStr sample_embedded_text)
  /\ exists items',
       sample_genesis_fixed = JDict items'
       /\ match JsonText.loads sample_embedded_text with
          | None =>
              PyDict.lookup "cChainGenesis" items' = Some (JStr sample_embedded_text)
          | Some embedded =>
              exists l0 embedded',
                FixGenesisCoinbase.fix_coinbase_in_json JsonText.loads JsonText.dumps 7
                  embedded = (l0, Ok embedded')
                /\ PyDict.lookup "cChainGenesis" items'
                   = Some (JStr (JsonText.dumps embedded'))
          end.
Proof.
  assert (FixGenesisCoinbase.fix_coinbase_in_json JsonText.loads JsonText.dumps 8
            (JDict sample_genesis_items) = (sample_log, Ok sample_genesis_fixed))
    as Hrun by (vm_compute; reflexivity).
  assert (PyDict.lookup "cChainGenesis" sample_genesis_items
          = Some (JStr sample_embedded_text)) as Hget by (vm_compute; reflexivity).
  split; [exact Hrun|]. split; [exact Hget|].
  exact (fix_coinbase_in_json_embedded JsonText.loads JsonText.dumps 7
           sample_genesis_items sample_log sample_genesis_fixed sample_embedded_text
           Hrun Hget).
Defined.

(** X5 on the sample genesis. *)
Lemma fix_coinbase_in_json_second_pass_witness :
  (forall text doc, JsonText.loads text = Some doc -> wf doc)
  /\ (forall doc, wf doc -> JsonText.loads (JsonText.dumps doc) = Some doc)
  /\ FixGenesisCoinbase.fix_coinbase_in_json JsonText.loads JsonText.dumps 8
       sample_genesis = (sample_log, Ok sample_genesis_fixed)
  /\ Forall is_warning
       (effects (FixGenesisCoinbase.fix_coinbase_in_json JsonText.loads JsonText.dumps 8
                   sample_genesis_fixed)).
Proof.
  assert (FixGenesisCoinbase.fix_coinbase_in_json JsonText.loads JsonText.dumps 8
            sample_genesis = (sample_log, Ok sample_genesis_fixed))
    as Hrun by (vm_compute; reflexivity).
  split; [exact json_text_loads_wf|]. split; [exact json_text_loads_dumps|].
  split; [exact Hrun|].
  exact (fix_coinbase_in_json_second_pass JsonText.loads JsonText.dumps
           json_text_loads_wf json_text_loads_dumps 8 sample_genesis sample_log
           sample_genesis_fixed Hrun).
Defined.

(** X19 on the sample genesis. *)
Lemma fix_coinbase_in_json_settled_witness :
  (forall text doc, JsonText.loads text = Some doc -> wf doc)
  /\ (forall doc, wf doc -> JsonText.loads (JsonText.dumps doc) = Some doc)
  /\ FixGenesisCoinbase.fix_coinbase_in_json JsonText.loads JsonText.dumps 8
       sample_genesis = (sample_log, Ok sample_genesis_fixed)
  /\ settled JsonText.loads sample_genesis_fixed.
Proof.
  assert (FixGenesisCoinbase.fix_coinbase_in_json JsonText.loads JsonText.dumps 8
            sample_genesis = (sample_log, Ok sample_genesis_fixed))
    as Hrun by (vm_compute; reflexivity).
  split; [exact json_text_loads_wf|]. split; [exact json_text_loads_dumps|].
  split; [exact Hrun|].
  exact (fix_coinbase_in_json_settled JsonText.loads JsonText.dumps
           json_text_loads_wf json_text_loads_dumps 8 sample_genesis sample_log
           sample_genesis_fixed Hrun).
Defined.

(** X6 on a disk that holds the sample genesis. *)
Lemma fix_genesis_file_result_witness :
  let fs' := FixGenesisCoinbase.files_after sample_disk
               (FixGenesisCoinbase.fix_genesis_file JsonText.loads JsonText.dumps
                  (JsonText.dumps_indent 0) 100 sample_disk "genesis_local.json") in
  fs' !! "genesis_mainnet.json" = sample_disk !! "genesis_mainnet.json"
  /\ fs' !! "genesis_local.json" = Some (JsonText.dumps_indent 0 sample_genesis_fixed).
Proof.
  intros fs'.
  destruct (fix_genesis_file_result JsonText.loads JsonText.dumps
              (JsonText.dumps_indent 0) 100 sample_disk "genesis_local.json")
    as (Hframe & _ & Hfile).
  split.
  - apply Hframe; discriminate.
  - specialize (Hfile sample_genesis_text eq_refl).
    rewrite sample_genesis_loads in Hfile.
    assert (outcome (FixGenesisCoinbase.fix_coinbase_in_json JsonText.loads
                       JsonText.dumps 100 sample_genesis) = Ok sample_genesis_fixed)
      as Hrun by (vm_compute; reflexivity).
    rewrite Hrun in Hfile. exact Hfile.
Defined.

(** X18 on a disk that holds the sample genesis. *)
Lemma fix_genesis_file_twice_witness :
  let fs1 := FixGenesisCoinbase.files_after sample_disk
               (FixGenesisCoinbase.fix_genesis_file JsonText.loads JsonText.dumps
                  (JsonText.dumps_indent 0) 100 sample_disk "genesis_local.json") in
  JsonText.loads (JsonText.dumps_indent 0 sample_genesis_fixed)
  = Some sample_genesis_fixed
  /\ FixGenesisCoinbase.files_after fs1
       (FixGenesisCoinbase.fix_genesis_file JsonText.loads JsonText.dumps
          (JsonText.dumps_indent 0) 100 fs1 "genesis_local.json") = fs1.
Proof.
  intros fs1.
  assert (JsonText.loads (JsonText.dumps_indent 0 sample_genesis_fixed)
          = Some sample_genesis_fixed) as Hreads by (vm_compute; reflexivity).
  split; [exact Hreads|].
  apply (fix_genesis_file_twice JsonText.loads JsonText.dumps (JsonText.dumps_indent 0)
           100 json_text_loads_wf json_text_loads_dumps sample_disk "genesis_local.json").
  intros text data fixed Htext Hdata Hfixed.
  assert (sample_disk !! "genesis_local.json" = Some sample_genesis_text) as Hdisk
    by (vm_compute; reflexivity).
  rewrite Hdisk in Htext. injection Htext as <-.
  rewrite sample_genesis_loads in Hdata. injection Hdata as <-.
  assert (outcome (FixGenesisCoinbase.fix_coinbase_in_json JsonText.loads
                     JsonText.dumps 100 sample_genesis) = Ok sample_genesis_fixed)
    as Hrun by (vm_compute; reflexivity).
  rewrite Hrun in Hfixed. injection Hfixed as <-. exact Hreads.
Defined.

(** X7 on the genesis directory with one file in it. *)
Lemma main_fixes_each_file_witness :
  let path := FixGenesisMain.join FixGenesisMain.genesis_dir "genesis_local.json" in
  let fs' := FixGenesisMain.main_files_after genesis_disk
               (FixGenesisMain.main JsonText.loads JsonText.dumps
                  (JsonText.dumps_indent 0) 100 genesis_disk) in
  In "genesis_local.json" FixGenesisMain.files_to_fix
  /\ fs' !! path
     = FixGenesisCoinbase.files_after genesis_disk
         (FixGenesisCoinbase.fix_genesis_file JsonText.loads JsonText.dumps
            (JsonText.dumps_indent 0) 100 genesis_disk path) !! path
  /\ fs' !! "/etc/passwd" = genesis_disk !! "/etc/passwd".
Proof.
  intros path fs'.
  assert (In "genesis_local.json" FixGenesisMain.files_to_fix) as Hin
    by (simpl; tauto).
  destruct (main_fixes_each_file JsonText.loads JsonText.dumps
              (JsonText.dumps_indent 0) 100 genesis_disk) as (Heach & Hframe).
  split; [exact Hin|]. split.
  - exact (Heach "genesis_local.json" path Hin (or_introl eq_refl)).
  - apply Hframe. apply (bool_decide_unpack _). vm_compute. exact I.
Defined.

(** X8 on the same directory: the mainnet genesis is missing, the local
    one is not. *)
Lemma main_reports_missing_files_witness :
  let run := FixGenesisMain.main JsonText.loads JsonText.dumps
               (JsonText.dumps_indent 0) 100 genesis_disk in
  In (FixGenesisMain.FileNotFound
        (FixGenesisMain.join FixGenesisMain.genesis_dir "genesis_mainnet.json")) run
  /\ ~ In (FixGenesisMain.FileNotFound
             (FixGenesisMain.join FixGenesisMain.genesis_dir "genesis_local.json")) run.
Proof.
  intros run. split.
  - apply (main_reports_missing_files JsonText.loads JsonText.dumps
             (JsonText.dumps_indent 0) 100 genesis_disk).
    exists "genesis_mainnet.json". split; [simpl; tauto|]. split; reflexivity.
  - intros H.
    apply (main_reports_missing_files JsonText.loads JsonText.dumps
             (JsonText.dumps_indent 0) 100 genesis_disk) in H
      as (filename & _ & _ & Hnone).
    vm_compute in Hnone. discriminate.
Defined.




(** X13 on a node that answers with arrays: the export raises and the
    API check does not run. *)
Lemma script_keeps_export_witness :
  outcome (ExportBlockchainRpc.export_blockchain array_node) = Raise TypeError
  /\ outcome (LuxApis.script array_node) = Raise TypeError
  /\ LuxApis.api_messages (effects (LuxApis.script array_node)) = [].
Proof.
  split; [reflexivity|].
  exact (proj2 (script_keeps_export array_node ∅) TypeError eq_refl).
Defined.

(** X14 on the node at height 3. *)
Lemma get_block_height_agrees_witness :
  outcome (ExportBlockchainRpc.get_current_height node_at_height_3) = Ok 3%Z
  /\ outcome (CheckBalance.get_block_height node_at_height_3 (fun _ => true))
     = Ok (Some 3%Z).
Proof.
  split; [reflexivity|].
  exact (proj1 (proj2 (get_block_height_agrees node_at_height_3 (fun _ => true)))
           3%Z eq_refl ltac:(discriminate) eq_refl).
Defined.

(** X15 on an export of two block records and a state record. *)
Lemma analyze_counts_records_witness :
  ReadMigratedState.report JsonText.loads counted_export = Some (2%N, 1%N, 1)
  /\ 2%N = N.of_nat (length (List.filter (is_block JsonText.loads) counted_export))
  /\ 1%N = N.of_nat (length (List.filter (is_state JsonText.loads) counted_export)).
Proof.
  assert (ReadMigratedState.report JsonText.loads counted_export = Some (2%N, 1%N, 1))
    as Hreport by (vm_compute; reflexivity).
  split; [exact Hreport|].
  exact (analyze_counts_records JsonText.loads counted_export 2 1 1 Hreport).
Defined.

(** X16 on the same export: two block records under one key. *)
Lemma analyze_unique_keys_witness :
  ReadMigratedState.report JsonText.loads counted_export = Some (2%N, 1%N, 1)
  /\ 1 = size (block_keys JsonText.loads counted_export) /\ 1 <= N.to_nat 2.
Proof.
  assert (ReadMigratedState.report JsonText.loads counted_export = Some (2%N, 1%N, 1))
    as Hreport by (vm_compute; reflexivity).
  split; [exact Hreport|].
  exact (analyze_unique_keys JsonText.loads counted_export 2 1 1 Hreport).
Defined.


End MoreInstances.
